(** * Reject-sampling engine of [sdv.tabular.base.BaseTabularModel]

    A shallow embedding of the conditional reject-sampling code of
    [sdv/tabular/base.py] (and of the parts of [sdv/metadata/table.py] it
    calls), with the properties of the engine proved about it.

    Python [int] is [Z]; Python [float] (and numpy [float64]) is Rocq's
    primitive binary64 [float], so the arithmetic below rounds exactly as
    the interpreter does.  A pandas [DataFrame] is a list of labelled rows
    together with the dtype kind of each of its columns. *)

From Stdlib Require Import ZArith Floats Lia Sorting.Permutation.
From stdpp Require Import gmap strings list fin_maps.

Local Open Scope string_scope.
Local Open Scope Z_scope.
Local Open Scope list_scope.
Set Warnings "-inexact-float".

(** ** Python scalars and numpy dtype kinds *)

(** The scalars that occur as cells of a frame and as condition values. *)
Inductive scalar :=
  | SFloat (f : float)
  | SInt (z : Z)
  | SStr (s : string).

(** [dtype.kind]: ['f'], ['i'] and ['O']. *)
Inductive kind := KFloat | KInt | KObj.

Definition kind_eqb (a b : kind) : bool :=
  match a, b with
  | KFloat, KFloat | KInt, KInt | KObj, KObj => true
  | _, _ => false
  end.

(** The dtype kind pandas infers for a column filled with one scalar. *)
Definition scalar_kind (v : scalar) : kind :=
  match v with
  | SFloat _ => KFloat
  | SInt _ => KInt
  | SStr _ => KObj
  end.

(** [float(z)]: the integer rounded to nearest-even binary64; exact for
    [|z| <= 2^53]. *)
Definition Z2F (z : Z) : float :=
  SF2Prim (binary_normalize prec emax z 0 false).

(** The float a numeric scalar denotes in float arithmetic; a string has
    none (Python raises [TypeError]). *)
Definition scalar_to_float (v : scalar) : option float :=
  match v with
  | SFloat f => Some f
  | SInt z => Some (Z2F z)
  | SStr _ => None
  end.

(** Python's [==] on scalars, as numpy applies it element-wise: numbers are
    compared numerically (an [int] against a [float] after conversion, and
    [nan] differs from everything), strings by content, and a string never
    equals a number. *)
Definition py_eq (a b : scalar) : bool :=
  match a, b with
  | SFloat x, SFloat y => (x =? y)%float
  | SInt x, SInt y => (x =? y)%Z
  | SInt x, SFloat y => (Z2F x =? y)%float
  | SFloat x, SInt y => (x =? Z2F y)%float
  | SStr x, SStr y => String.eqb x y
  | _, _ => false
  end.

Definition scalar_is_nan (v : scalar) : bool :=
  match v with
  | SFloat f => is_nan f
  | _ => false
  end.

(** ** Exceptions *)

(** A condition: the [dict] of column values, as its items in insertion
    order. *)
Abbreviation conditions_t := (list (string * scalar)).

(** The pieces of a formatted message (an f-string): literal text and the
    values put into its holes. *)
Inductive fpart :=
  | FText (s : string)
  | FInt (z : Z)
  | FCond (c : option conditions_t).

Abbreviation message := (list fpart).

Inductive exn :=
  | TypeError (msg : message)
  | ValueError (msg : message)
  | AssertionError (msg : message)
  | KeyError (key : string)
  | FileNotFoundError (path : string)
  | AttributeError (name : string)
  | ZeroDivisionError
  | OverflowError
  | NotImplementedError
  | ConstraintsNotMetError (msg : message)
  | InsufficientRows (msg : message).

Definition exn_message (e : exn) : message :=
  match e with
  | TypeError m | ValueError m | AssertionError m
  | ConstraintsNotMetError m | InsufficientRows m => m
  | KeyError k => [FText k]
  | FileNotFoundError p => [FText p]
  | AttributeError n => [FText n]
  | ZeroDivisionError | OverflowError | NotImplementedError => []
  end.

(** Whether the literal text of a message contains [needle]. *)
Definition mentions (needle : string) (m : message) : bool :=
  existsb
    (fun p =>
       match p with
       | FText s => match String.index 0 needle s with Some _ => true | None => false end
       | _ => false
       end)
    m.

(** ** Data frames *)

(** A row maps column names to cells. *)
Abbreviation Row := (gmap string scalar).

(** [df_columns] lists the columns in order with their dtype kinds;
    [df_rows] lists the rows in order, each with its index label. *)
Record DataFrame := mkDF {
  df_columns : list (string * kind);
  df_rows : list (scalar * Row)
}.

(** [pd.DataFrame()]. *)
Definition empty_frame : DataFrame := mkDF [] [].

(** [len(df)]. *)
Definition len (df : DataFrame) : Z := Z.of_nat (length (df_rows df)).

Fixpoint assoc {A} (k : string) (l : list (string * A)) : option A :=
  match l with
  | [] => None
  | (k', a) :: l' => if String.eqb k k' then Some a else assoc k l'
  end.

(** [df[column].dtype.kind], when the column exists. *)
Definition column_kind (df : DataFrame) (column : string) : option kind :=
  assoc column (df_columns df).

(** [df[mask]] for a mask computed row by row. *)
Definition filter_rows (p : Row -> bool) (df : DataFrame) : DataFrame :=
  mkDF (df_columns df) (List.filter (fun ir => p (snd ir)) (df_rows df)).

Fixpoint set_kind (column : string) (k : kind) (cols : list (string * kind))
  : list (string * kind) :=
  match cols with
  | [] => [(column, k)]
  | (c, k') :: cols' =>
      if String.eqb column c then (c, k) :: cols'
      else (c, k') :: set_kind column k cols'
  end.

(** [df[column] = value] with a scalar: every row receives the value and the
    column takes the value's dtype (a new column is appended). *)
Definition assign_scalar (column : string) (value : scalar) (df : DataFrame)
  : DataFrame :=
  mkDF (set_kind column (scalar_kind value) (df_columns df))
       (List.map (fun ir => (fst ir, <[column := value]> (snd ir))) (df_rows df)).

(** The float held by a cell of a float column ([nan] when missing). *)
Definition cell_float (r : Row) (column : string) : float :=
  match r !! column with
  | Some v => match scalar_to_float v with Some f => f | None => nan end
  | None => nan
  end.

(** [row[column] == value]; a missing cell equals nothing. *)
Definition cell_eq (r : Row) (column : string) (value : scalar) : bool :=
  match r !! column with
  | Some v => py_eq v value
  | None => false
  end.

(** ** [BaseTabularModel._filter_conditions] *)

(** [conditions.items()] is the list of pairs in insertion order. *)
Fixpoint _filter_conditions (sampled : DataFrame)
    (conditions : list (string * scalar)) (float_rtol : float)
  : exn + DataFrame :=
  match conditions with
  | [] => inr sampled
  | (column, value) :: conditions' =>
      match column_kind sampled column with
      | None => inl (KeyError column)
      | Some KFloat =>
          match scalar_to_float value with
          | None => inl (TypeError [FText "can't multiply sequence by non-int of type 'float'"])
          | Some v =>
              let distance := (v * float_rtol)%float in
              let sampled :=
                filter_rows
                  (fun r => (abs (cell_float r column - v) <=? distance)%float)
                  sampled in
              let sampled := assign_scalar column value sampled in
              _filter_conditions sampled conditions' float_rtol
          end
      | Some _ =>
          let sampled := filter_rows (fun r => cell_eq r column value) sampled in
          _filter_conditions sampled conditions' float_rtol
      end
  end.

(** ** The pandas operations the engine uses *)

Definition NaN : scalar := SFloat nan.

(** The common dtype of two columns that are put together. *)
Definition kind_join (a b : kind) : kind :=
  match a, b with
  | KFloat, KFloat => KFloat
  | KInt, KInt => KInt
  | KInt, KFloat | KFloat, KInt => KFloat
  | _, _ => KObj
  end.

(** A cell stored in a column of kind [k]: integers become floats in a float
    column. *)
Definition coerce (k : kind) (v : scalar) : scalar :=
  match k, v with
  | KFloat, SInt z => SFloat (Z2F z)
  | _, _ => v
  end.

(** [range(n)] as index labels. *)
Definition range_index (n : nat) : list scalar :=
  List.map (fun i => SInt (Z.of_nat i)) (seq 0 n).

(** Replace the index labels by [0 .. len-1]. *)
Definition relabel (rows : list (scalar * Row)) : list (scalar * Row) :=
  List.map (fun ir => (fst ir, snd (snd ir)))
    (combine (range_index (length rows)) rows).

(** [df.head(n)]: the first [n] rows, or all but the last [-n]. *)
Definition head (n : Z) (df : DataFrame) : DataFrame :=
  mkDF (df_columns df)
    (firstn (Z.to_nat (if n <? 0 then len df + n else n)) (df_rows df)).

(** [df.tail(n)]: the last [n] rows, or all but the first [-n]. *)
Definition tail (n : Z) (df : DataFrame) : DataFrame :=
  mkDF (df_columns df)
    (skipn (Z.to_nat (if n <? 0 then - n else len df - n)) (df_rows df)).

Definition has_column (df : DataFrame) (c : string) : bool :=
  match column_kind df c with Some _ => true | None => false end.

Definition mem_string (c : string) (l : list string) : bool :=
  existsb (String.eqb c) l.

(** Union of the column names, in order of first appearance. *)
Definition union_columns (frames : list DataFrame) : list string :=
  fold_left
    (fun acc df =>
       fold_left (fun acc c => if mem_string c acc then acc else acc ++ [c])
         (List.map fst (df_columns df)) acc)
    frames [].

Definition has_rows (df : DataFrame) : bool :=
  match df_rows df with [] => false | _ => true end.

(** The dtype of column [c] in the concatenation: the join over the frames
    that have rows (a frame without the column contributes missing values,
    which are floats); frames without rows do not take part, unless no frame
    has rows. *)
Definition concat_kind (frames : list DataFrame) (c : string) : kind :=
  let live := List.filter has_rows frames in
  let ks :=
    match live with
    | [] => omap (fun df => column_kind df c) frames
    | _ => List.map (fun df => default KFloat (column_kind df c)) live
    end in
  match ks with
  | [] => KObj
  | k :: ks' => fold_left kind_join ks' k
  end.

(** A row laid out on the given columns: missing cells are [NaN]. *)
Definition conform (cols : list (string * kind)) (r : Row) : Row :=
  list_to_map
    (List.map (fun ck => (fst ck, coerce (snd ck) (default NaN (r !! fst ck)))) cols).

(** [pd.concat(frames, ignore_index=ignore_index)]. *)
Definition pd_concat (frames : list DataFrame) (ignore_index : bool)
  : exn + DataFrame :=
  match frames with
  | [] => inl (ValueError [FText "No objects to concatenate"])
  | _ =>
      let cols :=
        List.map (fun c => (c, concat_kind frames c)) (union_columns frames) in
      let rows :=
        List.concat
          (List.map
             (fun df => List.map (fun ir => (fst ir, conform cols (snd ir))) (df_rows df))
             frames) in
      inr (mkDF cols (if ignore_index then relabel rows else rows))
  end.

(** [pd.DataFrame(index=range(n))]: [n] rows and no column. *)
Definition frame_of_range (n : Z) : DataFrame :=
  mkDF [] (List.map (fun l => (l, (∅ : Row))) (range_index (Z.to_nat n))).

(** [pd.DataFrame(column_values, index=range(n))]. *)
Definition frame_of_dict (column_values : list (string * scalar)) (n : Z)
  : DataFrame :=
  mkDF (List.map (fun cv => (fst cv, scalar_kind (snd cv))) column_values)
       (List.map (fun l => (l, (list_to_map column_values : Row)))
          (range_index (Z.to_nat n))).

(** Order on scalars used by the sorts: numbers numerically, strings
    lexicographically, numbers before strings. *)
Definition scalar_leb (a b : scalar) : bool :=
  match a, b with
  | SInt x, SInt y => (x <=? y)%Z
  | SStr x, SStr y => String.leb x y
  | SStr _, _ => false
  | _, SStr _ => true
  | _, _ =>
      match scalar_to_float a, scalar_to_float b with
      | Some x, Some y => (x <=? y)%float
      | _, _ => false
      end
  end.

Fixpoint key_eqb (a b : list scalar) : bool :=
  match a, b with
  | [], [] => true
  | x :: a', y :: b' => py_eq x y && key_eqb a' b'
  | _, _ => false
  end.

(** Lexicographic order on group keys. *)
Fixpoint key_leb (a b : list scalar) : bool :=
  match a, b with
  | [], _ => true
  | _ :: _, [] => false
  | x :: a', y :: b' =>
      if py_eq x y then key_leb a' b' else scalar_leb x y
  end.

Section Sorting.
Context {A : Type} (leb : A -> A -> bool).

Fixpoint insert_sorted (x : A) (l : list A) : list A :=
  match l with
  | [] => [x]
  | y :: l' => if leb x y then x :: y :: l' else y :: insert_sorted x l'
  end.

(** A stable insertion sort. *)
Definition sort_by (l : list A) : list A :=
  fold_right insert_sorted [] l.
End Sorting.

Fixpoint dedup_keys (l : list (list scalar)) : list (list scalar) :=
  match l with
  | [] => []
  | k :: l' => k :: List.filter (fun k' => negb (key_eqb k' k)) (dedup_keys l')
  end.

Definition row_key (cols : list string) (r : Row) : list scalar :=
  List.map (fun c => default NaN (r !! c)) cols.

(** [df.groupby(cols)], iterated: the groups in sorted key order, each with
    the rows (and labels) of the frame that carry the key; rows with a
    missing value in the key are dropped. *)
Definition groupby (cols : list string) (df : DataFrame)
  : exn + list (list scalar * DataFrame) :=
  match cols with
  | [] => inl (ValueError [FText "No group keys passed!"])
  | _ =>
      match List.find (fun c => negb (has_column df c)) cols with
      | Some c => inl (KeyError c)
      | None =>
          let keys :=
            List.filter (fun k => negb (existsb scalar_is_nan k))
              (List.map (fun ir => row_key cols (snd ir)) (df_rows df)) in
          inr (List.map
                 (fun k =>
                    (k, filter_rows (fun r => key_eqb (row_key cols r) k) df))
                 (sort_by key_leb (dedup_keys keys)))
      end
  end.

(** The dtype of a column built from the given cells. *)
Definition cells_kind (l : list scalar) : kind :=
  match l with
  | [] => KObj
  | v :: l' => fold_left kind_join (List.map scalar_kind l') (scalar_kind v)
  end.

(** [df.index.name = name; df.reset_index()]: the labels become the first
    column and the index is renumbered. *)
Definition reset_index (name : string) (df : DataFrame) : exn + DataFrame :=
  if has_column df name
  then inl (ValueError [FText "cannot insert, already exists"])
  else
    inr (mkDF ((name, cells_kind (List.map fst (df_rows df))) :: df_columns df)
           (relabel
              (List.map (fun ir => (fst ir, <[name := fst ir]> (snd ir)))
                 (df_rows df)))).

Definition remove_column (c : string) (cols : list (string * kind))
  : list (string * kind) :=
  List.filter (fun ck => negb (String.eqb c (fst ck))) cols.

(** [df.set_index(name)]. *)
Definition set_index (name : string) (df : DataFrame) : exn + DataFrame :=
  if has_column df name
  then
    inr (mkDF (remove_column name (df_columns df))
           (List.map
              (fun ir => (default NaN (snd ir !! name), delete name (snd ir)))
              (df_rows df)))
  else inl (KeyError name).

(** Order of the labels in [sort_index]: missing labels last. *)
Definition label_leb (a b : scalar) : bool :=
  if scalar_is_nan b then true
  else if scalar_is_nan a then false
  else scalar_leb a b.

(** [df.sort_index()]. *)
Definition sort_index (df : DataFrame) : DataFrame :=
  mkDF (df_columns df)
       (sort_by (fun x y => label_leb (fst x) (fst y)) (df_rows df)).

(** [df[name]] as a series: its dtype and its labelled values. *)
Definition get_column (name : string) (df : DataFrame)
  : exn + kind * list (scalar * scalar) :=
  match column_kind df name with
  | None => inl (KeyError name)
  | Some k =>
      inr (k, List.map (fun ir => (fst ir, default NaN (snd ir !! name)))
                (df_rows df))
  end.

Fixpoint lookup_label (l : scalar) (series : list (scalar * scalar))
  : option scalar :=
  match series with
  | [] => None
  | (l', v) :: series' => if py_eq l l' then Some v else lookup_label l series'
  end.

(** [df[name] = series]: the values are aligned on the index labels, and a
    label of [df] the series lacks receives a missing value. *)
Definition assign_series (name : string) (series : kind * list (scalar * scalar))
    (df : DataFrame) : DataFrame :=
  let vals := List.map (fun ir => lookup_label (fst ir) (snd series)) (df_rows df) in
  let k :=
    if existsb (fun v => match v with None => true | Some _ => false end) vals
    then kind_join (fst series) KFloat else fst series in
  mkDF (set_kind name k (df_columns df))
       (List.map
          (fun irv =>
             (fst (fst irv),
              <[name := coerce k (default NaN (snd irv))]> (snd (fst irv))))
          (combine (df_rows df) vals)).

(** [df[name] = values] with an array: the values are taken by position. *)
Definition assign_values (name : string) (k : kind) (values : list scalar)
    (df : DataFrame) : exn + DataFrame :=
  if (length values =? length (df_rows df))%nat
  then
    inr (mkDF (set_kind name k (df_columns df))
           (List.map
              (fun irv => (fst (fst irv), <[name := snd irv]> (snd (fst irv))))
              (combine (df_rows df) values)))
  else inl (ValueError [FText "Length of values does not match length of index"]).

(** [df.iloc[0].to_frame().T]: the first row as a frame of its own; its cells
    share one dtype. *)
Definition first_row_frame (df : DataFrame) : exn + DataFrame :=
  match df_rows df with
  | [] => inl (KeyError "single positional indexer is out-of-bounds")
  | (l, r) :: _ =>
      let k :=
        match List.map snd (df_columns df) with
        | [] => KObj
        | k :: ks => fold_left kind_join ks k
        end in
      let cols := List.map (fun ck => (fst ck, k)) (df_columns df) in
      inr (mkDF cols [(l, conform cols r)])
  end.

(** [series.is_unique] for a column. *)
Fixpoint is_unique (l : list scalar) : bool :=
  match l with
  | [] => true
  | v :: l' => negb (existsb (py_eq v) l') && is_unique l'
  end.

(** ** Python arithmetic used by the loop *)

(** [a / b] on integers (true division): Python rounds the exact quotient
    to the nearest float; for operands below [2^53] in absolute value, which
    floats hold exactly, that is the quotient of the two floats. *)
Definition py_truediv (a b : Z) : exn + float :=
  if b =? 0 then inl ZeroDivisionError else inr (Z2F a / Z2F b)%float.

(** [a / x] with an integer and a float. *)
Definition py_div_float (a : Z) (x : float) : exn + float :=
  if (x =? 0)%float then inl ZeroDivisionError else inr (Z2F a / x)%float.

(** The integer part of a finite float, towards zero. *)
Definition trunc_SF (x : spec_float) : option Z :=
  match x with
  | S754_zero _ => Some 0
  | S754_finite s m e =>
      Some (cond_Zopp s (if 0 <=? e then Z.pos m * 2 ^ e else Z.pos m / 2 ^ (- e)))
  | _ => None
  end.

(** [int(x)]. *)
Definition py_int (x : float) : exn + Z :=
  match Prim2SF x with
  | S754_nan => inl (ValueError [FText "cannot convert float NaN to integer"])
  | S754_infinity _ => inl OverflowError
  | sf => match trunc_SF sf with Some z => inr z | None => inl OverflowError end
  end.

(** [math.ceil(x)]. *)
Definition py_ceil (x : float) : exn + Z :=
  match Prim2SF x with
  | S754_nan => inl (ValueError [FText "cannot convert float NaN to integer"])
  | S754_infinity _ => inl OverflowError
  | S754_zero _ => inr 0
  | S754_finite s m e =>
      if 0 <=? e then inr (cond_Zopp s (Z.pos m * 2 ^ e))
      else if s then inr (- (Z.pos m / 2 ^ (- e)))
      else inr (- ((- Z.pos m) / 2 ^ (- e)))
  end.

(** ** The model and its metadata *)

(** What [self._model] is. *)
Inductive model_attr :=
  | NoModelAttr            (* the instance has no [_model] attribute *)
  | ModelNone              (* [self._model is None] *)
  | GaussianMultivariate   (* a [copulas.multivariate.GaussianMultivariate] *)
  | OtherModel.

(** One entry of [Table._fields_metadata]: ['type'], ['subtype'] (default
    ['integer']) and ['regex'] (default ['[a-zA-Z]+']). *)
Record field_meta := mkField {
  fm_type : string;
  fm_subtype : string;
  fm_regex : string
}.

(** [BaseTabularModel] is abstract: a subclass brings the row generator
    ([_sample], [_set_random_state], [_model]), and the fitted [Table]
    metadata brings the transform pipeline.  [gen_state] is the state of the
    generator (its random state included). *)
Class TabularModel := {
  gen_state : Type;
  _model : model_attr;
  _sample : Z -> option conditions_t -> gen_state -> (exn + DataFrame) * gen_state;
  _set_random_state : option Z -> gen_state -> gen_state;
  _fields_metadata : list (string * field_meta);
  (** [constraint.filter_valid] of each of [Table._constraints] *)
  _constraints : list (DataFrame -> DataFrame);
  (** [Table.reverse_transform] *)
  reverse_transform : DataFrame -> exn + DataFrame;
  (** [Table.transform(data, is_condition=True)] *)
  transform : DataFrame -> exn + DataFrame;
  (** [sdv.metadata.utils.strings_from_regex]: the generated strings and how
      many there are *)
  strings_from_regex : string -> (nat -> string) * Z
}.

Definition COND_IDX : string := "__condition_index__".
Definition FIXED_RNG_SEED : Z := 73251.
Definition TMP_FILE_NAME : string := ".sample.csv.temp".
Definition DISABLE_TMP_FILE : string := "disable".

(** ** The world the engine runs in *)

(** A line of a CSV file. *)
Inductive csv_line :=
  | CsvHeader (columns : list string)
  | CsvRow (cells : list scalar).

(** The file system (files by absolute path) with the working directory, the
    state of the generator, the count sent to the progress bar, and the log
    of the calls made to the generator. *)
Record World `{TabularModel} := mkWorld {
  w_fs : gmap string (list csv_line);
  w_cwd : string;
  w_gen : gen_state;
  w_progress : Z;
  w_calls : list (Z * option conditions_t)
}.
Arguments mkWorld {_} _ _ _ _ _.

Section Engine.
Context `{TM : TabularModel}.

(** Computations that read and change the world and may raise. *)
Definition M (A : Type) : Type := World -> (exn + A) * World.

Definition ret {A} (a : A) : M A := fun w => (inr a, w).

Definition bind {A B} (m : M A) (k : A -> M B) : M B :=
  fun w =>
    match m w with
    | (inl e, w') => (inl e, w')
    | (inr a, w') => k a w'
    end.

Definition raise {A} (e : exn) : M A := fun w => (inl e, w).

Definition lift {A} (r : exn + A) : M A :=
  match r with
  | inl e => raise e
  | inr a => ret a
  end.

(** [try: m except: h]; [h] tells which exceptions it handles. *)
Definition try_except {A} (m : M A) (h : exn -> option (M A)) : M A :=
  fun w =>
    match m w with
    | (inl e, w') => match h e with Some k => k w' | None => (inl e, w') end
    | r => r
    end.

End Engine.

Notation "x <- c1 ;; c2" := (bind c1 (fun x => c2))
  (at level 100, c1 at next level, right associativity).
Notation "c1 ;; c2" := (bind c1 (fun _ => c2))
  (at level 100, right associativity).

Section Files.
Context `{TM : TabularModel}.

(** [os.path.abspath] (without the normalisation of [.] and [..]). *)
Definition abspath (w : World) (path : string) : string :=
  if String.prefix "/" path then path else w_cwd w ++ "/" ++ path.

(** The working directory is an absolute path, as the operating system has
    it. *)
Definition cwd_absolute (w : World) : bool := String.prefix "/" (w_cwd w).

Definition set_fs (fs : gmap string (list csv_line)) (w : World) : World :=
  mkWorld fs (w_cwd w) (w_gen w) (w_progress w) (w_calls w).

(** [os.path.exists(path)]. *)
Definition path_exists (path : string) : M bool :=
  fun w => (inr (bool_decide (is_Some (w_fs w !! abspath w path))), w).

(** [os.remove(path)]. *)
Definition os_remove (path : string) : M unit :=
  fun w =>
    match w_fs w !! abspath w path with
    | None => (inl (FileNotFoundError path), w)
    | Some _ => (inr tt, set_fs (delete (abspath w path) (w_fs w)) w)
    end.

(** [with open(path, 'w+'): pass]: the file is created, or emptied. *)
Definition create_file (path : string) : M unit :=
  fun w => (inr tt, set_fs (<[abspath w path := []]> (w_fs w)) w).

(** [os.path.getsize(path)], as the number of lines. *)
Definition getsize (path : string) : M Z :=
  fun w =>
    match w_fs w !! abspath w path with
    | None => (inl (FileNotFoundError path), w)
    | Some lines => (inr (Z.of_nat (length lines)), w)
    end.

Definition csv_rows (df : DataFrame) : list csv_line :=
  List.map
    (fun ir => CsvRow (List.map (fun ck => default NaN (snd ir !! fst ck)) (df_columns df)))
    (df_rows df).

(** [df.to_csv(path, index=False)], or with [mode='a', header=False] when
    [append]. *)
Definition to_csv (path : string) (append : bool) (df : DataFrame) : M unit :=
  fun w =>
    let old := default [] (w_fs w !! abspath w path) in
    let lines :=
      if append then old ++ csv_rows df
      else CsvHeader (List.map fst (df_columns df)) :: csv_rows df in
    (inr tt, set_fs (<[abspath w path := lines]> (w_fs w)) w).

(** [progress_bar.update(n)]. *)
Definition progress_update (n : Z) : M unit :=
  fun w =>
    (inr tt, mkWorld (w_fs w) (w_cwd w) (w_gen w) (w_progress w + n) (w_calls w)).

(** A call [self._sample(num_rows, conditions)]. *)
Definition call_sample (num_rows : Z) (conditions : option conditions_t)
  : M DataFrame :=
  fun w =>
    let '(r, g) := _sample num_rows conditions (w_gen w) in
    (r, mkWorld (w_fs w) (w_cwd w) g (w_progress w)
          (w_calls w ++ [(num_rows, conditions)])).

(** A call [self._set_random_state(seed)]. *)
Definition call_set_random_state (seed : option Z) : M unit :=
  fun w =>
    (inr tt, mkWorld (w_fs w) (w_cwd w) (_set_random_state seed (w_gen w))
               (w_progress w) (w_calls w)).

(** Python truthiness of an optional path. *)
Definition truthy_path (p : option string) : bool :=
  match p with
  | Some s => negb (String.eqb s "")
  | None => false
  end.

End Files.

(** [sdv.sampling.Condition]: the column values and the number of rows
    asked for. *)
Record Condition := mkCondition {
  get_column_values : conditions_t;
  get_num_rows : Z
}.

Section Sampling.
Context `{TM : TabularModel}.

(** [self._metadata.get_dtypes(ids=False)] is not empty: some field is not
    an id. *)
Definition has_data_columns : bool :=
  existsb (fun nf => negb (String.eqb (fm_type (snd nf)) "id")) _fields_metadata.

(** [Table.filter_valid]. *)
Definition filter_valid (data : DataFrame) : DataFrame :=
  fold_left (fun data constraint => constraint data) _constraints data.

(** [BaseTabularModel._sample_rows]. *)
Definition _sample_rows (num_rows : Z) (conditions : option conditions_t)
    (transformed_conditions : option conditions_t) (float_rtol : float)
    (previous_rows : option DataFrame) : M (DataFrame * Z) :=
  if has_data_columns then
    sampled <-
      match conditions with
      | None => call_sample num_rows None
      | Some _ =>
          try_except (call_sample num_rows transformed_conditions)
            (fun e =>
               match e with
               | NotImplementedError => Some (call_sample num_rows None)
               | _ => None
               end)
      end ;;
    sampled <- lift (reverse_transform sampled) ;;
    sampled <-
      match previous_rows with
      | Some previous => lift (pd_concat [previous; sampled] true)
      | None => ret sampled
      end ;;
    let sampled := filter_valid sampled in
    sampled <-
      match conditions with
      | Some c => lift (_filter_conditions sampled c float_rtol)
      | None => ret sampled
      end ;;
    ret (sampled, len sampled)
  else
    sampled <- lift (reverse_transform (frame_of_range num_rows)) ;;
    ret (sampled, num_rows).

(** The local variables of the loop of [_sample_batch]. *)
Record batch_state := mkBatch {
  num_rows_to_sample : Z;
  counter : Z;
  num_valid : Z;
  prev_num_valid : option Z;
  remaining : Z;
  sampled : DataFrame
}.

(** Lines 338-339 of [_sample_batch]:
    [valid_rate = max(num_new_valid_rows, 1) / max(num_rows_to_sample, 1)] and
    [min(10 * batch_size, int(remaining / valid_rate))]. *)
Definition next_request_size (batch_size remaining num_new_valid_rows
    num_rows_to_sample : Z) : exn + Z :=
  match py_truediv (Z.max num_new_valid_rows 1) (Z.max num_rows_to_sample 1) with
  | inl e => inl e
  | inr valid_rate =>
      match py_div_float remaining valid_rate with
      | inl e => inl e
      | inr q =>
          match py_int q with
          | inl e => inl e
          | inr n => inr (Z.min (10 * batch_size) n)
          end
      end
  end.

(** One round: the body of the [while] loop of [_sample_batch]. *)
Definition _sample_batch_round (batch_size : Z) (conditions : option conditions_t)
    (transformed_conditions : option conditions_t) (float_rtol : float)
    (progress_bar : bool) (output_file_path : option string)
    (st : batch_state) : M batch_state :=
  let prev_num_valid := num_valid st in
  r <- _sample_rows (num_rows_to_sample st) conditions transformed_conditions
         float_rtol (Some (sampled st)) ;;
  let sampled := fst r in
  let num_valid := snd r in
  let num_new_valid_rows := num_valid - prev_num_valid in
  let num_increase := Z.min num_new_valid_rows (remaining st) in
  (if 0 <? num_increase then
     (match output_file_path with
      | Some path =>
          if truthy_path output_file_path then
            size <- getsize path ;;
            to_csv path (0 <? size)
              (tail num_increase (head (Z.min (len sampled) batch_size) sampled))
          else ret tt
      | None => ret tt
      end) ;;
     (if progress_bar then progress_update num_increase else ret tt)
   else ret tt) ;;
  let remaining := batch_size - num_valid in
  n <- lift (next_request_size batch_size remaining num_new_valid_rows
               (num_rows_to_sample st)) ;;
  ret (mkBatch n (counter st + 1) num_valid (Some prev_num_valid) remaining sampled).

(** The [while num_valid < batch_size] loop; [tries_left] is
    [max_tries - counter], so that [counter >= max_tries] is [tries_left = 0]. *)
Fixpoint _sample_batch_loop (tries_left : nat) (batch_size : Z)
    (conditions transformed_conditions : option conditions_t) (float_rtol : float)
    (progress_bar : bool) (output_file_path : option string)
    (st : batch_state) : M batch_state :=
  if num_valid st <? batch_size then
    match tries_left with
    | O => ret st
    | S tries_left' =>
        st' <- _sample_batch_round batch_size conditions transformed_conditions
                 float_rtol progress_bar output_file_path st ;;
        _sample_batch_loop tries_left' batch_size conditions transformed_conditions
          float_rtol progress_bar output_file_path st'
    end
  else ret st.

(** The state the loop starts from. *)
Definition batch_init (batch_size : Z) : batch_state :=
  mkBatch batch_size 0 0 None batch_size empty_frame.

(** [BaseTabularModel._sample_batch]. *)
Definition _sample_batch (batch_size max_tries : Z)
    (conditions transformed_conditions : option conditions_t) (float_rtol : float)
    (progress_bar : bool) (output_file_path : option string) : M DataFrame :=
  st <- _sample_batch_loop (Z.to_nat max_tries) batch_size conditions
          transformed_conditions float_rtol progress_bar output_file_path
          (batch_init batch_size) ;;
  ret (head (Z.min (len (sampled st)) batch_size) (sampled st)).

(** [for step in range(steps): sampled.append(run)]. *)
Fixpoint collect_batches (steps : nat) (run : M DataFrame) : M (list DataFrame) :=
  match steps with
  | O => ret []
  | S steps' =>
      rows <- run ;;
      rest <- collect_batches steps' run ;;
      ret (rows :: rest)
  end.

(** [BaseTabularModel._sample_in_batches]. *)
Definition _sample_in_batches (num_rows batch_size max_tries_per_batch : Z)
    (conditions transformed_conditions : option conditions_t) (float_rtol : float)
    (progress_bar : bool) (output_file_path : option string) : M DataFrame :=
  let batch_size := if batch_size <? num_rows then batch_size else num_rows in
  q <- lift (py_truediv num_rows batch_size) ;;
  steps <- lift (py_ceil q) ;;
  sampled <-
    collect_batches (Z.to_nat steps)
      (_sample_batch batch_size max_tries_per_batch conditions
         transformed_conditions float_rtol progress_bar output_file_path) ;;
  sampled <-
    match sampled with
    | [] => ret empty_frame
    | _ => lift (pd_concat sampled true)
    end ;;
  ret (head num_rows sampled).

(** [hasattr(self, '_model') and isinstance(self._model, GaussianMultivariate)]. *)
Definition is_gaussian : bool :=
  match _model with GaussianMultivariate => true | _ => false end.

(** [batch_size or default]. *)
Definition or_default (batch_size : option Z) (default : Z) : Z :=
  match batch_size with
  | Some b => if b =? 0 then default else b
  | None => default
  end.

(** [BaseTabularModel._conditionally_sample_rows]. *)
Definition _conditionally_sample_rows (dataframe : DataFrame)
    (condition : conditions_t) (transformed_condition : option conditions_t)
    (max_tries_per_batch : Z) (batch_size : option Z) (float_rtol : float)
    (graceful_reject_sampling : bool) (progress_bar : bool)
    (output_file_path : option string) : M DataFrame :=
  let batch_size := or_default batch_size (len dataframe) in
  sampled_rows <-
    _sample_in_batches (len dataframe) batch_size max_tries_per_batch
      (Some condition) transformed_condition float_rtol progress_bar
      output_file_path ;;
  if 0 <? len sampled_rows then
    tickets <- lift (get_column COND_IDX dataframe) ;;
    lift (assign_values COND_IDX (fst tickets)
            (firstn (Z.to_nat (len sampled_rows)) (List.map snd (snd tickets)))
            sampled_rows)
  else if negb graceful_reject_sampling then
    raise
      (ValueError
         ([FText "Unable to sample any rows for the given conditions `";
           FCond transformed_condition; FText "`. "]
          ++ (if is_gaussian then
                [FText "This may be because the provided values are out-of-bounds in the current model. \nPlease try again with a different set of values."]
              else
                [FText "Try increasing `max_tries_per_batch` (currently: ";
                 FInt max_tries_per_batch;
                 FText ") or increasing `batch_size` (currently: ";
                 FInt batch_size;
                 FText "). Note that increasing these values will also increase the sampling time."])))
  else ret sampled_rows.

(** [BaseTabularModel._validate_file_path]. *)
Definition _validate_file_path (output_file_path : option string)
  : M (option string) :=
  match output_file_path with
  | Some path =>
      if String.eqb path DISABLE_TMP_FILE then ret None
      else if truthy_path output_file_path then
        w_path <- (fun w => (inr (abspath w path), w)) ;;
        exists_ <- path_exists w_path ;;
        if (exists_ : bool) then
          raise (AssertionError [FText w_path; FText " already exists."])
        else
          create_file w_path ;;
          ret (Some w_path)
      else
        exists_ <- path_exists TMP_FILE_NAME ;;
        (if (exists_ : bool) then os_remove TMP_FILE_NAME else ret tt) ;;
        create_file TMP_FILE_NAME ;;
        ret (Some TMP_FILE_NAME)
  | None =>
      exists_ <- path_exists TMP_FILE_NAME ;;
      (if (exists_ : bool) then os_remove TMP_FILE_NAME else ret tt) ;;
      create_file TMP_FILE_NAME ;;
      ret (Some TMP_FILE_NAME)
  end.

(** [BaseTabularModel._randomize_samples]. *)
Definition _randomize_samples (randomize_samples : bool) : M unit :=
  match _model with
  | NoModelAttr => raise (AttributeError "_model")
  | ModelNone => ret tt
  | _ =>
      if randomize_samples then call_set_random_state None
      else call_set_random_state (Some FIXED_RNG_SEED)
  end.

(** Modelled from the spec: [sdv.tabular.utils.handle_sampling_error] is not
    part of the sources at hand.  The spec (4.2, 7) has a failure during
    sampling propagate through the error path, never swallowed, with the
    files written so far left in place. *)
Definition handle_sampling_error {A} (is_tmp_file : bool)
    (output_file_path : option string) (sampling_error : exn) : M A :=
  raise sampling_error.

(** [output_file_path == TMP_FILE_NAME]. *)
Definition is_tmp_file (output_file_path : option string) : bool :=
  match output_file_path with
  | Some path => String.eqb path TMP_FILE_NAME
  | None => false
  end.

(** The [else] branch of the [try] statements: the temporary file is removed
    after a clean run. *)
Definition remove_tmp_file (output_file_path : option string) : M unit :=
  if is_tmp_file output_file_path then
    exists_ <- path_exists TMP_FILE_NAME ;;
    if (exists_ : bool) then os_remove TMP_FILE_NAME else ret tt
  else ret tt.

(** [BaseTabularModel._sample_with_progress_bar]; [show_progress_bar] only
    decides whether the bar is displayed. *)
Definition _sample_with_progress_bar (num_rows : option Z)
    (randomize_samples : bool) (max_tries_per_batch : Z) (batch_size : option Z)
    (output_file_path : option string) (conditions : option (list Condition))
    (show_progress_bar : bool) : M DataFrame :=
  match conditions with
  | Some _ =>
      raise (TypeError [FText "This method does not support the conditions parameter. Please create `sdv.sampling.Condition` objects and pass them into the `sample_conditions` method. See User Guide or API for more details."])
  | None =>
      match num_rows with
      | None =>
          raise (ValueError [FText "You must specify the number of rows to sample (e.g. num_rows=100)."])
      | Some num_rows =>
          if num_rows =? 0 then ret empty_frame
          else
            _randomize_samples randomize_samples ;;
            output_file_path <- _validate_file_path output_file_path ;;
            let batch_size :=
              match batch_size with
              | Some b => if b =? 0 then num_rows else Z.min b num_rows
              | None => num_rows
              end in
            sampled <-
              try_except
                (_sample_in_batches num_rows batch_size max_tries_per_batch
                   None None 0.01%float true output_file_path)
                (fun error =>
                   Some (handle_sampling_error (is_tmp_file output_file_path)
                           output_file_path error)) ;;
            remove_tmp_file output_file_path ;;
            ret sampled
      end
  end.

(** [BaseTabularModel.sample]. *)
Definition sample (num_rows : option Z) (randomize_samples : bool)
    (max_tries_per_batch : Z) (batch_size : option Z)
    (output_file_path : option string) (conditions : option (list Condition))
  : M DataFrame :=
  let has_constraints := match _constraints with [] => false | _ => true end in
  let has_batches :=
    match batch_size, num_rows with
    | Some b, Some n => negb (b =? n)
    | Some _, None => true
    | None, _ => false
    end in
  let show_progress_bar := has_constraints || has_batches in
  _sample_with_progress_bar num_rows randomize_samples max_tries_per_batch
    batch_size output_file_path conditions show_progress_bar.

End Sampling.

Section Conditions.
Context `{TM : TabularModel}.

Fixpoint list_string_eqb (a b : list string) : bool :=
  match a, b with
  | [], [] => true
  | x :: a', y :: b' => String.eqb x y && list_string_eqb a' b'
  | _, _ => false
  end.

(** [condition_dataframes[key].append(df)] on the [defaultdict(list)], whose
    keys stay in order of first insertion. *)
Fixpoint append_at (key : list string) (df : DataFrame)
    (d : list (list string * list DataFrame))
  : list (list string * list DataFrame) :=
  match d with
  | [] => [(key, [df])]
  | (k, l) :: d' =>
      if list_string_eqb k key then (k, l ++ [df]) :: d'
      else (k, l) :: append_at key df d'
  end.

Fixpoint sequence_sum {A} (l : list (exn + A)) : exn + list A :=
  match l with
  | [] => inr []
  | inl e :: _ => inl e
  | inr a :: l' =>
      match sequence_sum l' with
      | inl e => inl e
      | inr l'' => inr (a :: l'')
      end
  end.

(** [BaseTabularModel._make_condition_dfs]. *)
Definition _make_condition_dfs (conditions : list Condition)
  : exn + list DataFrame :=
  let condition_dataframes :=
    fold_left
      (fun d condition =>
         let column_values := get_column_values condition in
         append_at (List.map fst column_values)
           (frame_of_dict column_values (get_num_rows condition)) d)
      conditions [] in
  sequence_sum
    (List.map (fun kl => pd_concat (snd kl) true) condition_dataframes).

(** [BaseTabularModel._validate_conditions]; [get_fields()] is the dict
    [_fields_metadata]. *)
Fixpoint validate_columns (columns : list string) : exn + unit :=
  match columns with
  | [] => inr tt
  | column :: columns' =>
      match assoc column _fields_metadata with
      | None =>
          inl (ValueError
                 [FText "Unexpected column name `"; FText column;
                  FText "`. Use a column name that was present in the original data."])
      | Some _ => validate_columns columns'
      end
  end.

Definition _validate_conditions (conditions : DataFrame) : exn + unit :=
  validate_columns (List.map fst (df_columns conditions)).

(** [Table._make_ids]. *)
Definition _make_ids (field_metadata : field_meta) (length : Z)
  : exn + kind * list scalar :=
  if String.eqb (fm_subtype field_metadata) "string" then
    let generator := fst (strings_from_regex (fm_regex field_metadata)) in
    let max_size := snd (strings_from_regex (fm_regex field_metadata)) in
    if max_size <? length then
      inl (ValueError
             [FText "Unable to generate "; FInt length;
              FText " unique values for regex "; FText (fm_regex field_metadata);
              FText ", the maximum number of unique values is "; FInt max_size;
              FText "."])
    else
      inr (KObj, List.map (fun i => SStr (generator i)) (seq 0 (Z.to_nat length)))
  else inr (KInt, range_index (Z.to_nat length)).

(** The loop of [Table.make_ids_unique] over the fields. *)
Fixpoint make_ids_unique_loop (fields : list (string * field_meta))
    (data : DataFrame) : exn + DataFrame :=
  match fields with
  | [] => inr data
  | (name, field_metadata) :: fields' =>
      if String.eqb (fm_type field_metadata) "id" then
        match get_column name data with
        | inl e => inl e
        | inr column =>
            if negb (is_unique (List.map snd (snd column))) then
              match _make_ids field_metadata (len data) with
              | inl e => inl e
              | inr ids =>
                  match assign_values name (fst ids) (snd ids) data with
                  | inl e => inl e
                  | inr data' => make_ids_unique_loop fields' data'
                  end
              end
            else make_ids_unique_loop fields' data
        end
      else make_ids_unique_loop fields' data
  end.

(** [Table.make_ids_unique]. *)
Definition make_ids_unique (data : DataFrame) : exn + DataFrame :=
  make_ids_unique_loop _fields_metadata data.

(** [for x in l: all_sampled_rows.append(...)]: the frames each step appends,
    in order. *)
Fixpoint for_each {A} (l : list A) (body : A -> M (list DataFrame))
  : M (list DataFrame) :=
  match l with
  | [] => ret []
  | a :: l' =>
      rows <- body a ;;
      rest <- for_each l' body ;;
      ret (rows ++ rest)
  end.

(** The body of the loop of [_sample_with_conditions] over the raw groups. *)
Definition sample_group (condition_columns : list string)
    (max_tries_per_batch : Z) (batch_size : option Z) (progress_bar : bool)
    (output_file_path : option string)
    (group_dataframe : list scalar * DataFrame) : M (list DataFrame) :=
  let group := fst group_dataframe in
  let dataframe := snd group_dataframe in
  let condition := combine condition_columns group in
  condition_df <- lift (first_row_frame dataframe) ;;
  transformed_condition <-
    try_except (lift (transform condition_df))
      (fun cnme =>
         match cnme with
         | ConstraintsNotMetError _ =>
             Some (raise (ConstraintsNotMetError
                            [FText "Provided conditions are not valid for the given constraints"]))
         | _ => None
         end) ;;
  transformed_conditions <-
    lift (pd_concat (repeat transformed_condition (length (df_rows dataframe))) true) ;;
  let transformed_columns := List.map fst (df_columns transformed_conditions) in
  tickets <- lift (get_column COND_IDX dataframe) ;;
  let transformed_conditions :=
    assign_series COND_IDX tickets transformed_conditions in
  match transformed_columns with
  | [] =>
      sampled_rows <-
        _conditionally_sample_rows dataframe condition None max_tries_per_batch
          batch_size 0.01%float true progress_bar output_file_path ;;
      ret [sampled_rows]
  | _ =>
      transformed_groups <-
        lift (groupby transformed_columns transformed_conditions) ;;
      for_each transformed_groups
        (fun transformed =>
           let transformed_condition :=
             combine transformed_columns (fst transformed) in
           sampled_rows <-
             _conditionally_sample_rows (snd transformed) condition
               (Some transformed_condition) max_tries_per_batch batch_size
               0.01%float true progress_bar output_file_path ;;
           ret [sampled_rows])
  end.

(** Lines 646-655 of [_sample_with_conditions]: the rows of all partitions
    put together and brought into the order of their tickets. *)
Definition reassemble (all_sampled_rows : list DataFrame) : exn + DataFrame :=
  match pd_concat all_sampled_rows false with
  | inl e => inl e
  | inr all_sampled_rows =>
      if len all_sampled_rows =? 0 then inr all_sampled_rows
      else
        match set_index COND_IDX all_sampled_rows with
        | inl e => inl e
        | inr all_sampled_rows => make_ids_unique (sort_index all_sampled_rows)
        end
  end.

(** [BaseTabularModel._sample_with_conditions]. *)
Definition _sample_with_conditions (conditions : DataFrame)
    (max_tries_per_batch : Z) (batch_size : option Z) (progress_bar : bool)
    (output_file_path : option string) : M DataFrame :=
  let condition_columns := List.map fst (df_columns conditions) in
  conditions <- lift (reset_index COND_IDX conditions) ;;
  grouped_conditions <- lift (groupby condition_columns conditions) ;;
  all_sampled_rows <-
    for_each grouped_conditions
      (sample_group condition_columns max_tries_per_batch batch_size
         progress_bar output_file_path) ;;
  lift (reassemble all_sampled_rows).

(** Modelled from the spec: [sdv.tabular.utils.check_num_rows] is not part
    of the sources at hand.  The spec (4.5, 7, 8) has the strict check raise
    InsufficientRows when fewer rows than requested were accepted, citing
    whether the shortfall comes from the reject-sampling limits or from a
    structurally infeasible conditioning request, and always suggesting the
    two levers [max_tries_per_batch] and [batch_size]. *)
Definition check_num_rows (num_rows expected_num_rows : Z)
    (is_reject_sampling : bool) (max_tries_per_batch : Z) : exn + unit :=
  if num_rows <? expected_num_rows then
    inl (InsufficientRows
           ([FText "Only able to sample "; FInt num_rows; FText " of the ";
             FInt expected_num_rows; FText " rows for the given conditions. "]
            ++ (if is_reject_sampling
                then [FText "The limits of reject sampling were reached. "]
                else [FText "The conditions may be infeasible for the current model. "])
            ++ [FText "Try increasing `max_tries_per_batch` (currently: ";
                FInt max_tries_per_batch;
                FText ") or increasing `batch_size`."]))
  else inr tt.

(** [for condition_dataframe in conditions: ...] of [_sample_conditions]. *)
Fixpoint sample_condition_dataframes (conditions : list DataFrame)
    (max_tries_per_batch : Z) (batch_size : option Z)
    (output_file_path : option string) (sampled : DataFrame) : M DataFrame :=
  match conditions with
  | [] => ret sampled
  | condition_dataframe :: conditions' =>
      sampled_for_condition <-
        _sample_with_conditions condition_dataframe max_tries_per_batch
          batch_size true output_file_path ;;
      sampled <- lift (pd_concat [sampled; sampled_for_condition] true) ;;
      sample_condition_dataframes conditions' max_tries_per_batch batch_size
        output_file_path sampled
  end.

Fixpoint validate_all (conditions : list DataFrame) : exn + unit :=
  match conditions with
  | [] => inr tt
  | condition_dataframe :: conditions' =>
      match _validate_conditions condition_dataframe with
      | inl e => inl e
      | inr _ => validate_all conditions'
      end
  end.

(** [BaseTabularModel._sample_conditions]. *)
Definition _sample_conditions (conditions : list Condition)
    (max_tries_per_batch : Z) (batch_size : option Z) (randomize_samples : bool)
    (output_file_path : option string) : M DataFrame :=
  output_file_path <- _validate_file_path output_file_path ;;
  let num_rows :=
    fold_left (fun num_rows condition => get_num_rows condition + num_rows)
      conditions 0 in
  conditions <- lift (_make_condition_dfs conditions) ;;
  lift (validate_all conditions) ;;
  _randomize_samples randomize_samples ;;
  sampled <-
    try_except
      (sampled <-
         sample_condition_dataframes conditions max_tries_per_batch batch_size
           output_file_path empty_frame ;;
       let is_reject_sampling :=
         match _model with
         | NoModelAttr | GaussianMultivariate => false
         | _ => true
         end in
       lift (check_num_rows (len sampled) num_rows is_reject_sampling
               max_tries_per_batch) ;;
       ret sampled)
      (fun error =>
         Some (handle_sampling_error (is_tmp_file output_file_path)
                 output_file_path error)) ;;
  remove_tmp_file output_file_path ;;
  ret sampled.

(** [BaseTabularModel.sample_conditions]. *)
Definition sample_conditions (conditions : list Condition)
    (max_tries_per_batch : Z) (batch_size : option Z) (randomize_samples : bool)
    (output_file_path : option string) : M DataFrame :=
  _sample_conditions conditions max_tries_per_batch batch_size randomize_samples
    output_file_path.

End Conditions.

(** ** The matcher in the words of the specification *)

(** The specification (4.1) words the matcher row by row: a floating-point
    column matches when [|row[column] - value| <= value * rtol], any other
    column when the cell equals the value.  [spec_matches] is that predicate
    for one pair of a condition, with the dtypes of the frame [df]. *)
Definition spec_matches (df : DataFrame) (rtol : float) (r : Row)
    (cv : string * scalar) : bool :=
  match column_kind df (fst cv) with
  | Some KFloat =>
      match scalar_to_float (snd cv) with
      | Some v => (abs (cell_float r (fst cv) - v) <=? v * rtol)%float
      | None => false
      end
  | _ => cell_eq r (fst cv) (snd cv)
  end.

(** The snapping of the specification: on a match the cells of the
    floating-point columns are replaced by the requested values. *)
Definition spec_snap (df : DataFrame) (conditions : conditions_t) (r : Row) : Row :=
  fold_left
    (fun r cv =>
       match column_kind df (fst cv) with
       | Some KFloat => <[fst cv := snd cv]> r
       | _ => r
       end)
    conditions r.

(** The conditions the filter can be run with: the columns exist and the
    values asked of floating-point columns are numbers. *)
Definition applicable (df : DataFrame) (cv : string * scalar) : bool :=
  match column_kind df (fst cv) with
  | None => false
  | Some KFloat =>
      match scalar_to_float (snd cv) with Some _ => true | None => false end
  | Some _ => true
  end.

(** No floating-point value of the condition is infinite. *)
Definition no_infinity (conditions : conditions_t) : bool :=
  forallb
    (fun cv => match snd cv with SFloat f => negb (is_infinity f) | _ => true end)
    conditions.

(** ** The raw group of the specification *)

(** The specification (4.3) hands every requested row a ticket, [0 .. n-1] in
    submission order.  [ticket_frame column_values n] is the raw group of [n]
    rows that ask for [column_values]: row [i] holds ticket [i] in the column
    [COND_IDX], next to the requested values. *)
Definition ticket_frame (column_values : conditions_t) (n : nat) : DataFrame :=
  mkDF ((COND_IDX, KInt)
          :: List.map (fun cv => (fst cv, scalar_kind (snd cv))) column_values)
       (List.map
          (fun l => (l, <[COND_IDX := l]> (list_to_map column_values : Row)))
          (range_index n)).

(** ** The resize rule in the words of the specification *)

(** [ceil(p / q)] for a positive [q], in exact arithmetic. *)
Definition ceil_div (p q : Z) : Z := - ((- p) / q).

(** [rate = max(newValid, 1) / max(requestedSize, 1)] and
    [requestedSize' = min(10 * target, ceil(remaining / rate))], floor of 1. *)
Definition spec_request_size (target remaining newValid requestedSize : Z) : Z :=
  Z.max 1
    (Z.min (10 * target)
       (ceil_div (remaining * Z.max requestedSize 1) (Z.max newValid 1))).

(** The rows of a list of batches. *)
Definition total_rows (batches : list DataFrame) : Z :=
  fold_right (fun df n => len df + n) 0 batches.

(** ** What the loop maintains *)

(** The file the rounds write to exists. *)
Definition output_file_ready `{TM : TabularModel} (path : option string)
    (w : World) : Prop :=
  match path with
  | Some p => is_Some (w_fs w !! abspath w p)
  | None => True
  end.

(** What holds of the local variables of [_sample_batch] each time the loop
    tests its condition, for a generator that returns no more rows than it
    is asked for. *)
Definition batch_invariant `{TM : TabularModel} (batch_size : Z)
    (st : batch_state) : Prop :=
  0 <= num_valid st
  /\ (num_valid st < batch_size -> 1 <= num_rows_to_sample st)
  /\ num_rows_to_sample st <= 10 * batch_size
  /\ (has_data_columns = true -> num_valid st = len (sampled st)).

(** ** The acceptance loop in the words of the specification *)


Section SpecLoop.

Context `{TM : TabularModel}.

(** The resizing rule: from the target, the rows that remain, the newly valid
    rows and the size that was requested, the size to request next.  The
    specification's rule is [spec_request_size]; the code's is
    [next_request_size]. *)
Variable resize : Z -> Z -> Z -> Z -> exn + Z.





End SpecLoop.


(** ** Concrete models, used to run the engine *)

Module Examples.

(** Keep the columns whose name satisfies [keep]. *)
Definition select_columns (keep : string -> bool) (df : DataFrame) : DataFrame :=
  mkDF (List.filter (fun ck => keep (fst ck)) (df_columns df))
       (List.map
          (fun ir => (fst ir, filter (fun kv => keep (fst kv) = true) (snd ir)))
          (df_rows df)).

(** A generator with one integer column [x]: its first call alternates
    [0, 1, 0, 1, ...], every later call yields [1]; the state counts the
    calls.  The only constraint keeps the rows with [x = 1]. *)
#[local] Instance half_model : TabularModel := {|
  gen_state := nat;
  _model := OtherModel;
  _sample := fun n _ g =>
    (inr (mkDF [("x", KInt)]
            (List.map
               (fun i =>
                  (SInt (Z.of_nat i),
                   ({[ "x" := SInt (if (g =? 0)%nat then Z.of_nat i mod 2 else 1) ]} : Row)))
               (seq 0 (Z.to_nat n)))),
     S g);
  _set_random_state := fun _ g => g;
  _fields_metadata := [("x", mkField "numerical" "integer" "")];
  _constraints := [filter_rows (fun r => cell_eq r "x" (SInt 1))];
  reverse_transform := fun df => inr df;
  transform := fun df => inr df;
  strings_from_regex := fun _ => (fun _ => "", 0)
|}.

(** A generator that supports conditions on the column [a]: asked for [n]
    rows under [a = v], it yields [n] rows with [a = v] and a serial number
    in [b].  The transform keeps the column [a] of a condition. *)
#[local] Instance cond_model : TabularModel := {|
  gen_state := Z;
  _model := OtherModel;
  _sample := fun n c g =>
    (inr (mkDF [("a", KObj); ("b", KInt)]
            (List.map
               (fun i =>
                  (SInt (Z.of_nat i),
                   ({[ "a" := default (SStr "?") (c ≫= assoc "a");
                       "b" := SInt (g + Z.of_nat i) ]} : Row)))
               (seq 0 (Z.to_nat n)))),
     g + n);
  _set_random_state := fun _ g => g;
  _fields_metadata :=
    [("a", mkField "categorical" "" ""); ("b", mkField "numerical" "integer" "")];
  _constraints := [];
  reverse_transform := fun df => inr df;
  transform := fun df => inr (select_columns (String.eqb "a") df);
  strings_from_regex := fun _ => (fun _ => "", 0)
|}.

(** The same model when the transform absorbs the whole condition, so that
    the generator runs unconditioned and the rows are filtered. *)
#[local] Instance reject_model : TabularModel := {|
  gen_state := Z;
  _model := OtherModel;
  _sample := fun n c g =>
    (inr (mkDF [("a", KObj); ("b", KInt)]
            (List.map
               (fun i =>
                  (SInt (Z.of_nat i),
                   ({[ "a" := SStr (if Z.even (g + Z.of_nat i) then "x" else "y");
                       "b" := SInt (g + Z.of_nat i) ]} : Row)))
               (seq 0 (Z.to_nat n)))),
     g + n);
  _set_random_state := fun _ g => g;
  _fields_metadata :=
    [("a", mkField "categorical" "" ""); ("b", mkField "numerical" "integer" "")];
  _constraints := [];
  reverse_transform := fun df => inr df;
  transform := fun df => inr (select_columns (fun _ => false) df);
  strings_from_regex := fun _ => (fun _ => "", 0)
|}.

(** A generator with one integer column [x] whose first row of every call is
    [0] and whose other rows are [1]; the only constraint keeps the rows with
    [x = 1]. *)
#[local] Instance late_model : TabularModel := {|
  gen_state := nat;
  _model := OtherModel;
  _sample := fun n _ g =>
    (inr (mkDF [("x", KInt)]
            (List.map
               (fun i =>
                  (SInt (Z.of_nat i),
                   ({[ "x" := SInt (if (i =? 0)%nat then 0 else 1) ]} : Row)))
               (seq 0 (Z.to_nat n)))),
     S g);
  _set_random_state := fun _ g => g;
  _fields_metadata := [("x", mkField "numerical" "integer" "")];
  _constraints := [filter_rows (fun r => cell_eq r "x" (SInt 1))];
  reverse_transform := fun df => inr df;
  transform := fun df => inr df;
  strings_from_regex := fun _ => (fun _ => "", 0)
|}.

Definition world0 `{TabularModel} (g : gen_state) : World :=
  mkWorld ∅ "/home" g 0 [].

(** A world in which the files [/home/out.csv] and [/home/disable] exist. *)
Definition world_with_files `{TabularModel} (g : gen_state) : World :=
  mkWorld {[ "/home/out.csv" := [CsvHeader ["x"]; CsvRow [SInt 1]];
             "/home/disable" := [CsvHeader ["x"]] ]}
    "/home" g 0 [].

(** A frame with one floating-point column [price] and one row. *)
Definition price_frame (x : float) : DataFrame :=
  mkDF [("price", KFloat)] [(SInt 0, {[ "price" := SFloat x ]})].

(** Three conditions on the column [a], one row each: [x], [y], [x]. *)
Definition x_y_x : list Condition :=
  [mkCondition [("a", SStr "x")] 1;
   mkCondition [("a", SStr "y")] 1;
   mkCondition [("a", SStr "x")] 1].

(** A condition no row of [reject_model] satisfies. *)
Definition two_z : list Condition := [mkCondition [("a", SStr "z")] 2].

(** The cells of column [c], row by row. *)
Definition column_cells (c : string) (df : DataFrame) : list (option scalar) :=
  List.map (fun ir => snd ir !! c) (df_rows df).

End Examples.

(** ** What a computation does to the world *)

(** From [w] to [w'] the log of the generator has grown by at most [n]
    calls, each of which satisfies [P]. *)
Definition appends_calls `{TM : TabularModel} (n : nat)
    (P : Z * option conditions_t -> Prop) (w w' : World) : Prop :=
  exists new,
    w_calls w' = w_calls w ++ new /\ (length new <= n)%nat /\ Forall P new.

(** From [w] to [w'] the working directory has stayed, and so has every file
    but the output file. *)
Definition keeps_files `{TM : TabularModel} (path : option string)
    (w w' : World) : Prop :=
  w_cwd w' = w_cwd w
  /\ forall q, (forall p, path = Some p -> q <> abspath w p) ->
       w_fs w' !! q = w_fs w !! q.

(** The calls of the generator one round makes at most: one, or two when the
    generator is asked with conditions first and without them after a
    [NotImplementedError]; none for a table without data columns. *)
Definition calls_per_round `{TM : TabularModel}
    (conditions : option conditions_t) : nat :=
  if has_data_columns
  then match conditions with None => 1 | Some _ => 2 end
  else 0.

(** ** [BaseTabularModel._sample_remaining_columns] *)

Section RemainingColumns.
Context `{TM : TabularModel}.

(** [_sample_remaining_columns]; [known_columns.copy()] keeps the caller's
    frame from the changes [_sample_with_conditions] makes to the frame it is
    given, and the progress bar is always there. *)
Definition _sample_remaining_columns (known_columns : DataFrame)
    (max_tries_per_batch : Z) (batch_size : option Z) (randomize_samples : bool)
    (output_file_path : option string) : M DataFrame :=
  output_file_path <- _validate_file_path output_file_path ;;
  _randomize_samples randomize_samples ;;
  lift (_validate_conditions known_columns) ;;
  sampled <-
    try_except
      (sampled <-
         _sample_with_conditions known_columns max_tries_per_batch batch_size
           true output_file_path ;;
       let is_reject_sampling :=
         match _model with
         | GaussianMultivariate => true
         | _ => false
         end in
       lift (check_num_rows (len sampled) (len known_columns) is_reject_sampling
               max_tries_per_batch) ;;
       ret sampled)
      (fun error =>
         Some (handle_sampling_error (is_tmp_file output_file_path)
                 output_file_path error)) ;;
  remove_tmp_file output_file_path ;;
  ret sampled.

(** [BaseTabularModel.sample_remaining_columns]. *)
Definition sample_remaining_columns (known_columns : DataFrame)
    (max_tries_per_batch : Z) (batch_size : option Z) (randomize_samples : bool)
    (output_file_path : option string) : M DataFrame :=
  _sample_remaining_columns known_columns max_tries_per_batch batch_size
    randomize_samples output_file_path.

End RemainingColumns.

(** ** The fields metadata of [sdv.metadata.Table] *)

(** One entry of [Table._fields_metadata] as [get_dtypes] and
    [set_primary_key] read and write it: its ['type'], and its ['subtype']
    when it has one. *)
Record field_entry := mkEntry {
  fe_type : string;
  fe_subtype : option string
}.

(** What the metadata functions raise. *)
Inductive meta_exn :=
  | MetadataError (field_name field_type : string) (field_subtype : option string)
      (* MetadataError: Invalid type and subtype combination for field ..: (.., ..) *)
  | KeySubtypeError (field_subtype : string)
      (* ValueError: Invalid field subtype for key field: .. *)
  | KeyTypeError (field_type : string)
      (* ValueError: Invalid field type for key field: .. *)
  | FieldNotFound (field_name : string)
      (* ValueError: Field .. does not exist in this table *)
  | MissingSubtype.
      (* KeyError: 'subtype' *)

(** [Table._TYPES_TO_DTYPES.get((field_type, field_subtype))]. *)
Definition _TYPES_TO_DTYPES (field_type : string) (field_subtype : option string)
  : option string :=
  match field_subtype with
  | None =>
      if String.eqb field_type "categorical" then Some "object"
      else if String.eqb field_type "boolean" then Some "bool"
      else if String.eqb field_type "numerical" then Some "float"
      else if String.eqb field_type "datetime" then Some "datetime64"
      else if String.eqb field_type "id" then Some "int"
      else None
  | Some subtype =>
      if String.eqb field_type "numerical" then
        if String.eqb subtype "float" then Some "float"
        else if String.eqb subtype "integer" then Some "int"
        else None
      else if String.eqb field_type "id" then
        if String.eqb subtype "integer" then Some "int"
        else if String.eqb subtype "string" then Some "str"
        else None
      else None
  end.

(** [Table._get_field_dtype]. *)
Definition _get_field_dtype (field_name : string) (field_metadata : field_entry)
  : meta_exn + string :=
  match _TYPES_TO_DTYPES (fe_type field_metadata) (fe_subtype field_metadata) with
  | Some dtype => inr dtype
  | None =>
      inl (MetadataError field_name (fe_type field_metadata)
             (fe_subtype field_metadata))
  end.

(** [d[k] = v] on a dict: the value of an existing key is replaced in place,
    a new key comes last. *)
Fixpoint dict_set {A} (k : string) (v : A) (d : list (string * A))
  : list (string * A) :=
  match d with
  | [] => [(k, v)]
  | (k', v') :: d' =>
      if String.eqb k k' then (k', v) :: d' else (k', v') :: dict_set k v d'
  end.

(** The loop of [Table.get_dtypes] over [self._fields_metadata.items()]. *)
Fixpoint get_dtypes_loop (ids : bool) (fields : list (string * field_entry))
    (dtypes : list (string * string)) : meta_exn + list (string * string) :=
  match fields with
  | [] => inr dtypes
  | (name, field_meta) :: fields' =>
      if ids || negb (String.eqb (fe_type field_meta) "id") then
        match _get_field_dtype name field_meta with
        | inl e => inl e
        | inr dtype => get_dtypes_loop ids fields' (dict_set name dtype dtypes)
        end
      else get_dtypes_loop ids fields' dtypes
  end.

(** [Table.get_dtypes]. *)
Definition get_dtypes (ids : bool) (fields : list (string * field_entry))
  : meta_exn + list (string * string) :=
  get_dtypes_loop ids fields [].

(** [Table._get_key_subtype]. *)
Definition _get_key_subtype (field_meta : field_entry) : meta_exn + string :=
  if String.eqb (fe_type field_meta) "categorical" then inr "string"
  else if String.eqb (fe_type field_meta) "numerical"
          || String.eqb (fe_type field_meta) "id" then
    match fe_subtype field_meta with
    | None => inl MissingSubtype
    | Some field_subtype =>
        if String.eqb field_subtype "integer" || String.eqb field_subtype "string"
        then inr field_subtype
        else inl (KeySubtypeError field_subtype)
    end
  else inl (KeyTypeError (fe_type field_meta)).

(** The [primary_key] argument: [None], a field name, or a list of field
    names. *)
Inductive primary_key_t :=
  | NoKey
  | OneKey (field_name : string)
  | ManyKeys (field_names : list string).

(** The part of a [Table] that [set_primary_key] reads and writes. *)
Record table_fields := mkTableFields {
  t_fields : list (string * field_entry);
  t_primary_key : primary_key_t
}.

(** The loop of [Table.set_primary_key] over the key fields: a field that is
    not an ['id'] yet is turned into one, in place; the fields changed before
    an error stay changed. *)
Fixpoint set_key_fields (field_names : list string)
    (fields : list (string * field_entry))
  : option meta_exn * list (string * field_entry) :=
  match field_names with
  | [] => (None, fields)
  | field_name :: field_names' =>
      match assoc field_name fields with
      | None => (Some (FieldNotFound field_name), fields)
      | Some field_metadata =>
          if negb (String.eqb (fe_type field_metadata) "id") then
            match _get_key_subtype field_metadata with
            | inl e => (Some e, fields)
            | inr field_subtype =>
                set_key_fields field_names'
                  (dict_set field_name (mkEntry "id" (Some field_subtype)) fields)
            end
          else set_key_fields field_names' fields
      end
  end.

(** [primary_key if isinstance(primary_key, list) else [primary_key]]. *)
Definition key_fields (primary_key : primary_key_t) : list string :=
  match primary_key with
  | ManyKeys field_names => field_names
  | OneKey field_name => [field_name]
  | NoKey => []
  end.

(** [Table.set_primary_key]: the exception raised, if any, and the table
    afterwards. *)
Definition set_primary_key (primary_key : primary_key_t) (t : table_fields)
  : option meta_exn * table_fields :=
  match primary_key with
  | NoKey => (None, mkTableFields (t_fields t) NoKey)
  | OneKey _ | ManyKeys _ =>
      match set_key_fields (key_fields primary_key) (t_fields t) with
      | (Some e, fields_metadata) =>
          (Some e, mkTableFields fields_metadata (t_primary_key t))
      | (None, fields_metadata) =>
          (None, mkTableFields fields_metadata primary_key)
      end
  end.

(** The dtypes of a list of fields, one after the other: what [get_dtypes]
    collects when no name comes twice. *)
Fixpoint dtypes_of (fields : list (string * field_entry))
  : meta_exn + list (string * string) :=
  match fields with
  | [] => inr []
  | (name, field_meta) :: fields' =>
      match _get_field_dtype name field_meta with
      | inl e => inl e
      | inr dtype =>
          match dtypes_of fields' with
          | inl e => inl e
          | inr dtypes => inr ((name, dtype) :: dtypes)
          end
      end
  end.

(** A field that is not an ['id']. *)
Definition is_data_field (nf : string * field_entry) : bool :=
  negb (String.eqb (fe_type (snd nf)) "id").

(** ** Constraints in [Table._transform_constraints] *)

(** What [constraint.transform(data)] does: it returns the transformed data
    or raises. *)
Inductive transform_result :=
  | Transformed (data : DataFrame)
  | MissingConstraintColumnError (missing_columns : list string)
  | FunctionError
  | OtherException (text : string).

(** A constraint as the table uses it: its class name, its
    [constraint_columns], [transform] and [reverse_transform] (which returns,
    or raises an exception with the given text). *)
Record constraint_t := mkConstraint {
  class_name : string;
  constraint_columns : list string;
  c_transform : DataFrame -> transform_result;
  c_reverse_transform : DataFrame -> string + DataFrame
}.

(** The two warnings of [_transform_constraints]. *)
Inductive warning :=
  | CannotBeTransformed (class_name : string) (missing_columns : list string)
  | ErrorTransforming (class_name : string).

(** [data.drop(columns_to_drop, axis=1)] for the columns of [data] that are in
    [columns]. *)
Definition drop_columns (columns : list string) (data : DataFrame) : DataFrame :=
  mkDF (List.filter (fun ck => negb (mem_string (fst ck) columns)) (df_columns data))
       (map (fun lr => (fst lr, fold_right (fun c r => delete c r) (snd lr) columns))
            (df_rows data)).

(** The loop of [_transform_constraints]: the data, the errors, the
    constraints to reverse and the warnings so far. *)
Fixpoint transform_constraints_loop (constraints : list constraint_t)
    (is_condition : bool) (data : DataFrame) (errors : list string)
    (to_reverse : list constraint_t) (warned : list warning)
  : DataFrame * list string * list constraint_t * list warning :=
  match constraints with
  | [] => (data, errors, to_reverse, warned)
  | constraint :: constraints' =>
      match c_transform constraint data with
      | Transformed data' =>
          transform_constraints_loop constraints' is_condition data' errors
            (if is_condition then to_reverse else to_reverse ++ [constraint])
            warned
      | MissingConstraintColumnError missing_columns =>
          transform_constraints_loop constraints' is_condition
            (if is_condition
             then drop_columns (constraint_columns constraint) data else data)
            errors to_reverse
            (warned ++ [CannotBeTransformed (class_name constraint) missing_columns])
      | FunctionError =>
          transform_constraints_loop constraints' is_condition
            (if is_condition
             then drop_columns (constraint_columns constraint) data else data)
            errors to_reverse
            (warned ++ [ErrorTransforming (class_name constraint)])
      | OtherException text =>
          transform_constraints_loop constraints' is_condition data
            (errors ++ [text]) to_reverse warned
      end
  end.

(** [Table._transform_constraints]: the data returned, or the texts of the
    errors that [MultipleConstraintsErrors] joins; [self._constraints_to_reverse]
    afterwards; the warnings given. *)
Definition _transform_constraints (constraints : list constraint_t)
    (data : DataFrame) (is_condition : bool) (_constraints_to_reverse : list constraint_t)
  : (list string + DataFrame) * list constraint_t * list warning :=
  let '(data', errors, to_reverse, warned) :=
    transform_constraints_loop constraints is_condition data []
      (if is_condition then _constraints_to_reverse else []) [] in
  (match errors with [] => inr data' | _ :: _ => inl errors end, to_reverse, warned).

(** The loop of [Table.reverse_transform] over
    [reversed(self._constraints_to_reverse)]. *)
Fixpoint reverse_constraints_loop (constraints : list constraint_t)
    (reversed_data : DataFrame) : string + DataFrame :=
  match constraints with
  | [] => inr reversed_data
  | constraint :: constraints' =>
      match c_reverse_transform constraint reversed_data with
      | inl e => inl e
      | inr reversed_data' => reverse_constraints_loop constraints' reversed_data'
      end
  end.

Definition reverse_constraints (_constraints_to_reverse : list constraint_t)
    (reversed_data : DataFrame) : string + DataFrame :=
  reverse_constraints_loop (rev _constraints_to_reverse) reversed_data.

(** ** Model parameters *)

(** What [get_parameters] and [set_parameters] raise: [NonParametricError],
    or a Python exception. *)
Inductive param_exn :=
  | NonParametricError
  | PythonError (e : exn).

(** [m / d] rounded to the nearest integer, ties to the even one. *)
Definition round_half_even (m d : Z) : Z :=
  let q := m / d in
  let r := m mod d in
  if 2 * r <? d then q
  else if d <? 2 * r then q + 1
  else if Z.even q then q else q + 1.

(** [round(x)] on a float. *)
Definition py_round (x : float) : exn + Z :=
  match Prim2SF x with
  | S754_nan => inl (ValueError [FText "cannot convert float NaN to integer"])
  | S754_infinity _ => inl OverflowError
  | S754_zero _ => inr 0
  | S754_finite s m e =>
      inr (cond_Zopp s (if 0 <=? e then Z.pos m * 2 ^ e
                        else round_half_even (Z.pos m) (2 ^ (- e))))
  end.

(** [pd.isnull(v)] on [None] or a scalar. *)
Definition pd_isnull (v : option scalar) : bool :=
  match v with
  | None => true
  | Some v => scalar_is_nan v
  end.

(** [int(round(v))]. *)
Definition int_round (v : scalar) : exn + Z :=
  match v with
  | SInt z => inr z
  | SFloat x => py_round x
  | SStr _ => inl (TypeError [FText "type str doesn't define __round__ method"])
  end.

Section Parameters.

Context `{TM : TabularModel}.

(** The fitted model of a subclass, and its [_get_parameters] and
    [_set_parameters]; those of [BaseTabularModel] raise
    [NonParametricError]. *)
Variable model_t : Type.
Variable _get_parameters : model_t -> param_exn + gmap string (option scalar).
Variable _set_parameters :
  gmap string (option scalar) -> model_t -> option param_exn * model_t.

(** The attributes of the instance that the parameters are about. *)
Record instance := mkInstance {
  _num_rows : Z;
  fitted_model : model_t
}.

(** [BaseTabularModel.get_parameters]. *)
Definition get_parameters (self : instance)
  : param_exn + gmap string (option scalar) :=
  match (if has_data_columns then _get_parameters (fitted_model self)
         else inr ∅) with
  | inl e => inl e
  | inr parameters =>
      inr (<["num_rows" := Some (SInt (_num_rows self))]> parameters)
  end.

(** [BaseTabularModel.set_parameters]: the exception raised, if any, and the
    instance afterwards. *)
Definition set_parameters (parameters : gmap string (option scalar))
    (self : instance) : option param_exn * instance :=
  match parameters !! "num_rows" with
  | None => (Some (PythonError (KeyError "num_rows")), self)
  | Some num_rows =>
      let parameters := delete "num_rows" parameters in
      let rounded :=
        if pd_isnull num_rows then inr 0
        else match num_rows with
             | Some v =>
                 match int_round v with
                 | inl e => inl e
                 | inr z => inr (Z.max 0 z)
                 end
             | None =>
                 inl (TypeError
                        [FText "type NoneType doesn't define __round__ method"])
             end in
      match rounded with
      | inl e => (Some (PythonError e), self)
      | inr num_rows =>
          if has_data_columns then
            let '(e, model) := _set_parameters parameters (fitted_model self) in
            (e, mkInstance num_rows model)
          else (None, mkInstance num_rows (fitted_model self))
      end
  end.

End Parameters.

(** Every row of [df] has, in each column of the condition, a cell equal to
    the requested value. *)
Definition meets_conditions (conditions : conditions_t) (df : DataFrame) : Prop :=
  Forall (fun ir : scalar * Row =>
            Forall (fun cv => cell_eq (snd ir) (fst cv) (snd cv) = true) conditions)
         (df_rows df).

(** ** Concrete tables, used to run the metadata functions *)

Module Tables.

(** A table whose only field is an integer ['id']: it has no data column.
    The reverse transform numbers the rows in the column [id]. *)
#[local] Instance ids_model : TabularModel := {|
  gen_state := nat;
  _model := OtherModel;
  _sample := fun _ _ g => (inl NotImplementedError, g);
  _set_random_state := fun _ g => g;
  _fields_metadata := [("id", mkField "id" "integer" "")];
  _constraints := [];
  reverse_transform := fun df =>
    assign_values "id" KInt (range_index (length (df_rows df))) df;
  transform := fun df => inr df;
  strings_from_regex := fun _ => (fun _ => "", 0)
|}.

(** A table with an integer ['id'] field and a data column [x]. *)
#[local] Instance keyed_model : TabularModel := {|
  gen_state := nat;
  _model := OtherModel;
  _sample := fun _ _ g => (inl NotImplementedError, g);
  _set_random_state := fun _ g => g;
  _fields_metadata :=
    [("id", mkField "id" "integer" ""); ("x", mkField "numerical" "integer" "")];
  _constraints := [];
  reverse_transform := fun df => inr df;
  transform := fun df => inr df;
  strings_from_regex := fun _ => (fun _ => "", 0)
|}.

(** Two rows that share the id 7. *)
Definition twice_seven : DataFrame :=
  mkDF [("id", KInt); ("x", KInt)]
    [(SInt 0, {[ "id" := SInt 7; "x" := SInt 1 ]});
     (SInt 1, {[ "id" := SInt 7; "x" := SInt 2 ]})].

(** Three conditions, on the columns [a], [b] and [a] again. *)
Definition a_b_a : list Condition :=
  [mkCondition [("a", SStr "x")] 2;
   mkCondition [("b", SInt 1)] 1;
   mkCondition [("a", SStr "y")] 1].

(** A condition on a column [zz] that no example table has. *)
Definition unknown_zz : list Condition := [mkCondition [("zz", SInt 1)] 2].

(** One row of known columns, with the column [zz]. *)
Definition known_zz : DataFrame :=
  mkDF [("zz", KInt)] [(SInt 0, {[ "zz" := SInt 1 ]})].

(** The group of two rows under [a = x], with the tickets 0 and 1. *)
Definition two_x : DataFrame :=
  mkDF [("a", KObj); (COND_IDX, KInt)]
    [(SInt 0, {[ "a" := SStr "x"; COND_IDX := SInt 0 ]});
     (SInt 1, {[ "a" := SStr "x"; COND_IDX := SInt 1 ]})].

(** The fields of a table of users: a categorical name, an integer age, a
    float score, and a height whose metadata gives no subtype. *)
Definition users : table_fields :=
  mkTableFields
    [("user", mkEntry "categorical" None);
     ("age", mkEntry "numerical" (Some "integer"));
     ("score", mkEntry "numerical" (Some "float"));
     ("height", mkEntry "numerical" None)]
    NoKey.

(** A constraint that leaves the data as it is, and one whose column is
    missing. *)
Definition keep_all : constraint_t :=
  mkConstraint "KeepAll" [] (fun data => Transformed data) (fun data => inr data).

Definition needs_z : constraint_t :=
  mkConstraint "Positive" ["z"]
    (fun _ => MissingConstraintColumnError ["z"])
    (fun _ => inl "column z not found").

End Tables.


(** * Properties *)

(** ** Association lists and frames *)

Lemma assoc_set_kind_eq c k cols : assoc c (set_kind c k cols) = Some k.
Proof.
  induction cols as [|[c' k'] cols IH]; simpl.
  - now rewrite String.eqb_refl.
  - destruct (String.eqb c c') eqn:E; simpl.
    + apply String.eqb_eq in E. subst. now rewrite String.eqb_refl.
    + now rewrite E.
Qed.

Lemma assoc_set_kind_ne c c' k cols :
  c <> c' -> assoc c' (set_kind c k cols) = assoc c' cols.
Proof.
  intros Hne. induction cols as [|[c0 k0] cols IH]; simpl.
  - destruct (String.eqb c' c) eqn:E; [|reflexivity].
    apply String.eqb_eq in E. congruence.
  - destruct (String.eqb c c0) eqn:E; simpl.
    + apply String.eqb_eq in E. subst c0.
      destruct (String.eqb c' c) eqn:E'; [|reflexivity].
      apply String.eqb_eq in E'. congruence.
    + now rewrite IH.
Qed.

Lemma set_kind_id c k cols : assoc c cols = Some k -> set_kind c k cols = cols.
Proof.
  induction cols as [|[c' k'] cols IH]; simpl; [discriminate|].
  destruct (String.eqb c c') eqn:E.
  - intros [= ->]. reflexivity.
  - intros H. now rewrite IH.
Qed.

Lemma filter_map_swap {A B} (p : B -> bool) (f : A -> B) (l : list A) :
  List.filter p (List.map f l) = List.map f (List.filter (fun a => p (f a)) l).
Proof.
  induction l as [|a l IH]; simpl; [reflexivity|].
  destruct (p (f a)); simpl; now rewrite IH.
Qed.

Lemma filter_andb {A} (p q : A -> bool) (l : list A) :
  List.filter (fun a => p a && q a) l = List.filter q (List.filter p l).
Proof.
  induction l as [|a l IH]; simpl; [reflexivity|].
  destruct (p a); simpl; [destruct (q a)|]; now rewrite IH.
Qed.

Lemma filter_all {A} (p : A -> bool) (l : list A) :
  Forall (fun a => p a = true) l -> List.filter p l = l.
Proof.
  induction 1 as [|a l Ha _ IH]; simpl; [reflexivity|].
  now rewrite Ha, IH.
Qed.

Lemma map_id_on {A} (f : A -> A) (l : list A) :
  Forall (fun a => f a = a) l -> List.map f l = l.
Proof.
  induction 1 as [|a l Ha _ IH]; simpl; [reflexivity|].
  now rewrite Ha, IH.
Qed.

(** ** The tolerance matcher *)

Section Matcher.
Variable rtol : float.

(** One pass of the loop of [_filter_conditions]. *)
Lemma filter_conditions_cons df c v conds :
  _filter_conditions df ((c, v) :: conds) rtol =
  match column_kind df c with
  | None => inl (KeyError c)
  | Some KFloat =>
      match scalar_to_float v with
      | None => inl (TypeError [FText "can't multiply sequence by non-int of type 'float'"])
      | Some f =>
          _filter_conditions
            (assign_scalar c v
               (filter_rows
                  (fun r => (abs (cell_float r c - f) <=? f * rtol)%float) df))
            conds rtol
      end
  | Some _ => _filter_conditions (filter_rows (fun r => cell_eq r c v) df) conds rtol
  end.
Proof. reflexivity. Qed.

Lemma column_kind_filter_rows p df c :
  column_kind (filter_rows p df) c = column_kind df c.
Proof. reflexivity. Qed.

Lemma column_kind_assign_ne c c' v df :
  c <> c' -> column_kind (assign_scalar c v df) c' = column_kind df c'.
Proof. intros. unfold column_kind. simpl. now apply assoc_set_kind_ne. Qed.

Lemma cell_float_insert_ne c c' v (r : Row) :
  c <> c' -> cell_float (<[c := v]> r) c' = cell_float r c'.
Proof. intros. unfold cell_float. now rewrite lookup_insert_ne. Qed.

Lemma cell_eq_insert_ne c c' v v' (r : Row) :
  c <> c' -> cell_eq (<[c := v]> r) c' v' = cell_eq r c' v'.
Proof. intros. unfold cell_eq. now rewrite lookup_insert_ne. Qed.

(** Two frames that give the columns of [conds] the same dtypes are matched
    alike. *)
Lemma spec_matches_kinds df1 df2 r conds :
  Forall (fun cv => column_kind df1 (fst cv) = column_kind df2 (fst cv)) conds ->
  forallb (spec_matches df1 rtol r) conds = forallb (spec_matches df2 rtol r) conds.
Proof.
  induction 1 as [|cv conds H _ IH]; simpl; [reflexivity|].
  unfold spec_matches at 1 3. now rewrite H, IH.
Qed.

Lemma spec_matches_insert df c v r conds :
  Forall (fun cv => c <> fst cv) conds ->
  forallb (spec_matches df rtol (<[c := v]> r)) conds
  = forallb (spec_matches df rtol r) conds.
Proof.
  induction 1 as [|cv conds H _ IH]; simpl; [reflexivity|].
  rewrite IH. f_equal. unfold spec_matches.
  now rewrite cell_float_insert_ne, cell_eq_insert_ne.
Qed.

Lemma spec_snap_kinds df1 df2 conds r :
  Forall (fun cv => column_kind df1 (fst cv) = column_kind df2 (fst cv)) conds ->
  spec_snap df1 conds r = spec_snap df2 conds r.
Proof.
  unfold spec_snap. intros H. revert r.
  induction H as [|cv conds H _ IH]; intros r; simpl; [reflexivity|].
  now rewrite H, IH.
Qed.

Lemma applicable_kinds df1 df2 conds :
  Forall (fun cv => column_kind df1 (fst cv) = column_kind df2 (fst cv)) conds ->
  forallb (applicable df1) conds = forallb (applicable df2) conds.
Proof.
  induction 1 as [|cv conds H _ IH]; simpl; [reflexivity|].
  unfold applicable at 1 3. now rewrite H, IH.
Qed.

Lemma NoDup_keys_cons (c : string) (v : scalar) (conds : conditions_t) :
  NoDup (List.map fst ((c, v) :: conds)) ->
  Forall (fun cv => c <> fst cv) conds /\ NoDup (List.map fst conds).
Proof.
  simpl. intros H. apply NoDup_cons in H as [Hc Hnd]. split; [|exact Hnd].
  apply Forall_forall. intros cv Hin Heq. apply Hc. subst c.
  apply list_elem_of_In, in_map. now apply list_elem_of_In.
Qed.

(** C4. For every frame and every condition the filter can be run with, the
    filter keeps exactly the rows that match every pair of the condition: a
    floating-point column when [|row[column] - value| <= value * rtol], any
    other column when the cell equals the value; the kept rows have their
    floating-point condition columns replaced by the requested values; and a
    condition without columns keeps the frame as it is. *)
Theorem filter_conditions_matches df conds :
  NoDup (List.map fst conds) ->
  forallb (applicable df) conds = true ->
  exists df',
    _filter_conditions df conds rtol = inr df'
    /\ df_rows df'
       = List.map (fun ir => (fst ir, spec_snap df conds (snd ir)))
           (List.filter
              (fun ir => forallb (spec_matches df rtol (snd ir)) conds)
              (df_rows df))
    /\ (conds = [] -> df' = df).
Proof.
  revert df. induction conds as [|[c v] conds IH]; intros df Hnd Happ.
  - exists df. simpl. repeat split.
    rewrite filter_all by (apply Forall_forall; auto).
    symmetry. apply map_id_on, Forall_forall. now intros [].
  - apply NoDup_keys_cons in Hnd as [Hc Hnd].
    simpl in Happ. apply andb_true_iff in Happ as [Hcv Happ].
    rewrite filter_conditions_cons.
    unfold applicable in Hcv. simpl in Hcv.
    destruct (column_kind df c) as [k|] eqn:Hk; [|discriminate].
    assert (Hfilter : forall p,
      Forall (fun cv => column_kind (filter_rows p df) (fst cv)
                        = column_kind df (fst cv)) conds)
      by (intros p; apply Forall_forall; reflexivity).
    assert (Helse :
      exists df',
        _filter_conditions (filter_rows (fun r => cell_eq r c v) df) conds rtol
        = inr df'
        /\ df_rows df'
           = List.map (fun ir => (fst ir, spec_snap df conds (snd ir)))
               (List.filter
                  (fun ir => cell_eq (snd ir) c v && forallb (spec_matches df rtol (snd ir)) conds)
                  (df_rows df))).
    { destruct (IH (filter_rows (fun r => cell_eq r c v) df) Hnd) as (df' & Hrun & Hrows & _).
      - now rewrite (applicable_kinds _ df).
      - exists df'. split; [exact Hrun|]. rewrite Hrows. simpl.
        rewrite filter_andb.
        rewrite (List.filter_ext _
                   (fun ir => forallb (spec_matches df rtol (snd ir)) conds))
          by (intros ir; apply spec_matches_kinds, Hfilter).
        apply List.map_ext. intros ir.
        now rewrite (spec_snap_kinds _ df) by apply Hfilter. }
    destruct k.
    + destruct (scalar_to_float v) as [f|] eqn:Hf; [|discriminate].
      set (p := fun r : Row => (abs (cell_float r c - f) <=? f * rtol)%float).
      assert (Hkinds : Forall (fun cv =>
                 column_kind (assign_scalar c v (filter_rows p df)) (fst cv)
                 = column_kind df (fst cv)) conds).
      { apply Forall_forall. intros cv Hin.
        rewrite column_kind_assign_ne; [reflexivity|].
        rewrite Forall_forall in Hc. now apply Hc. }
      destruct (IH (assign_scalar c v (filter_rows p df)) Hnd) as (df' & Hrun & Hrows & _).
      { now rewrite (applicable_kinds _ df). }
      exists df'. split; [exact Hrun|]. split; [|discriminate].
      rewrite Hrows. simpl. rewrite filter_map_swap, List.map_map. simpl.
      rewrite filter_andb.
      assert (Hm : forall ir : scalar * Row,
                 spec_matches df rtol (snd ir) (c, v) = p (snd ir)).
      { intros ir. unfold spec_matches. simpl. now rewrite Hk, Hf. }
      rewrite (List.filter_ext _ _ Hm).
      erewrite (List.filter_ext (fun a => forallb _ _)).
      2:{ intros ir. simpl. rewrite (spec_matches_kinds _ df) by exact Hkinds.
          apply spec_matches_insert, Hc. }
      apply List.map_ext. intros ir. simpl.
      unfold spec_snap at 2. simpl. rewrite Hk.
      now rewrite (spec_snap_kinds _ df) by exact Hkinds.
    + destruct Helse as (df' & Hrun & Hrows). exists df'.
      split; [exact Hrun|]. split; [|discriminate].
      rewrite Hrows. unfold spec_snap at 2. simpl. rewrite Hk.
      f_equal. apply List.filter_ext. intros ir.
      unfold spec_matches at 2. simpl. now rewrite Hk.
    + destruct Helse as (df' & Hrun & Hrows). exists df'.
      split; [exact Hrun|]. split; [|discriminate].
      rewrite Hrows. unfold spec_snap at 2. simpl. rewrite Hk.
      f_equal. apply List.filter_ext. intros ir.
      unfold spec_matches at 2. simpl. now rewrite Hk.
Qed.

(** *** Running the filter twice *)

Lemma Forall_filter_keep {A} (P : A -> Prop) (p : A -> bool) (l : list A) :
  Forall P l -> Forall P (List.filter p l).
Proof.
  induction 1 as [|a l Ha _ IH]; simpl; [constructor|].
  destruct (p a); [constructor|]; assumption.
Qed.

(** The filter leaves alone a column its condition does not name. *)
Lemma filter_conditions_other_column c (P : option scalar -> Prop) conds :
  forall df df',
    Forall (fun cv => c <> fst cv) conds ->
    _filter_conditions df conds rtol = inr df' ->
    column_kind df' c = column_kind df c
    /\ (Forall (fun ir : scalar * Row => P (snd ir !! c)) (df_rows df) ->
        Forall (fun ir : scalar * Row => P (snd ir !! c)) (df_rows df')).
Proof.
  induction conds as [|[c0 v0] conds IH]; intros df df' Hc Hrun.
  - injection Hrun as <-. auto.
  - apply Forall_cons in Hc as [Hc0 Hc]. simpl in Hc0.
    rewrite filter_conditions_cons in Hrun.
    destruct (column_kind df c0) as [k|] eqn:Hk; [|discriminate].
    assert (Helse : forall p,
      _filter_conditions (filter_rows p df) conds rtol = inr df' ->
      column_kind df' c = column_kind df c
      /\ (Forall (fun ir : scalar * Row => P (snd ir !! c)) (df_rows df) ->
          Forall (fun ir : scalar * Row => P (snd ir !! c)) (df_rows df'))).
    { intros p Hp. destruct (IH _ _ Hc Hp) as [Hkind Hrows].
      split; [exact Hkind|]. intros H. apply Hrows. simpl.
      now apply Forall_filter_keep. }
    destruct k; [|exact (Helse _ Hrun)|exact (Helse _ Hrun)].
    destruct (scalar_to_float v0) as [f|]; [|discriminate].
    destruct (IH _ _ Hc Hrun) as [Hkind Hrows].
    split.
    + rewrite Hkind, column_kind_assign_ne by congruence. reflexivity.
    + intros H. apply Hrows. simpl. apply Forall_map.
      apply Forall_filter_keep. eapply Forall_impl; [exact H|].
      intros ir Hir. simpl. rewrite lookup_insert_ne by congruence. exact Hir.
Qed.

Lemma Prim2SF_infinity : Prim2SF infinity = S754_infinity false.
Proof. reflexivity. Qed.

Lemma SFsub_diag sf :
  (forall s, sf <> S754_infinity s) -> sf <> S754_nan ->
  SFabs (SF64sub sf sf) = S754_zero false.
Proof.
  intros Hinf Hnan. destruct sf as [s|s| |s m e].
  - now destruct s.
  - now destruct (Hinf s).
  - now destruct Hnan.
  - unfold SF64sub, SFsub. now rewrite Z.sub_diag.
Qed.

Lemma SFsub_nan_r sx : SF64sub sx S754_nan = S754_nan.
Proof. now destruct sx. Qed.

(** A tolerance that bounds an absolute value is not below zero. *)
Lemma SFleb_abs_zero a sd :
  SFleb (SFabs a) sd = true -> SFleb (S754_zero false) sd = true.
Proof.
  destruct a as [s|s| |s m e], sd as [s'|s'| |s' m' e'];
    try destruct s'; cbn; congruence.
Qed.

(** A value that some cell matched within the tolerance matches itself,
    unless it is infinite: [f - f] is then zero, and the tolerance is not
    negative. *)
Lemma snapped_value_matches x f d :
  (abs (x - f) <=? d)%float = true ->
  is_infinity f = false ->
  (abs (f - f) <=? d)%float = true.
Proof.
  unfold is_infinity.
  rewrite !FloatAxioms.leb_spec, FloatAxioms.eqb_spec, !FloatAxioms.abs_spec,
    !FloatAxioms.sub_spec, Prim2SF_infinity.
  intros Hle Hinf.
  destruct (Prim2SF f) as [sf|sf| |sf mf ef] eqn:Hf.
  - rewrite SFsub_diag by discriminate. eapply SFleb_abs_zero, Hle.
  - discriminate.
  - rewrite SFsub_nan_r in Hle. discriminate.
  - rewrite SFsub_diag by discriminate. eapply SFleb_abs_zero, Hle.
Qed.

Lemma py_eq_int_refl z : py_eq (SInt z) (SInt z) = true.
Proof. simpl. apply Z.eqb_refl. Qed.

(** C5, as the code has it. For every frame that has passed the filter
    against a condition none of whose floating-point values is infinite,
    the filter run again with the same condition and the same tolerance
    returns that frame unchanged: every row is kept and no cell, dtype or
    label is changed. *)
Theorem filter_conditions_idempotent conds :
  forall df df',
    NoDup (List.map fst conds) ->
    no_infinity conds = true ->
    _filter_conditions df conds rtol = inr df' ->
    _filter_conditions df' conds rtol = inr df'.
Proof.
  induction conds as [|[c v] conds IH]; intros df df' Hnd Hinf Hrun.
  - reflexivity.
  - apply NoDup_keys_cons in Hnd as [Hc Hnd].
    unfold no_infinity in Hinf. simpl in Hinf.
    apply andb_true_iff in Hinf as [Hv Hinf].
    rewrite filter_conditions_cons in Hrun.
    destruct (column_kind df c) as [k|] eqn:Hk; [|discriminate].
    (* a column compared by equality *)
    assert (Helse :
      k <> KFloat ->
      _filter_conditions (filter_rows (fun r => cell_eq r c v) df) conds rtol
      = inr df' ->
      _filter_conditions df' ((c, v) :: conds) rtol = inr df').
    { intros Hne Hrun'.
      destruct (filter_conditions_other_column c
                  (fun o => match o with Some v0 => py_eq v0 v | None => false end = true)
                  conds _ _ Hc Hrun') as [Hkind Hrows].
      rewrite column_kind_filter_rows, Hk in Hkind.
      rewrite filter_conditions_cons, Hkind.
      replace (filter_rows (fun r => cell_eq r c v) df') with df'.
      - destruct k; try congruence; eapply IH; eauto.
      - destruct df' as [cols rows]. unfold filter_rows. simpl. f_equal.
        symmetry. apply filter_all. apply Hrows. simpl.
        apply Forall_forall. intros ir Hin.
        apply list_elem_of_In, filter_In in Hin as [_ Hin]. exact Hin. }
    destruct k; [|apply Helse; [discriminate|exact Hrun]
                 |apply Helse; [discriminate|exact Hrun]].
    destruct (scalar_to_float v) as [f|] eqn:Hf; [|discriminate].
    set (p := fun r : Row => (abs (cell_float r c - f) <=? f * rtol)%float) in Hrun.
    destruct v as [f'|z|s']; simpl in Hf; [| |discriminate].
    + (* snapped to a float *)
      injection Hf as ->.
      destruct (filter_conditions_other_column c
                  (fun o => o = Some (SFloat f)
                            /\ exists x, (abs (x - f) <=? f * rtol)%float = true)
                  conds _ _ Hc Hrun) as [Hkind Hrows].
      assert (Hall : Forall (fun ir : scalar * Row =>
                 snd ir !! c = Some (SFloat f)
                 /\ exists x, (abs (x - f) <=? f * rtol)%float = true) (df_rows df')).
      { apply Hrows. simpl. apply Forall_map, Forall_forall. intros ir Hin.
        apply list_elem_of_In, filter_In in Hin as [_ Hin]. simpl.
        rewrite lookup_insert_eq. split; [reflexivity|]. eauto. }
      rewrite filter_conditions_cons, Hkind.
      unfold column_kind at 1. simpl. rewrite assoc_set_kind_eq. simpl.
      fold p.
      replace (assign_scalar c (SFloat f) (filter_rows p df')) with df'.
      { eapply IH; eauto. }
      destruct df' as [cols rows]. unfold assign_scalar, filter_rows. simpl in *.
      f_equal.
      * symmetry. apply set_kind_id. unfold column_kind in Hkind. simpl in Hkind.
        rewrite Hkind. apply assoc_set_kind_eq.
      * rewrite filter_all.
        -- symmetry. apply map_id_on. eapply Forall_impl; [exact Hall|].
           intros [i r] [Hr _]. simpl in *. f_equal. now apply insert_id.
        -- eapply Forall_impl; [exact Hall|].
           intros [i r] [Hr [x Hx]]. simpl in *. unfold p, cell_float.
           rewrite Hr. simpl. eapply snapped_value_matches; [exact Hx|].
           now apply negb_true_iff in Hv.
    + (* snapped to an integer: the column is an integer column afterwards *)
      injection Hf as <-.
      destruct (filter_conditions_other_column c
                  (fun o => o = Some (SInt z)) conds _ _ Hc Hrun) as [Hkind Hrows].
      assert (Hall : Forall (fun ir : scalar * Row => snd ir !! c = Some (SInt z))
                       (df_rows df')).
      { apply Hrows. simpl. apply Forall_map, Forall_forall. intros ir Hin.
        simpl. apply lookup_insert_eq. }
      rewrite filter_conditions_cons, Hkind.
      unfold column_kind at 1. simpl. rewrite assoc_set_kind_eq. simpl.
      replace (filter_rows (fun r => cell_eq r c (SInt z)) df') with df'.
      { eapply IH; eauto. }
      destruct df' as [cols rows]. unfold filter_rows. simpl in *. f_equal.
      symmetry. apply filter_all. eapply Forall_impl; [exact Hall|].
      intros [i r] Hr. simpl in *. unfold cell_eq. rewrite Hr.
      apply py_eq_int_refl.
Qed.

End Matcher.

Lemma filter_conditions_matches_witness :
  NoDup (List.map fst [("price", SFloat 9.999%float)])
  /\ forallb (applicable (Examples.price_frame 10.02%float))
       [("price", SFloat 9.999%float)] = true
  /\ exists df',
       _filter_conditions (Examples.price_frame 10.02%float)
         [("price", SFloat 9.999%float)] 0.1%float = inr df'
       /\ df_rows df'
          = List.map
              (fun ir =>
                 (fst ir,
                  spec_snap (Examples.price_frame 10.02%float)
                    [("price", SFloat 9.999%float)] (snd ir)))
              (List.filter
                 (fun ir =>
                    forallb
                      (spec_matches (Examples.price_frame 10.02%float) 0.1%float (snd ir))
                      [("price", SFloat 9.999%float)])
                 (df_rows (Examples.price_frame 10.02%float)))
       /\ ([("price", SFloat 9.999%float)] = [] -> df' = Examples.price_frame 10.02%float).
Proof.
  assert (Hnd : NoDup (List.map fst [("price", SFloat 9.999%float)])).
  { simpl. apply NoDup_cons. split; [apply not_elem_of_nil|apply NoDup_nil_2]. }
  split; [exact Hnd|]. split; [reflexivity|].
  apply (filter_conditions_matches 0.1%float); [exact Hnd|reflexivity].
Defined.

(** The scenario of the specification: with [rtol = 0.1] the candidate
    [price = 10.02] matches the condition [price = 9.999] and is snapped. *)
Example filter_conditions_snaps :
  _filter_conditions (Examples.price_frame 10.02%float)
    [("price", SFloat 9.999%float)] 0.1%float
  = inr (Examples.price_frame 9.999%float).
Proof. vm_compute. reflexivity. Qed.

(** C5 fails for an infinite value: the row [price = 1.0] passes the filter
    for [price = inf] (the distance and the tolerance are both infinite) and
    is snapped to [inf]; run again, the filter drops it, since [inf - inf]
    is [nan]. *)
Lemma filter_conditions_infinity_not_idempotent :
  _filter_conditions (Examples.price_frame 1%float)
    [("price", SFloat infinity)] 0.1%float
  = inr (Examples.price_frame infinity)
  /\ _filter_conditions (Examples.price_frame infinity)
       [("price", SFloat infinity)] 0.1%float
     = inr (mkDF [("price", KFloat)] []).
Proof. split; vm_compute; reflexivity. Qed.

Lemma filter_conditions_idempotent_witness :
  NoDup (List.map fst [("price", SFloat 9.999%float)])
  /\ no_infinity [("price", SFloat 9.999%float)] = true
  /\ _filter_conditions (Examples.price_frame 10.02%float)
       [("price", SFloat 9.999%float)] 0.1%float
     = inr (Examples.price_frame 9.999%float)
  /\ _filter_conditions (Examples.price_frame 9.999%float)
       [("price", SFloat 9.999%float)] 0.1%float
     = inr (Examples.price_frame 9.999%float).
Proof.
  assert (Hnd : NoDup (List.map fst [("price", SFloat 9.999%float)])).
  { simpl. apply NoDup_cons. split; [apply not_elem_of_nil|apply NoDup_nil_2]. }
  assert (Hrun : _filter_conditions (Examples.price_frame 10.02%float)
                   [("price", SFloat 9.999%float)] 0.1%float
                 = inr (Examples.price_frame 9.999%float))
    by (vm_compute; reflexivity).
  split; [exact Hnd|]. split; [reflexivity|]. split; [exact Hrun|].
  exact (filter_conditions_idempotent 0.1%float _ _ _ Hnd eq_refl Hrun).
Defined.

(** ** The output file and the early returns of [sample] *)

Section OutputFile.
Context `{TM : TabularModel}.

Lemma bind_ret_l {A B} (a : A) (k : A -> M B) w : bind (ret a) k w = k a w.
Proof. reflexivity. Qed.

Lemma bind_inl {A B} (m : M A) (k : A -> M B) w e w' :
  m w = (inl e, w') -> bind m k w = (inl e, w').
Proof. unfold bind. now intros ->. Qed.

Lemma bind_inr {A B} (m : M A) (k : A -> M B) w a w' :
  m w = (inr a, w') -> bind m k w = k a w'.
Proof. unfold bind. now intros ->. Qed.

Lemma prefix_slash_append s t :
  String.prefix "/" s = true -> String.prefix "/" (String.append s t) = true.
Proof.
  destruct s as [|a s]; [discriminate|].
  change (String.append (String a s) t) with (String a (String.append s t)).
  cbn [String.prefix]. intros H.
  destruct (Ascii.ascii_dec _ a); [|discriminate].
  now destruct (String.append s t).
Qed.

(** An absolute path resolves to itself. *)
Lemma abspath_idempotent w path :
  cwd_absolute w = true -> abspath w (abspath w path) = abspath w path.
Proof.
  intros Hcwd.
  assert (Habs : String.prefix "/" (abspath w path) = true).
  { unfold abspath. destruct (String.prefix "/" path) eqn:Hp; [exact Hp|].
    now apply prefix_slash_append. }
  unfold abspath at 1. now rewrite Habs.
Qed.

(** What [_validate_file_path] does with an explicit path that exists. *)
Lemma validate_file_path_exists path w :
  cwd_absolute w = true ->
  path <> "" -> path <> DISABLE_TMP_FILE ->
  is_Some (w_fs w !! abspath w path) ->
  _validate_file_path (Some path) w
  = (inl (AssertionError [FText (abspath w path); FText " already exists."]), w).
Proof.
  intros Hcwd Hne Hdis Hex. unfold _validate_file_path.
  destruct (String.eqb path DISABLE_TMP_FILE) eqn:E.
  { apply String.eqb_eq in E. contradiction. }
  unfold truthy_path.
  destruct (String.eqb path "") eqn:E'.
  { apply String.eqb_eq in E'. contradiction. }
  simpl. unfold bind at 1. unfold bind at 1. unfold path_exists.
  rewrite abspath_idempotent by exact Hcwd.
  rewrite bool_decide_eq_true_2 by exact Hex. reflexivity.
Qed.

(** C9, as the code has it. For every call of [_validate_file_path] with an
    explicit, non-empty output path other than the reserved name ['disable']
    that already exists, an [AssertionError] is raised and the world is left
    as it was: the file is not overwritten and no sampling round has run.
    [sample_conditions] validates the path first, so it fails the same way;
    [sample] does when [num_rows] is not 0 and no [conditions] are passed,
    after the random state is set, with the files and the generator's calls
    unchanged. *)
Theorem existing_output_path_rejected path w :
  cwd_absolute w = true ->
  path <> "" -> path <> DISABLE_TMP_FILE ->
  is_Some (w_fs w !! abspath w path) ->
  let err : exn := AssertionError [FText (abspath w path); FText " already exists."] in
  _validate_file_path (Some path) w = (inl err, w)
  /\ (forall conditions max_tries batch_size randomize,
        sample_conditions conditions max_tries batch_size randomize (Some path) w
        = (inl err, w))
  /\ (forall num_rows randomize max_tries batch_size,
        num_rows <> 0 -> _model <> NoModelAttr ->
        exists w',
          sample (Some num_rows) randomize max_tries batch_size (Some path) None w
          = (inl err, w')
          /\ w_fs w' = w_fs w /\ w_calls w' = w_calls w).
Proof.
  intros Hcwd Hne Hdis Hex err.
  pose proof (validate_file_path_exists path w Hcwd Hne Hdis Hex) as Hval.
  split; [exact Hval|]. split.
  - intros. unfold sample_conditions, _sample_conditions.
    now apply bind_inl.
  - intros n randomize max_tries batch_size Hn Hmodel.
    unfold sample, _sample_with_progress_bar.
    apply Z.eqb_neq in Hn. rewrite Hn.
    assert (Hrand : exists w1,
               _randomize_samples randomize w = (inr tt, w1)
               /\ w_fs w1 = w_fs w /\ w_calls w1 = w_calls w /\ w_cwd w1 = w_cwd w).
    { unfold _randomize_samples. destruct _model; try contradiction.
      - exists w. repeat split.
      - destruct randomize; eexists; repeat split.
      - destruct randomize; eexists; repeat split. }
    destruct Hrand as (w1 & Hrand & Hfs & Hcalls & Hw).
    exists w1. split; [|split; assumption].
    erewrite bind_inr by exact Hrand.
    apply bind_inl.
    assert (Hp : abspath w1 path = abspath w path)
      by (unfold abspath; now rewrite Hw).
    subst err. rewrite <- Hp. apply validate_file_path_exists; try assumption.
    + unfold cwd_absolute. now rewrite Hw.
    + now rewrite Hp, Hfs.
Qed.

(** C10, as the code has it. For every call of [sample] with [num_rows]
    equal to 0 and no [conditions], the empty frame is returned and the
    world is left as it was: no call of the generator, no file created,
    removed or looked up (whatever the output path), the random state
    untouched. *)
Theorem sample_zero_rows randomize max_tries batch_size output_file_path w :
  sample (Some 0) randomize max_tries batch_size output_file_path None w
  = (inr empty_frame, w).
Proof. reflexivity. Qed.

(** With [conditions] passed, [sample] raises a [TypeError], also when
    [num_rows] is 0. *)
Lemma sample_conditions_argument num_rows randomize max_tries batch_size
    output_file_path conditions w :
  exists msg,
    sample num_rows randomize max_tries batch_size output_file_path
      (Some conditions) w
    = (inl (TypeError msg), w).
Proof. eexists. reflexivity. Qed.

End OutputFile.

Lemma existing_output_path_rejected_witness :
  let w := @Examples.world_with_files Examples.half_model 0%nat in
  let err : exn := AssertionError [FText "/home/out.csv"; FText " already exists."] in
  @_validate_file_path Examples.half_model (Some "out.csv") w = (inl err, w)
  /\ (forall conditions max_tries batch_size randomize,
        @sample_conditions Examples.half_model conditions max_tries batch_size
          randomize (Some "out.csv") w
        = (inl err, w))
  /\ (forall num_rows randomize max_tries batch_size,
        num_rows <> 0 -> @_model Examples.half_model <> NoModelAttr ->
        exists w',
          @sample Examples.half_model (Some num_rows) randomize max_tries
            batch_size (Some "out.csv") None w
          = (inl err, w')
          /\ w_fs w' = w_fs w /\ w_calls w' = w_calls w).
Proof.
  apply (@existing_output_path_rejected Examples.half_model "out.csv"
           (@Examples.world_with_files Examples.half_model 0%nat)).
  - reflexivity.
  - discriminate.
  - discriminate.
  - vm_compute. eexists. reflexivity.
Defined.

(** C9 fails as stated (every sampling call): with [num_rows = 0], [sample]
    returns the empty frame although the output path [out.csv] exists; and
    the path ['disable'] is never checked, although a file of that name
    exists. *)
Lemma existing_output_path_not_always_rejected :
  let w := @Examples.world_with_files Examples.half_model 0%nat in
  is_Some (w_fs w !! abspath w "out.csv")
  /\ @sample Examples.half_model (Some 0) true 100 None (Some "out.csv") None w
     = (inr empty_frame, w)
  /\ is_Some (w_fs w !! abspath w "disable")
  /\ @_validate_file_path Examples.half_model (Some "disable") w = (inr None, w).
Proof.
  repeat split; try reflexivity; vm_compute; eexists; reflexivity.
Qed.

(** C10 fails as stated (every call with [num_rows = 0]): with the
    deprecated [conditions] argument the call raises a [TypeError]. *)
Lemma sample_zero_rows_with_conditions_raises :
  exists msg,
    @sample Examples.half_model (Some 0) true 100 None None (Some [])
      (@Examples.world0 Examples.half_model 0%nat)
    = (inl (TypeError msg), @Examples.world0 Examples.half_model 0%nat).
Proof. eexists. reflexivity. Qed.

(** ** The condition partitioner *)

Section Partitioner.

Lemma list_string_eqb_refl l : list_string_eqb l l = true.
Proof.
  induction l as [|x l IH]; simpl; [reflexivity|].
  now rewrite String.eqb_refl.
Qed.

Lemma mem_string_In c l : mem_string c l = true <-> In c l.
Proof.
  unfold mem_string. rewrite existsb_exists. split.
  - intros (x & Hin & Heq). apply String.eqb_eq in Heq. now subst.
  - intros Hin. exists c. split; [exact Hin|apply String.eqb_refl].
Qed.

(** Adding new, distinct columns appends them; adding known columns changes
    nothing. *)
Lemma add_columns_fresh keys : forall acc,
  List.NoDup (acc ++ keys) ->
  fold_left (fun acc c => if mem_string c acc then acc else acc ++ [c]) keys acc
  = acc ++ keys.
Proof.
  induction keys as [|c keys IH]; intros acc Hnd; simpl.
  - now rewrite app_nil_r.
  - destruct (mem_string c acc) eqn:E.
    + apply mem_string_In in E. apply List.NoDup_remove_2 in Hnd.
      exfalso. apply Hnd. apply in_or_app. now left.
    + rewrite IH; rewrite <- app_assoc; [reflexivity|exact Hnd].
Qed.

Lemma add_columns_known keys : forall acc,
  (forall c, In c keys -> In c acc) ->
  fold_left (fun acc c => if mem_string c acc then acc else acc ++ [c]) keys acc
  = acc.
Proof.
  induction keys as [|c keys IH]; intros acc Hin; simpl; [reflexivity|].
  destruct (mem_string c acc) eqn:E.
  - apply IH. intros c' Hc'. apply Hin. now right.
  - assert (In c acc) as Hc by (apply Hin; now left).
    apply mem_string_In in Hc. congruence.
Qed.

Lemma assoc_In {A} c (a : A) l :
  List.NoDup (List.map fst l) -> In (c, a) l -> assoc c l = Some a.
Proof.
  induction l as [|[c' a'] l IH]; simpl; [contradiction|].
  intros Hnd [Heq|Hin].
  - injection Heq as -> ->. now rewrite String.eqb_refl.
  - apply List.NoDup_cons_iff in Hnd as [Hc Hnd].
    destruct (String.eqb c c') eqn:E; [|now apply IH].
    apply String.eqb_eq in E. subst c'. exfalso. apply Hc.
    change c with (fst (c, a)). now apply in_map.
Qed.

Lemma assoc_map_kind c v (cv : conditions_t) :
  assoc c cv = Some v ->
  assoc c (List.map (fun cv => (fst cv, scalar_kind (snd cv))) cv)
  = Some (scalar_kind v).
Proof.
  induction cv as [|[c' v'] cv IH]; simpl; [discriminate|].
  destruct (String.eqb c c'); [now intros [= ->]|exact IH].
Qed.

Lemma kind_join_diag k : kind_join k k = k.
Proof. now destruct k. Qed.

Lemma coerce_own_kind v : coerce (scalar_kind v) v = v.
Proof. now destruct v. Qed.

Lemma range_index_length n : length (range_index n) = n.
Proof. unfold range_index. now rewrite length_map, length_seq. Qed.

Lemma relabel_combine {A} (g : A -> scalar * Row) : forall labels (ls : list A),
  List.map (fun ir : scalar * (scalar * Row) => (fst ir, snd (snd ir)))
    (combine labels (List.map g ls))
  = List.map (fun p => (fst p, snd (g (snd p)))) (combine labels ls).
Proof.
  induction labels as [|l labels IH]; intros [|a ls]; simpl; try reflexivity.
  now rewrite IH.
Qed.

Lemma combine_diag {A} (l : list A) : combine l l = List.map (fun x => (x, x)) l.
Proof. induction l as [|a l IH]; simpl; [reflexivity|now rewrite IH]. Qed.

(** Rows that all hold [r]: renumbering them gives the labels [0 .. n-1]. *)
Lemma relabel_const (r : Row) (ls : list scalar) :
  relabel (List.map (fun l => (l, r)) ls)
  = List.map (fun l => (l, r)) (range_index (length ls)).
Proof.
  unfold relabel. rewrite length_map, relabel_combine. simpl.
  assert (H : forall (labels ls : list scalar), length labels = length ls ->
            List.map (fun p : scalar * scalar => (fst p, r)) (combine labels ls)
            = List.map (fun l => (l, r)) labels).
  { induction labels as [|l labels IH]; intros [|a ls']; simpl;
      try discriminate; [reflexivity|]. intros [= H]. now rewrite IH. }
  apply H, range_index_length.
Qed.

(** Rows labelled [0 .. n-1] keep their labels when renumbered. *)
Lemma relabel_range (f : scalar -> Row) n :
  relabel (List.map (fun l => (l, f l)) (range_index n))
  = List.map (fun l => (l, f l)) (range_index n).
Proof.
  unfold relabel. rewrite length_map, range_index_length, relabel_combine.
  rewrite combine_diag, List.map_map. reflexivity.
Qed.

Lemma range_index_app n m :
  length (range_index n ++ range_index m) = (n + m)%nat.
Proof. now rewrite length_app, !range_index_length. Qed.

Section SameColumnValues.
Variable column_values : conditions_t.
Hypothesis Hnd : NoDup (List.map fst column_values).

Let keys := List.map fst column_values.
Let row : Row := list_to_map column_values.

Lemma row_lookup c v : In (c, v) column_values -> row !! c = Some v.
Proof.
  intros Hin. apply elem_of_list_to_map_1; [exact Hnd|].
  now apply list_elem_of_In.
Qed.

Lemma frame_of_dict_columns n :
  List.map fst (df_columns (frame_of_dict column_values n)) = keys.
Proof. simpl. now rewrite List.map_map. Qed.

Lemma frame_of_dict_has_rows n :
  0 < n -> has_rows (frame_of_dict column_values n) = true.
Proof.
  intros Hn. unfold has_rows, frame_of_dict, range_index. simpl.
  destruct (Z.to_nat n) eqn:E; [lia|reflexivity].
Qed.

Lemma frame_of_dict_kind n c v :
  In (c, v) column_values ->
  column_kind (frame_of_dict column_values n) c = Some (scalar_kind v).
Proof.
  intros Hin. unfold column_kind. simpl.
  apply assoc_map_kind, assoc_In; [|exact Hin].
  now apply NoDup_ListNoDup.
Qed.

Lemma conform_row :
  conform (List.map (fun cv => (fst cv, scalar_kind (snd cv))) column_values) row
  = row.
Proof.
  unfold conform. rewrite List.map_map. simpl. unfold row at 2. f_equal.
  rewrite <- (List.map_id column_values) at 2.
  apply List.map_ext_in. intros [c v] Hin. simpl.
  now rewrite (row_lookup c v Hin), coerce_own_kind.
Qed.

(** The frames of two conditions with these column values concatenate to the
    frame of one condition asking for all the rows. *)
Lemma frame_of_dict_concat n1 n2 :
  0 < n1 -> 0 < n2 ->
  pd_concat [frame_of_dict column_values n1; frame_of_dict column_values n2] true
  = inr (frame_of_dict column_values (n1 + n2)).
Proof.
  intros H1 H2. unfold pd_concat.
  set (frames := [frame_of_dict column_values n1; frame_of_dict column_values n2]).
  assert (Hunion : union_columns frames = keys).
  { unfold union_columns, frames. cbn [fold_left].
    rewrite !frame_of_dict_columns.
    rewrite (add_columns_fresh keys []) by (now apply NoDup_ListNoDup).
    simpl. apply add_columns_known. auto. }
  assert (Hkind : forall c v, In (c, v) column_values ->
            concat_kind frames c = scalar_kind v).
  { intros c v Hin. unfold concat_kind, frames. simpl List.filter.
    rewrite !frame_of_dict_has_rows by assumption. simpl.
    rewrite !(frame_of_dict_kind _ c v Hin). simpl. apply kind_join_diag. }
  assert (Hcols : List.map (fun c => (c, concat_kind frames c)) (union_columns frames)
                  = List.map (fun cv => (fst cv, scalar_kind (snd cv))) column_values).
  { rewrite Hunion. unfold keys. rewrite List.map_map.
    apply List.map_ext_in. intros [c v] Hin. simpl.
    now rewrite (Hkind c v Hin). }
  rewrite Hcols. f_equal. unfold frame_of_dict at 1. f_equal.
  unfold frames. cbn [List.map List.concat]. rewrite app_nil_r.
  cbn [df_rows frame_of_dict]. rewrite !List.map_map. cbn [fst snd].
  fold row. rewrite conform_row.
  rewrite <- List.map_app, relabel_const.
  rewrite length_app, !range_index_length.
  now rewrite Z2Nat.inj_add by lia.
Qed.

Hypothesis Hcols : column_values <> [].
Hypothesis Hnan : existsb scalar_is_nan (List.map snd column_values) = false.
Hypothesis Hidx : ~ In COND_IDX (List.map fst column_values).

Let K := List.map snd column_values.

Lemma assoc_not_In {A} c (l : list (string * A)) :
  ~ In c (List.map fst l) -> assoc c l = None.
Proof.
  induction l as [|[c' a] l IH]; simpl; [reflexivity|]. intros H.
  destruct (String.eqb c c') eqn:E.
  - apply String.eqb_eq in E. subst. exfalso. apply H. now left.
  - apply IH. intros Hin. apply H. now right.
Qed.

Lemma reset_index_frame_of_dict :
  reset_index COND_IDX (frame_of_dict column_values 10)
  = inr (ticket_frame column_values 10).
Proof.
  unfold reset_index, has_column, column_kind.
  rewrite assoc_not_In by (now rewrite frame_of_dict_columns).
  apply f_equal. unfold ticket_frame. apply f_equal2.
  - reflexivity.
  - cbn [df_rows frame_of_dict]. rewrite List.map_map. cbn [fst snd].
    apply (relabel_range (fun l => <[COND_IDX := l]> row)).
Qed.

Lemma py_eq_refl v : scalar_is_nan v = false -> py_eq v v = true.
Proof.
  destruct v as [f|z|s]; simpl.
  - unfold is_nan. now intros ->%negb_false_iff.
  - intros _. apply Z.eqb_refl.
  - intros _. apply String.eqb_refl.
Qed.

Lemma key_eqb_refl k : existsb scalar_is_nan k = false -> key_eqb k k = true.
Proof.
  induction k as [|v k IH]; simpl; [reflexivity|].
  intros [Hv Hk]%orb_false_iff. now rewrite py_eq_refl, IH.
Qed.

Lemma ticket_row_key l : row_key keys (<[COND_IDX := l]> row) = K.
Proof.
  unfold row_key, keys, K. rewrite List.map_map.
  apply List.map_ext_in. intros [c v] Hin. simpl.
  rewrite lookup_insert_ne.
  - now rewrite (row_lookup c v Hin).
  - intros <-. apply Hidx. change COND_IDX with (fst (COND_IDX, v)).
    now apply in_map.
Qed.

Lemma dedup_keys_const {A} (l : list A) :
  l <> [] -> dedup_keys (List.map (fun _ => K) l) = [K].
Proof.
  induction l as [|a l IH]; [congruence|]. intros _. simpl.
  destruct l as [|b l]; [reflexivity|].
  rewrite IH by discriminate. simpl.
  now rewrite key_eqb_refl by exact Hnan.
Qed.

Lemma find_all_false {A} (p : A -> bool) l :
  (forall a, In a l -> p a = false) -> List.find p l = None.
Proof.
  induction l as [|a l IH]; simpl; [reflexivity|]. intros H.
  rewrite (H a) by now left. apply IH. intros a' Ha'. apply H. now right.
Qed.

Lemma ticket_frame_has_column n c :
  In c keys -> has_column (ticket_frame column_values n) c = true.
Proof.
  intros Hin. unfold has_column, column_kind, ticket_frame. simpl.
  destruct (String.eqb c COND_IDX); [reflexivity|].
  apply in_map_iff in Hin as ([c' v] & <- & Hin).
  erewrite assoc_map_kind; [reflexivity|].
  apply assoc_In; [now apply NoDup_ListNoDup|exact Hin].
Qed.

(** The raw groups of the ticketed frame: one group, the whole frame. *)
Lemma groupby_ticket_frame :
  groupby keys (ticket_frame column_values 10)
  = inr [(K, ticket_frame column_values 10)].
Proof.
  unfold groupby.
  destruct keys as [|c0 keys0] eqn:Hkeys.
  { unfold keys in Hkeys. destruct column_values; [congruence|discriminate]. }
  rewrite <- Hkeys.
  rewrite find_all_false.
  2:{ intros c Hin. now rewrite ticket_frame_has_column. }
  f_equal.
  assert (Hrows : List.map (fun ir : scalar * Row => row_key keys (snd ir))
                    (df_rows (ticket_frame column_values 10))
                  = List.map (fun _ => K) (range_index 10)).
  { unfold ticket_frame. cbn [df_rows]. rewrite List.map_map.
    apply List.map_ext. intros l. apply ticket_row_key. }
  rewrite Hrows.
  rewrite filter_all
    by (apply Forall_map, Forall_forall; intros; unfold K; now rewrite Hnan).
  rewrite dedup_keys_const by discriminate.
  cbn [sort_by fold_right insert_sorted List.map]. f_equal. f_equal.
  unfold filter_rows, ticket_frame. cbn [df_columns df_rows]. f_equal.
  apply filter_all, Forall_map, Forall_forall. intros l _. cbn [snd].
  rewrite ticket_row_key. now apply key_eqb_refl.
Qed.

Lemma make_condition_dfs_same :
  _make_condition_dfs [mkCondition column_values 3; mkCondition column_values 7]
  = inr [frame_of_dict column_values 10].
Proof.
  unfold _make_condition_dfs. cbn [fold_left get_column_values get_num_rows append_at].
  rewrite list_string_eqb_refl. cbn [List.map snd app sequence_sum].
  rewrite frame_of_dict_concat by lia. reflexivity.
Qed.

Lemma ticket_frame_tickets n :
  Examples.column_cells COND_IDX (ticket_frame column_values n)
  = List.map Some (range_index n).
Proof.
  unfold Examples.column_cells, ticket_frame. cbn [df_rows].
  rewrite List.map_map. apply List.map_ext. intros l. cbn [snd].
  apply lookup_insert_eq.
Qed.

End SameColumnValues.

(** C7, as the code has it. For every pair of Conditions that give the same
    column values in the same column order (at least one column, no missing
    value, no column named like the ticket column) with counts 3 and 7, the
    partitioner builds one frame of 10 rows, [reset_index] hands them the
    tickets [0 .. 9], [groupby] yields a single raw group holding all 10
    tickets, and [_sample_with_conditions] runs the body of its loop over the
    raw groups once, on that group, before it reassembles the rows. *)
Theorem identical_conditions_one_group `{TM : TabularModel}
    (column_values : conditions_t) max_tries batch_size progress_bar path :
  NoDup (List.map fst column_values) ->
  column_values <> [] ->
  existsb scalar_is_nan (List.map snd column_values) = false ->
  ~ In COND_IDX (List.map fst column_values) ->
  _make_condition_dfs [mkCondition column_values 3; mkCondition column_values 7]
  = inr [frame_of_dict column_values 10]
  /\ reset_index COND_IDX (frame_of_dict column_values 10)
     = inr (ticket_frame column_values 10)
  /\ groupby (List.map fst column_values) (ticket_frame column_values 10)
     = inr [(List.map snd column_values, ticket_frame column_values 10)]
  /\ Examples.column_cells COND_IDX (ticket_frame column_values 10)
     = List.map Some (range_index 10)
  /\ forall w,
       _sample_with_conditions (frame_of_dict column_values 10) max_tries
         batch_size progress_bar path w
       = bind
           (sample_group (List.map fst column_values) max_tries batch_size
              progress_bar path
              (List.map snd column_values, ticket_frame column_values 10))
           (fun rows => lift (reassemble rows)) w.
Proof.
  intros Hnd Hcols Hnan Hidx.
  split; [now apply make_condition_dfs_same|].
  split; [now apply reset_index_frame_of_dict|].
  split; [now apply groupby_ticket_frame|].
  split; [apply ticket_frame_tickets|].
  intros w. unfold _sample_with_conditions.
  rewrite frame_of_dict_columns.
  rewrite reset_index_frame_of_dict by assumption. cbn [lift].
  rewrite bind_ret_l.
  rewrite groupby_ticket_frame by assumption. cbn [lift].
  rewrite bind_ret_l. cbn [for_each].
  unfold bind.
  destruct (sample_group _ _ _ _ _ _ w) as [[e|rows] w']; [reflexivity|].
  cbn. now rewrite app_nil_r.
Qed.

End Partitioner.

Lemma identical_conditions_one_group_witness :
  let column_values := [("a", SStr "x")] in
  NoDup (List.map fst column_values)
  /\ column_values <> []
  /\ existsb scalar_is_nan (List.map snd column_values) = false
  /\ ~ In COND_IDX (List.map fst column_values)
  /\ _make_condition_dfs [mkCondition column_values 3; mkCondition column_values 7]
     = inr [frame_of_dict column_values 10]
  /\ groupby (List.map fst column_values) (ticket_frame column_values 10)
     = inr [(List.map snd column_values, ticket_frame column_values 10)].
Proof.
  intros column_values.
  assert (Hnd : NoDup (List.map fst column_values)).
  { simpl. apply NoDup_cons. split; [apply not_elem_of_nil|apply NoDup_nil_2]. }
  assert (Hidx : ~ In COND_IDX (List.map fst column_values)).
  { simpl. intros [H|[]]. discriminate. }
  destruct (@identical_conditions_one_group Examples.cond_model column_values
              100 None true None Hnd ltac:(discriminate) eq_refl Hidx)
    as (H1 & _ & H3 & _).
  repeat split; try assumption. discriminate.
Defined.

(** C7 fails as stated: two Conditions with the same column-value mapping,
    given in different column orders, end up in two frames of 3 and 7 rows,
    each sampled on its own. *)
Lemma identical_mappings_two_groups :
  let c1 := mkCondition [("a", SInt 1); ("b", SInt 2)] 3 in
  let c2 := mkCondition [("b", SInt 2); ("a", SInt 1)] 7 in
  (list_to_map (get_column_values c1) : Row) = list_to_map (get_column_values c2)
  /\ _make_condition_dfs [c1; c2]
     = inr [frame_of_dict (get_column_values c1) 3;
            frame_of_dict (get_column_values c2) 7].
Proof.
  split.
  - apply map_eq. intros i. vm_compute list_to_map.
    repeat (rewrite lookup_insert; case_decide); reflexivity.
  - vm_compute. reflexivity.
Qed.

(** ** Reassembly in ticket order *)

(** The tickets of the raw group [x] of the conditions [x, y, x] are [0] and
    [2], on the rows labelled [0] and [2]; the copies of the transformed
    condition are labelled [0] and [1].  The assignment
    [transformed_conditions[COND_IDX] = dataframe[COND_IDX]] aligns on the
    labels, so that the second copy receives no ticket. *)
Example tickets_misaligned :
  let dataframe :=
    mkDF [(COND_IDX, KInt); ("a", KObj)]
      [(SInt 0, {[ COND_IDX := SInt 0; "a" := SStr "x" ]});
       (SInt 2, {[ COND_IDX := SInt 2; "a" := SStr "x" ]})] in
  let transformed_conditions :=
    mkDF [("a", KObj)]
      [(SInt 0, {[ "a" := SStr "x" ]}); (SInt 1, {[ "a" := SStr "x" ]})] in
  match get_column COND_IDX dataframe with
  | inr tickets =>
      List.map (fun o => scalar_is_nan <$> o)
        (Examples.column_cells COND_IDX
           (assign_series COND_IDX tickets transformed_conditions))
  | inl _ => []
  end = [Some false; Some true].
Proof. vm_compute. reflexivity. Qed.

(** C8 fails on the code. The conditions [x], [y], [x] are submitted in that
    order.  With a model whose transform keeps the condition column
    ([cond_model]), the rows come back in the order [x], [x], [y]: the second
    [x] lost its ticket.  With a model whose transform absorbs the condition
    ([reject_model]), the sibling branch of [_sample_with_conditions] passes
    the raw group with its tickets on, and the rows come back in submission
    order. *)
Lemma ticket_order_lost_after_transform :
  (exists df w,
     @sample_conditions Examples.cond_model Examples.x_y_x 100 None true None
       (@Examples.world0 Examples.cond_model 0)
     = (inr df, w)
     /\ Examples.column_cells "a" df
        = [Some (SStr "x"); Some (SStr "x"); Some (SStr "y")])
  /\ (exists df w,
        @sample_conditions Examples.reject_model Examples.x_y_x 100 None true None
          (@Examples.world0 Examples.reject_model 0)
        = (inr df, w)
        /\ Examples.column_cells "a" df
           = [Some (SStr "x"); Some (SStr "y"); Some (SStr "x")]).
Proof.
  split; eexists; eexists; split; vm_compute; reflexivity.
Qed.

(** ** The strict check of conditioned sampling *)

Section Strict.
Context `{TM : TabularModel}.

Lemma check_num_rows_message num_rows expected is_reject max_tries :
  num_rows < expected ->
  exists msg,
    check_num_rows num_rows expected is_reject max_tries = inl (InsufficientRows msg)
    /\ mentions "max_tries_per_batch" msg = true
    /\ mentions "batch_size" msg = true.
Proof.
  intros Hlt. unfold check_num_rows.
  apply Z.ltb_lt in Hlt. rewrite Hlt. eexists. split; [reflexivity|].
  destruct is_reject; split; reflexivity.
Qed.

(** C3. For every call of [sample_conditions] whose partitions were all
    sampled (the path was accepted, the conditions were valid, no round
    raised) and yielded fewer rows in total than the conditions ask for, an
    [InsufficientRows] error is raised, whose message names both
    [max_tries_per_batch] and [batch_size]; the temporary file is left in
    place. *)
Theorem insufficient_rows_raise conditions max_tries batch_size randomize
    path w path' w0 dfs w1 sampled w2 :
  _validate_file_path path w = (inr path', w0) ->
  _make_condition_dfs conditions = inr dfs ->
  validate_all dfs = inr tt ->
  _randomize_samples randomize w0 = (inr tt, w1) ->
  sample_condition_dataframes dfs max_tries batch_size path' empty_frame w1
  = (inr sampled, w2) ->
  len sampled
  < fold_left (fun num_rows condition => get_num_rows condition + num_rows)
      conditions 0 ->
  exists msg,
    sample_conditions conditions max_tries batch_size randomize path w
    = (inl (InsufficientRows msg), w2)
    /\ mentions "max_tries_per_batch" msg = true
    /\ mentions "batch_size" msg = true.
Proof.
  intros Hpath Hdfs Hvalid Hrand Hsampled Hlt.
  destruct (check_num_rows_message (len sampled) _
              (match _model with
               | NoModelAttr | GaussianMultivariate => false
               | _ => true
               end) max_tries Hlt) as (msg & Hcheck & Hm1 & Hm2).
  exists msg. split; [|split; assumption].
  unfold sample_conditions, _sample_conditions.
  erewrite bind_inr by exact Hpath.
  rewrite Hdfs. cbn [lift]. rewrite bind_ret_l.
  rewrite Hvalid. cbn [lift]. rewrite bind_ret_l.
  erewrite bind_inr by exact Hrand.
  apply bind_inl. unfold try_except.
  erewrite bind_inr by exact Hsampled.
  rewrite Hcheck. reflexivity.
Qed.

(** The strict mode of [_conditionally_sample_rows] itself
    ([graceful_reject_sampling=False], which [_sample_with_conditions] never
    asks for) raises only when no row at all was sampled; for a model other
    than a Gaussian copula the message names the two parameters. *)
Lemma conditionally_sample_rows_strict dataframe condition transformed
    max_tries batch_size rtol progress_bar path w df w' :
  _sample_in_batches (len dataframe) (or_default batch_size (len dataframe))
    max_tries (Some condition) transformed rtol progress_bar path w
  = (inr df, w') ->
  len df = 0 ->
  is_gaussian = false ->
  exists msg,
    _conditionally_sample_rows dataframe condition transformed max_tries
      batch_size rtol false progress_bar path w
    = (inl (ValueError msg), w')
    /\ mentions "max_tries_per_batch" msg = true
    /\ mentions "batch_size" msg = true.
Proof.
  intros Hrun Hlen Hg. unfold _conditionally_sample_rows.
  erewrite bind_inr by exact Hrun. rewrite Hlen, Hg. cbn.
  eexists. split; [reflexivity|]. split; reflexivity.
Qed.

End Strict.

Lemma insufficient_rows_raise_witness :
  exists msg w2,
    @sample_conditions Examples.reject_model Examples.two_z 3 None true None
      (@Examples.world0 Examples.reject_model 0)
    = (inl (InsufficientRows msg), w2)
    /\ mentions "max_tries_per_batch" msg = true
    /\ mentions "batch_size" msg = true.
Proof.
  edestruct (@insufficient_rows_raise Examples.reject_model Examples.two_z 3
               None true None (@Examples.world0 Examples.reject_model 0))
    as (msg & Hrun & Hm).
  - vm_compute. reflexivity.
  - vm_compute. reflexivity.
  - vm_compute. reflexivity.
  - vm_compute. reflexivity.
  - vm_compute. reflexivity.
  - vm_compute. reflexivity.
  - exists msg. eexists. split; [exact Hrun|exact Hm].
Defined.

(** ** Binary64 arithmetic of the resize rule *)

(** A normal number is [S754_finite s m e] with [2^52 <= m < 2^53]; it
    stands for [m * 2^e], negated when [s] is set.  One is
    [S754_finite false (2^52) (-52)], so that a positive normal number is at
    most one when [e <= -53] or [e = -52] and [m = 2^52], and at least one
    when [-52 <= e]. *)

Lemma digits2_pos_bounds p :
  2 ^ (Z.pos (digits2_pos p) - 1) <= Z.pos p < 2 ^ Z.pos (digits2_pos p).
Proof.
  induction p as [p IH|p IH|]; cbn [digits2_pos].
  - rewrite Pos2Z.inj_succ.
    replace (Z.succ (Z.pos (digits2_pos p)) - 1) with (Z.succ (Z.pos (digits2_pos p) - 1)) by lia.
    rewrite !Z.pow_succ_r by lia. lia.
  - rewrite Pos2Z.inj_succ.
    replace (Z.succ (Z.pos (digits2_pos p)) - 1) with (Z.succ (Z.pos (digits2_pos p) - 1)) by lia.
    rewrite !Z.pow_succ_r by lia. lia.
  - simpl. lia.
Qed.

Lemma digits2_pos_eq p d :
  2 ^ (d - 1) <= Z.pos p < 2 ^ d -> Z.pos (digits2_pos p) = d.
Proof.
  intros [Hlo Hhi]. pose proof (digits2_pos_bounds p) as [Hlo' Hhi'].
  assert (0 < d).
  { destruct (Z_lt_le_dec 0 d); [assumption|].
    assert (2 ^ d <= 1).
    { destruct (Z.eq_dec d 0) as [->|]; [simpl; lia|].
      rewrite Z.pow_neg_r by lia. lia. }
    lia. }
  destruct (Z_lt_le_dec (Z.pos (digits2_pos p)) d) as [Hlt|Hge].
  - assert (2 ^ Z.pos (digits2_pos p) <= 2 ^ (d - 1)) by (apply Z.pow_le_mono_r; lia). lia.
  - destruct (Z_lt_le_dec d (Z.pos (digits2_pos p))) as [Hlt|Hle]; [|lia].
    assert (2 ^ d <= 2 ^ (Z.pos (digits2_pos p) - 1)) by (apply Z.pow_le_mono_r; lia). lia.
Qed.

Lemma iter_xO m k : Z.pos (Pos.iter xO m k) = Z.pos m * 2 ^ Z.pos k.
Proof.
  induction k as [|k IH] using Pos.peano_ind.
  - simpl. lia.
  - rewrite Pos.iter_succ, Pos2Z.inj_succ, Z.pow_succ_r by lia.
    rewrite Pos2Z.inj_xO, IH. lia.
Qed.

Lemma fexp_normal e : -1074 <= e - 53 -> fexp prec emax e = e - 53.
Proof. intros. unfold fexp, emin, prec, emax. lia. Qed.

Lemma loc_of_record m l : loc_of_shr_record (shr_record_of_loc m l) = l.
Proof. destruct l as [|[]]; reflexivity. Qed.

Lemma shr_m_record m l : shr_m (shr_record_of_loc m l) = m.
Proof. destruct l as [|[]]; reflexivity. Qed.

(** Rounding to nearest, ties to even, moves a mantissa up by one at most. *)
Lemma round_nearest_even_bounds m l :
  m <= round_nearest_even m l <= m + 1 /\ (l = loc_Exact -> round_nearest_even m l = m).
Proof.
  destruct l as [|[]]; simpl; try destruct (Z.even m); split; try lia; try discriminate; auto.
Qed.

(** A mantissa of 53 digits is not shifted; one of 54 digits is shifted by
    one position. *)
Lemma shr_fexp_53 p e l :
  Z.pos (digits2_pos p) = 53 -> -1074 <= e ->
  shr_fexp prec emax (Z.pos p) e l = (shr_record_of_loc (Z.pos p) l, e).
Proof.
  intros Hd He. unfold shr_fexp. cbn [Zdigits2]. rewrite Hd.
  rewrite fexp_normal by lia.
  replace (53 + e - 53 - e) with 0 by lia. reflexivity.
Qed.

Lemma shr_1_spec m r s :
  0 <= m ->
  shr_1 (Build_shr_record m r s) = Build_shr_record (m / 2) (Z.odd m) (r || s).
Proof.
  intros Hm. destruct m as [|p|p]; [reflexivity| |lia].
  destruct p as [p|p|]; cbn [shr_1 Z.odd].
  - replace (Z.pos p~1 / 2) with (Z.pos p); [reflexivity|].
    apply Z.div_unique with 1; lia.
  - replace (Z.pos p~0 / 2) with (Z.pos p); [reflexivity|].
    apply Z.div_unique with 0; lia.
  - reflexivity.
Qed.

Lemma shr_fexp_54 p e l :
  Z.pos (digits2_pos p) = 54 -> -1075 <= e ->
  shr_fexp prec emax (Z.pos p) e l = (shr_1 (shr_record_of_loc (Z.pos p) l), e + 1).
Proof.
  intros Hd He. unfold shr_fexp. cbn [Zdigits2]. rewrite Hd.
  rewrite fexp_normal by lia.
  replace (54 + e - 53 - e) with 1 by lia. reflexivity.
Qed.

Lemma pow2_52 : 2 ^ 52 = 4503599627370496. Proof. reflexivity. Qed.
Lemma pow2_53 : 2 ^ 53 = 9007199254740992. Proof. reflexivity. Qed.
Lemma pow2_54 : 2 ^ 54 = 18014398509481984. Proof. reflexivity. Qed.

(** The second rounding step of [binary_round_aux], on a mantissa that the
   first step has brought to 53 digits and rounded. *)
Lemma round_finish s r e :
  2 ^ 52 <= r <= 2 ^ 53 -> -1074 <= e <= 970 ->
  exists m e',
    (let '(mrs, e'') := shr_fexp prec emax r e loc_Exact in
     match shr_m mrs with
     | Z0 => S754_zero s
     | Zpos m => if e'' <=? emax - prec then S754_finite s m e'' else S754_infinity s
     | Zneg _ => S754_nan
     end) = S754_finite s m e'
    /\ 2 ^ 52 <= Z.pos m < 2 ^ 53
    /\ ((e' = e /\ Z.pos m = r) \/ (e' = e + 1 /\ Z.pos m = 2 ^ 52 /\ r = 2 ^ 53)).
Proof.
  intros Hr He. rewrite pow2_52, pow2_53 in *.
  destruct r as [|p|p]; try lia.
  destruct (Z.eq_dec (Z.pos p) 9007199254740992) as [Heq|Hne].
  - injection Heq as ->. exists 4503599627370496%positive, (e + 1).
    rewrite shr_fexp_54 by (reflexivity || lia).
    cbn [shr_record_of_loc shr_1 shr_m].
    replace (e + 1 <=? emax - prec) with true
      by (symmetry; apply Z.leb_le; unfold emax, prec; lia).
    split; [reflexivity|]. split; [lia|]. right. lia.
  - exists p, e.
    rewrite shr_fexp_53; [|apply digits2_pos_eq; rewrite pow2_53; simpl; lia|lia].
    cbn [shr_record_of_loc shr_m].
    replace (e <=? emax - prec) with true
      by (symmetry; apply Z.leb_le; unfold emax, prec; lia).
    split; [reflexivity|]. split; [lia|]. left. lia.
Qed.

Lemma binary_round_aux_53 s q e l :
  2 ^ 52 <= q < 2 ^ 53 -> -1074 <= e <= 970 ->
  exists m e',
    binary_round_aux prec emax s q e l = S754_finite s m e'
    /\ 2 ^ 52 <= Z.pos m < 2 ^ 53
    /\ ((e' = e /\ q <= Z.pos m <= q + 1 /\ (l = loc_Exact -> Z.pos m = q))
        \/ (e' = e + 1 /\ Z.pos m = 2 ^ 52 /\ l <> loc_Exact)).
Proof.
  intros Hq He.
  assert (Hpos : 0 < q) by (rewrite pow2_52 in Hq; lia).
  destruct q as [|p|p]; try lia.
  unfold binary_round_aux.
  rewrite shr_fexp_53 by (try apply digits2_pos_eq; simpl; lia).
  rewrite shr_m_record, loc_of_record.
  destruct (round_nearest_even_bounds (Z.pos p) l) as [Hb Hx].
  destruct (round_finish s (round_nearest_even (Z.pos p) l) e)
    as (m & e' & Heq & Hm & Hcase); [lia|lia|].
  exists m, e'. split; [exact Heq|]. split; [exact Hm|].
  destruct Hcase as [[-> Hr]|(-> & Hr & Hr')]; [left|right].
  - split; [reflexivity|]. split; [lia|]. intros Hl. rewrite Hr. auto.
  - split; [reflexivity|]. split; [exact Hr|]. intros Hl.
    rewrite (Hx Hl) in Hr'. lia.
Qed.

Lemma binary_round_aux_54 s q e l :
  2 ^ 53 <= q < 2 ^ 54 -> -1075 <= e <= 969 ->
  exists m e',
    binary_round_aux prec emax s q e l = S754_finite s m e'
    /\ 2 ^ 52 <= Z.pos m < 2 ^ 53
    /\ ((e' = e + 1 /\ q / 2 <= Z.pos m <= q / 2 + 1
         /\ (l = loc_Exact -> Z.even q = true -> Z.pos m = q / 2))
        \/ (e' = e + 2 /\ Z.pos m = 2 ^ 52
            /\ ~ (l = loc_Exact /\ Z.even q = true))).
Proof.
  intros Hq He.
  assert (Hpos : 0 < q) by (rewrite pow2_53 in Hq; lia).
  assert (Hhalf : 2 ^ 52 <= q / 2 < 2 ^ 53).
  { rewrite pow2_52, pow2_53, pow2_54 in *. split.
    - apply Z.div_le_lower_bound; lia.
    - apply Z.div_lt_upper_bound; lia. }
  destruct q as [|p|p]; try lia.
  unfold binary_round_aux.
  rewrite shr_fexp_54 by (try apply digits2_pos_eq; simpl; lia).
  set (rec := shr_1 (shr_record_of_loc (Z.pos p) l)).
  assert (Hrec : shr_m rec = Z.pos p / 2
                 /\ (l = loc_Exact -> Z.even (Z.pos p) = true ->
                     loc_of_shr_record rec = loc_Exact)).
  { subst rec. destruct l as [|[]]; cbn [shr_record_of_loc];
      rewrite shr_1_spec by lia; cbn [shr_m]; (split; [reflexivity|]);
      try discriminate.
    intros _ Hev. rewrite <- Z.negb_even, Hev. reflexivity. }
  destruct Hrec as [Hrm Hrl]. rewrite Hrm.
  destruct (round_nearest_even_bounds (Z.pos p / 2) (loc_of_shr_record rec))
    as [Hb Hx].
  destruct (round_finish s (round_nearest_even (Z.pos p / 2) (loc_of_shr_record rec))
              (e + 1))
    as (m & e' & Heq & Hm & Hcase); [lia|lia|].
  exists m, e'. split; [exact Heq|]. split; [exact Hm|].
  destruct Hcase as [[-> Hr]|(-> & Hr & Hr')]; [left|right].
  - split; [reflexivity|]. split; [lia|]. intros Hl Hev. rewrite Hr. auto.
  - split; [lia|]. split; [exact Hr|]. intros [Hl Hev].
    rewrite (Hx (Hrl Hl Hev)) in Hr'. lia.
Qed.

Lemma valid_normal s m e :
  2 ^ 52 <= Z.pos m < 2 ^ 53 -> -1074 <= e <= 971 ->
  valid_binary (S754_finite s m e) = true.
Proof.
  intros Hm He. cbn [valid_binary]. unfold bounded, canonical_mantissa.
  rewrite (digits2_pos_eq m 53) by (simpl; lia).
  rewrite fexp_normal by lia.
  apply andb_true_intro. split.
  - apply Z.eqb_eq. lia.
  - apply Z.leb_le. unfold emax, prec. lia.
Qed.

(** An integer of at most 53 bits, brought to a 53-bit mantissa. *)
Lemma shl_align_int p :
  Z.pos p < 2 ^ 53 ->
  exists m e,
    shl_align p 0 (fexp prec emax (Z.pos (digits2_pos p) + 0)) = (m, e)
    /\ 2 ^ 52 <= Z.pos m < 2 ^ 53 /\ -52 <= e <= 0
    /\ Z.pos m = Z.pos p * 2 ^ (- e).
Proof.
  intros Hp. pose proof (digits2_pos_bounds p) as [Hlo Hhi].
  set (d := Z.pos (digits2_pos p)) in *.
  assert (Hd : 1 <= d <= 53).
  { split; [subst d; lia|].
    destruct (Z_lt_le_dec 53 d) as [Hlt|]; [|lia].
    assert (2 ^ 53 <= 2 ^ (d - 1)) by (apply Z.pow_le_mono_r; lia). lia. }
  rewrite fexp_normal by lia. unfold shl_align.
  replace (d + 0 - 53 - 0) with (d - 53) by lia.
  destruct (Z.eq_dec d 53) as [Heq|Hne].
  - rewrite Heq. cbn [Z.sub Z.add Z.opp Z.pos_sub].
    exists p, 0. split; [reflexivity|]. rewrite Heq in Hlo.
    split; [simpl in *; lia|]. split; [lia|]. simpl. lia.
  - destruct (d - 53) as [|k|k] eqn:Hk; try lia.
    exists (Pos.iter xO p k), (d + 0 - 53). split; [reflexivity|].
    rewrite iter_xO.
    assert (Hpow : 2 ^ (d - 1) * 2 ^ Z.pos k = 2 ^ 52).
    { rewrite <- Z.pow_add_r by lia. f_equal. lia. }
    assert (Hpow' : 2 ^ d * 2 ^ Z.pos k = 2 ^ 53).
    { rewrite <- Z.pow_add_r by lia. f_equal. lia. }
    assert (0 < 2 ^ Z.pos k) by (apply Z.pow_pos_nonneg; lia).
    split; [nia|]. split; [lia|].
    f_equal. f_equal. lia.
Qed.

Lemma binary_normalize_int z :
  z <> 0 -> Z.abs z < 2 ^ 53 ->
  exists m e,
    binary_normalize prec emax z 0 false = S754_finite (z <? 0) m e
    /\ 2 ^ 52 <= Z.pos m < 2 ^ 53 /\ -52 <= e <= 0
    /\ Z.pos m = Z.abs z * 2 ^ (- e).
Proof.
  intros Hz Hlt.
  assert (Hgen : forall s p, Z.pos p < 2 ^ 53 ->
            exists m e,
              binary_round prec emax s p 0 = S754_finite s m e
              /\ 2 ^ 52 <= Z.pos m < 2 ^ 53 /\ -52 <= e <= 0
              /\ Z.pos m = Z.pos p * 2 ^ (- e)).
  { intros s p Hp. unfold binary_round.
    destruct (shl_align_int p Hp) as (m & e & -> & Hm & He & Hv).
    destruct (binary_round_aux_53 s (Z.pos m) e loc_Exact Hm) as (m' & e' & Heq & Hm' & Hcase);
      [lia|].
    destruct Hcase as [(-> & _ & Hx)|(_ & _ & Hne)]; [|congruence].
    specialize (Hx eq_refl). injection Hx as ->.
    exists m, e. auto. }
  destruct z as [|p|p]; [congruence| |]; cbn [binary_normalize Z.ltb Z.compare Z.abs] in *.
  - apply Hgen. exact Hlt.
  - apply Hgen. exact Hlt.
Qed.

Lemma new_location_zero n : new_location n 0 = loc_Exact.
Proof.
  unfold new_location, new_location_even, new_location_odd.
  now destruct (Z.even n).
Qed.

(** The quotient of two normal numbers. *)
Lemma SFdiv_normal s1 m1 e1 s2 m2 e2 :
  2 ^ 52 <= Z.pos m1 < 2 ^ 53 -> 2 ^ 52 <= Z.pos m2 < 2 ^ 53 ->
  -1021 <= e1 - e2 <= 1020 ->
  exists m e,
    SFdiv prec emax (S754_finite s1 m1 e1) (S754_finite s2 m2 e2)
    = S754_finite (xorb s1 s2) m e
    /\ 2 ^ 52 <= Z.pos m < 2 ^ 53
    /\ ((Z.pos m1 < Z.pos m2
         /\ ((e = e1 - e2 - 53 /\ Z.pos m1 <= Z.pos m)
             \/ (e = e1 - e2 - 52 /\ Z.pos m = 2 ^ 52)))
        \/ (Z.pos m2 <= Z.pos m1
            /\ ((e = e1 - e2 - 52 /\ (m1 = m2 -> Z.pos m = 2 ^ 52))
                \/ (e = e1 - e2 - 51 /\ Z.pos m = 2 ^ 52 /\ m1 <> m2)))).
Proof.
  intros Hm1 Hm2 He. cbn [SFdiv]. unfold SFdiv_core_binary. cbn [Zdigits2].
  rewrite (digits2_pos_eq m1 53), (digits2_pos_eq m2 53) by (simpl; lia).
  rewrite fexp_normal by lia.
  replace (Z.min (53 + e1 - (53 + e2) - 53) (e1 - e2)) with (e1 - e2 - 53) by lia.
  replace (e1 - e2 - (e1 - e2 - 53)) with 53 by lia.
  rewrite Z.shiftl_mul_pow2 by lia.
  pose proof (Z_div_mod (Z.pos m1 * 2 ^ 53) (Z.pos m2) eq_refl) as Hdiv.
  destruct (Z.div_eucl (Z.pos m1 * 2 ^ 53) (Z.pos m2)) as [q r].
  destruct Hdiv as [Hqr Hr].
  rewrite pow2_52, pow2_53 in *.
  destruct (Z_lt_le_dec (Z.pos m1) (Z.pos m2)) as [Hlt|Hge].
  - assert (Hq : 2 ^ 52 <= q < 2 ^ 53) by (rewrite pow2_52, pow2_53; nia).
    destruct (binary_round_aux_53 (xorb s1 s2) q (e1 - e2 - 53)
                (new_location (Z.pos m2) r) Hq)
      as (m & e & Heq & Hm & Hcase); [lia|].
    exists m, e. split; [exact Heq|]. rewrite pow2_52, pow2_53 in *.
    split; [exact Hm|]. left. split; [exact Hlt|].
    destruct Hcase as [(-> & Hb & _)|(-> & Hv & _)]; [left|right].
    + split; [reflexivity|]. nia.
    + split; [lia|exact Hv].
  - assert (Hq : 2 ^ 53 <= q < 2 ^ 54) by (rewrite pow2_53, pow2_54; nia).
    destruct (binary_round_aux_54 (xorb s1 s2) q (e1 - e2 - 53)
                (new_location (Z.pos m2) r) Hq)
      as (m & e & Heq & Hm & Hcase); [lia|].
    exists m, e. split; [exact Heq|]. rewrite pow2_52, pow2_53 in *.
    split; [exact Hm|]. right. split; [exact Hge|].
    assert (Hsame : m1 = m2 -> q = 9007199254740992 /\ r = 0).
    { intros ->. nia. }
    destruct Hcase as [(-> & Hb & Hx)|(-> & Hv & Hne)]; [left|right].
    + split; [lia|]. intros Heq12. destruct (Hsame Heq12) as [-> ->].
      rewrite new_location_zero in Hx. rewrite (Hx eq_refl eq_refl). reflexivity.
    + split; [lia|]. split; [exact Hv|]. intros Heq12.
      destruct (Hsame Heq12) as [-> ->]. apply Hne.
      rewrite new_location_zero. split; reflexivity.
Qed.

(** The normal forms of two integers are ordered as the integers are. *)
Lemma int_normal_order a b m1 e1 m2 e2 :
  1 <= a <= b ->
  2 ^ 52 <= Z.pos m1 < 2 ^ 53 -> 2 ^ 52 <= Z.pos m2 < 2 ^ 53 ->
  e1 <= 0 -> e2 <= 0 ->
  Z.pos m1 = a * 2 ^ (- e1) -> Z.pos m2 = b * 2 ^ (- e2) ->
  e1 < e2 \/ (e1 = e2 /\ Z.pos m1 <= Z.pos m2).
Proof.
  intros Hab Hm1 Hm2 He1 He2 Hv1 Hv2.
  destruct (Z_lt_le_dec e1 e2) as [Hlt|Hge]; [left; exact Hlt|right].
  assert (H1 : 0 < 2 ^ (- e1)) by (apply Z.pow_pos_nonneg; lia).
  destruct (Z.eq_dec e1 e2) as [Heq|Hne].
  - split; [exact Heq|]. subst e2. nia.
  - exfalso.
    assert (Hk : 2 ^ (- e2) = 2 ^ (- e1) * 2 ^ (e1 - e2)).
    { rewrite <- Z.pow_add_r by lia. f_equal. lia. }
    assert (H2 : 2 ^ 1 <= 2 ^ (e1 - e2)) by (apply Z.pow_le_mono_r; lia).
    change (2 ^ 1) with 2 in H2.
    rewrite Hk in Hv2. nia.
Qed.

(** A quotient of normal numbers, the numerator not above the denominator. *)
Lemma SFdiv_le_one s1 m1 e1 s2 m2 e2 :
  2 ^ 52 <= Z.pos m1 < 2 ^ 53 -> 2 ^ 52 <= Z.pos m2 < 2 ^ 53 ->
  -52 <= e1 <= 0 -> -52 <= e2 <= 0 ->
  exists m e,
    SFdiv prec emax (S754_finite s1 m1 e1) (S754_finite s2 m2 e2)
    = S754_finite (xorb s1 s2) m e
    /\ 2 ^ 52 <= Z.pos m < 2 ^ 53 /\ -105 <= e <= 1
    /\ (e1 < e2 \/ (e1 = e2 /\ Z.pos m1 <= Z.pos m2) ->
        e <= -53 \/ (e = -52 /\ Z.pos m = 2 ^ 52)).
Proof.
  intros Hm1 Hm2 He1 He2.
  destruct (SFdiv_normal s1 m1 e1 s2 m2 e2 Hm1 Hm2) as (m & e & Heq & Hm & Hcase);
    [lia|].
  exists m, e. split; [exact Heq|]. split; [exact Hm|]. split; [lia|].
  intros Hord.
  destruct Hcase as [(Hlt & [[-> _]|[-> Hv]])|(Hge & [[-> Hv]|(-> & Hv & Hne)])].
  - lia.
  - destruct (Z.eq_dec e1 e2); [right; split; [lia|exact Hv]|left; lia].
  - destruct Hord as [Hlt|[Heq' Hle]]; [left; lia|right].
    split; [lia|]. apply Hv. apply Pos2Z.inj. lia.
  - destruct Hord as [Hlt|[Heq' Hle]].
    + destruct (Z.eq_dec (e1 + 1) e2); [right; split; [lia|exact Hv]|left; lia].
    + exfalso. apply Hne. apply Pos2Z.inj. lia.
Qed.

(** A number divided by a rate that is at most one. *)
Lemma SFdiv_by_rate s1 m1 e1 s2 m2 e2 :
  2 ^ 52 <= Z.pos m1 < 2 ^ 53 -> 2 ^ 52 <= Z.pos m2 < 2 ^ 53 ->
  -52 <= e1 <= 0 -> -105 <= e2 <= 1 ->
  exists m e,
    SFdiv prec emax (S754_finite s1 m1 e1) (S754_finite s2 m2 e2)
    = S754_finite (xorb s1 s2) m e
    /\ 2 ^ 52 <= Z.pos m < 2 ^ 53
    /\ (e2 <= -53 \/ (e2 = -52 /\ Z.pos m2 = 2 ^ 52) -> -52 <= e).
Proof.
  intros Hm1 Hm2 He1 He2.
  destruct (SFdiv_normal s1 m1 e1 s2 m2 e2 Hm1 Hm2) as (m & e & Heq & Hm & Hcase);
    [lia|].
  exists m, e. split; [exact Heq|]. split; [exact Hm|].
  intros Hrate.
  destruct Hcase as [(Hlt & [[-> _]|[-> Hv]])|(Hge & [[-> Hv]|(-> & Hv & Hne)])]; lia.
Qed.

Lemma Prim2SF_Z2F_zero : Prim2SF (Z2F 0) = S754_zero false.
Proof. reflexivity. Qed.

(** [float(z)] of a non-zero integer below [2^53] is a normal number that
    holds the integer exactly. *)
Lemma Prim2SF_Z2F z :
  z <> 0 -> Z.abs z < 2 ^ 53 ->
  exists m e,
    Prim2SF (Z2F z) = S754_finite (z <? 0) m e
    /\ 2 ^ 52 <= Z.pos m < 2 ^ 53 /\ -52 <= e <= 0
    /\ Z.pos m = Z.abs z * 2 ^ (- e).
Proof.
  intros Hz Hlt.
  destruct (binary_normalize_int z Hz Hlt) as (m & e & Heq & Hm & He & Hv).
  exists m, e. split; [|auto]. unfold Z2F. rewrite Heq.
  apply FloatAxioms.Prim2SF_SF2Prim. apply valid_normal; [exact Hm|lia].
Qed.

(** [a / b] for two positive integers below [2^53]: a normal number, at
    most one when [a <= b]. *)
Lemma py_truediv_rate a b :
  1 <= a < 2 ^ 53 -> 1 <= b < 2 ^ 53 ->
  exists rate m e,
    py_truediv a b = inr rate
    /\ Prim2SF rate = S754_finite false m e
    /\ 2 ^ 52 <= Z.pos m < 2 ^ 53 /\ -105 <= e <= 1
    /\ (a <= b -> e <= -53 \/ (e = -52 /\ Z.pos m = 2 ^ 52)).
Proof.
  intros Ha Hb. unfold py_truediv.
  replace (b =? 0) with false by (symmetry; apply Z.eqb_neq; lia).
  destruct (Prim2SF_Z2F a) as (m1 & e1 & H1 & Hm1 & He1 & Hv1); [lia|lia|].
  destruct (Prim2SF_Z2F b) as (m2 & e2 & H2 & Hm2 & He2 & Hv2); [lia|lia|].
  replace (a <? 0) with false in H1 by (symmetry; apply Z.ltb_ge; lia).
  replace (b <? 0) with false in H2 by (symmetry; apply Z.ltb_ge; lia).
  rewrite Z.abs_eq in Hv1, Hv2 by lia.
  destruct (SFdiv_le_one false m1 e1 false m2 e2 Hm1 Hm2 He1 He2)
    as (m & e & Heq & Hm & He & Hle).
  exists (Z2F a / Z2F b)%float, m, e. split; [reflexivity|].
  rewrite FloatAxioms.div_spec, H1, H2. split; [exact Heq|].
  split; [exact Hm|]. split; [exact He|].
  intros Hab. apply Hle.
  apply (int_normal_order a b m1 e1 m2 e2); try assumption; lia.
Qed.

(** The integer part of a positive normal number that is at least one. *)
Lemma trunc_normal_ge_one m e :
  2 ^ 52 <= Z.pos m < 2 ^ 53 -> -52 <= e ->
  1 <= (if 0 <=? e then Z.pos m * 2 ^ e else Z.pos m / 2 ^ (- e)).
Proof.
  intros Hm He. destruct (0 <=? e) eqn:H0.
  - apply Z.leb_le in H0.
    assert (0 < 2 ^ e) by (apply Z.pow_pos_nonneg; lia). nia.
  - apply Z.leb_gt in H0.
    assert (0 < 2 ^ (- e)) by (apply Z.pow_pos_nonneg; lia).
    assert (2 ^ (- e) <= 2 ^ 52) by (apply Z.pow_le_mono_r; lia).
    apply Z.div_le_lower_bound; lia.
Qed.

(** [int(remaining / valid_rate)] for an integer below [2^53] and a normal
    rate: it is defined, and at least one when [remaining] is positive and the
    rate is at most one. *)
Lemma py_int_quotient remaining rate m e :
  Z.abs remaining < 2 ^ 53 ->
  Prim2SF rate = S754_finite false m e ->
  2 ^ 52 <= Z.pos m < 2 ^ 53 -> -105 <= e <= 1 ->
  exists q k,
    py_div_float remaining rate = inr q /\ py_int q = inr k
    /\ (1 <= remaining -> e <= -53 \/ (e = -52 /\ Z.pos m = 2 ^ 52) -> 1 <= k).
Proof.
  intros Hr Hrate Hm He. unfold py_div_float.
  assert (Hnz : (rate =? 0)%float = false).
  { rewrite FloatAxioms.eqb_spec, Hrate. reflexivity. }
  rewrite Hnz. exists (Z2F remaining / rate)%float.
  unfold py_int. rewrite FloatAxioms.div_spec, Hrate.
  destruct (Z.eq_dec remaining 0) as [->|Hne].
  - rewrite Prim2SF_Z2F_zero. cbn. exists 0. split; [reflexivity|].
    split; [reflexivity|lia].
  - destruct (Prim2SF_Z2F remaining Hne Hr) as (m1 & e1 & H1 & Hm1 & He1 & Hv1).
    rewrite H1.
    destruct (SFdiv_by_rate (remaining <? 0) m1 e1 false m e Hm1 Hm He1 He)
      as (m' & e' & Heq & Hm' & Hge).
    unfold SF64div. rewrite Heq. cbn [trunc_SF].
    eexists. split; [reflexivity|]. split; [reflexivity|].
    intros Hpos Hle.
    replace (remaining <? 0) with false by (symmetry; apply Z.ltb_ge; lia).
    cbn [xorb cond_Zopp]. apply trunc_normal_ge_one; auto.
Qed.

(** Lines 338-339 never raise on integers below [2^53]; the request is at
    least one when rows remain and no more rows were newly valid than were
    requested. *)
Lemma next_request_size_defined batch_size remaining num_new_valid_rows
    num_rows_to_sample :
  Z.abs remaining < 2 ^ 53 ->
  num_new_valid_rows < 2 ^ 53 -> num_rows_to_sample < 2 ^ 53 ->
  exists k,
    next_request_size batch_size remaining num_new_valid_rows num_rows_to_sample
    = inr (Z.min (10 * batch_size) k)
    /\ (1 <= remaining ->
        num_new_valid_rows <= Z.max num_rows_to_sample 1 -> 1 <= k).
Proof.
  intros Hr Hn Hq. unfold next_request_size.
  destruct (py_truediv_rate (Z.max num_new_valid_rows 1) (Z.max num_rows_to_sample 1))
    as (rate & m & e & -> & Hrate & Hm & He & Hle);
    [rewrite pow2_53 in *; lia|rewrite pow2_53 in *; lia|].
  destruct (py_int_quotient remaining rate m e Hr Hrate Hm He)
    as (q & k & -> & -> & Hk).
  exists k. split; [reflexivity|]. intros Hpos Hnew. apply Hk; [exact Hpos|].
  apply Hle. lia.
Qed.

(** ** The acceptance loop *)

Section Loop.
Context `{TM : TabularModel}.

Lemma bind_inr_inv {A B} (m : M A) (k : A -> M B) w b w' :
  bind m k w = (inr b, w') ->
  exists a w1, m w = (inr a, w1) /\ k a w1 = (inr b, w').
Proof.
  unfold bind. destruct (m w) as [[e|a] w1]; [discriminate|]. eauto.
Qed.

Lemma lift_inr_inv {A} (r : exn + A) w a w' :
  lift r w = (inr a, w') -> r = inr a /\ w' = w.
Proof. destruct r; cbn; intros H; inversion H; auto. Qed.

Lemma len_nonneg df : 0 <= len df.
Proof. unfold len. lia. Qed.

Lemma len_head n df : 0 <= n -> len (head n df) = Z.min n (len df).
Proof.
  intros Hn. unfold head, len. cbn [df_rows].
  replace (n <? 0) with false by (symmetry; apply Z.ltb_ge; lia).
  rewrite length_firstn. lia.
Qed.

(** Once the count of valid rows has reached the target, no round runs. *)
Lemma sample_batch_loop_stops k batch_size conditions transformed rtol
    progress_bar path st w :
  batch_size <= num_valid st ->
  _sample_batch_loop k batch_size conditions transformed rtol progress_bar path st w
  = (inr st, w).
Proof.
  intros Hge. destruct k; cbn [_sample_batch_loop];
    (replace (num_valid st <? batch_size) with false
       by (symmetry; apply Z.ltb_ge; lia)); reflexivity.
Qed.

Lemma sample_batch_len batch_size max_tries conditions transformed rtol
    progress_bar path w df w' :
  0 <= batch_size ->
  _sample_batch batch_size max_tries conditions transformed rtol progress_bar path w
  = (inr df, w') ->
  exists st w0,
    _sample_batch_loop (Z.to_nat max_tries) batch_size conditions transformed rtol
      progress_bar path (batch_init batch_size) w0 = (inr st, w')
    /\ w0 = w
    /\ len df = Z.min (len (sampled st)) batch_size.
Proof.
  intros Hbs Hrun. unfold _sample_batch in Hrun.
  apply bind_inr_inv in Hrun as (st & w1 & Hloop & Hret).
  injection Hret as <- <-. exists st, w. split; [exact Hloop|]. split; [reflexivity|].
  pose proof (len_nonneg (sampled st)). rewrite len_head by lia. lia.
Qed.

Lemma sample_in_batches_len num_rows batch_size max_tries conditions transformed
    rtol progress_bar path w df w' :
  0 <= num_rows ->
  _sample_in_batches num_rows batch_size max_tries conditions transformed rtol
    progress_bar path w = (inr df, w') ->
  len df <= num_rows.
Proof.
  intros Hn Hrun. unfold _sample_in_batches in Hrun.
  apply bind_inr_inv in Hrun as (q & w1 & _ & Hrun).
  apply bind_inr_inv in Hrun as (steps & w2 & _ & Hrun).
  apply bind_inr_inv in Hrun as (batches & w3 & _ & Hrun).
  apply bind_inr_inv in Hrun as (all & w4 & _ & Hrun).
  injection Hrun as <- <-. rewrite len_head by lia. lia.
Qed.

(** C6, as the code has it. The loop of [_sample_batch] runs no round once
    the count of valid rows has reached the target, and trims only on return:
    for every target that is not negative, the result of [_sample_batch] has
    as many rows as the loop accepted, cut down to the target, and the result
    of [_sample_in_batches] has at most [num_rows] rows. *)
Theorem accepted_rows_trimmed batch_size max_tries conditions transformed rtol
    progress_bar path :
  0 <= batch_size ->
  (forall k st w,
     batch_size <= num_valid st ->
     _sample_batch_loop k batch_size conditions transformed rtol progress_bar
       path st w = (inr st, w))
  /\ (forall w df w',
        _sample_batch batch_size max_tries conditions transformed rtol
          progress_bar path w = (inr df, w') ->
        len df <= batch_size
        /\ exists st,
             _sample_batch_loop (Z.to_nat max_tries) batch_size conditions
               transformed rtol progress_bar path (batch_init batch_size) w
             = (inr st, w')
             /\ len df = Z.min (len (sampled st)) batch_size)
  /\ (forall num_rows w df w',
        0 <= num_rows ->
        _sample_in_batches num_rows batch_size max_tries conditions transformed
          rtol progress_bar path w = (inr df, w') ->
        len df <= num_rows).
Proof.
  intros Hbs. split; [|split].
  - intros. now apply sample_batch_loop_stops.
  - intros w df w' Hrun.
    destruct (sample_batch_len _ _ _ _ _ _ _ _ _ _ Hbs Hrun)
      as (st & w0 & Hloop & -> & Hlen).
    split; [lia|]. exists st. split; assumption.
  - intros. eapply sample_in_batches_len; eassumption.
Qed.

End Loop.

Section Resize.
Context `{TM : TabularModel}.

(** What a round that returns has done to the local variables. *)
Lemma sample_batch_round_inv batch_size conditions transformed rtol
    progress_bar path st w st' w' :
  _sample_batch_round batch_size conditions transformed rtol progress_bar path st w
  = (inr st', w') ->
  exists rows w1,
    _sample_rows (num_rows_to_sample st) conditions transformed rtol
      (Some (sampled st)) w = (inr (rows, num_valid st'), w1)
    /\ sampled st' = rows
    /\ counter st' = counter st + 1
    /\ prev_num_valid st' = Some (num_valid st)
    /\ remaining st' = batch_size - num_valid st'
    /\ next_request_size batch_size (batch_size - num_valid st')
         (num_valid st' - num_valid st) (num_rows_to_sample st)
       = inr (num_rows_to_sample st').
Proof.
  intros Hrun. unfold _sample_batch_round in Hrun.
  apply bind_inr_inv in Hrun as ([rows nv] & w1 & Hrows & Hrun).
  apply bind_inr_inv in Hrun as (u & w2 & _ & Hrun).
  apply bind_inr_inv in Hrun as (n & w3 & Hn & Hrun).
  apply lift_inr_inv in Hn as [Hn ->].
  injection Hrun as <- <-. cbn in *.
  exists rows, w1. repeat split; try reflexivity; assumption.
Qed.

(** C1, as the code has it. In every round of the loop of [_sample_batch]
    that returns without reaching the target, the next request is
    [min(10 * batch_size, int(remaining / valid_rate))] in binary64
    arithmetic, with [valid_rate = max(num_new_valid_rows, 1) /
    max(num_rows_to_sample, 1)] and [remaining = batch_size - num_valid]:
    the quotient is cut towards zero, and no floor is applied.  When the
    round yielded no more valid rows than it had requested, and
    [10 * batch_size] is below [2^53], that request lies between [1] and
    [10 * batch_size]. *)
Theorem request_size_of_round batch_size conditions transformed rtol
    progress_bar path st w st' w' :
  _sample_batch_round batch_size conditions transformed rtol progress_bar path st w
  = (inr st', w') ->
  0 < batch_size -> 10 * batch_size < 2 ^ 53 ->
  num_rows_to_sample st <= 10 * batch_size ->
  0 <= num_valid st' < batch_size ->
  num_valid st' - num_valid st <= Z.max (num_rows_to_sample st) 1 ->
  remaining st' = batch_size - num_valid st'
  /\ next_request_size batch_size (remaining st') (num_valid st' - num_valid st)
       (num_rows_to_sample st)
     = inr (num_rows_to_sample st')
  /\ 1 <= num_rows_to_sample st' <= 10 * batch_size.
Proof.
  intros Hrun Hbs Hbound Hreq Hvalid Hnew.
  destruct (sample_batch_round_inv _ _ _ _ _ _ _ _ _ _ Hrun)
    as (rows & w1 & _ & _ & _ & _ & Hrem & Hnext).
  rewrite Hrem. split; [reflexivity|]. split; [exact Hnext|].
  destruct (next_request_size_defined batch_size (batch_size - num_valid st')
              (num_valid st' - num_valid st) (num_rows_to_sample st))
    as (k & Hk & Hge); [lia|lia|lia|].
  rewrite Hk in Hnext. injection Hnext as <-.
  specialize (Hge ltac:(lia) Hnew). lia.
Qed.

End Resize.

(** The first round of [late_model] for a target of 10 rows: 9 of the 10
    rows are valid, one row remains, and the next request is one row. *)
Lemma request_size_of_round_witness :
  exists st w,
    @_sample_batch_round Examples.late_model 10 None None 0.01%float true None
      (batch_init 10) (@Examples.world0 Examples.late_model 0%nat)
    = (inr st, w)
    /\ num_valid st = 9 /\ remaining st = 1
    /\ next_request_size 10 1 9 10 = inr (num_rows_to_sample st)
    /\ 1 <= num_rows_to_sample st <= 100.
Proof.
  assert (Hrun : exists st w,
            @_sample_batch_round Examples.late_model 10 None None 0.01%float
              true None (batch_init 10)
              (@Examples.world0 Examples.late_model 0%nat)
            = (inr st, w)
            /\ num_valid st = 9 /\ remaining st = 1).
  { eexists. eexists. split; [vm_compute; reflexivity|]. split; reflexivity. }
  destruct Hrun as (st & w & Hrun & Hv & Hr).
  exists st, w. split; [exact Hrun|]. split; [exact Hv|]. split; [exact Hr|].
  destruct (@request_size_of_round Examples.late_model 10 None None
              0.01%float true None _ _ _ _ Hrun)
    as (_ & Hnext & Hbounds).
  - lia.
  - reflexivity.
  - cbn. lia.
  - lia.
  - rewrite Hv. cbn. lia.
  - rewrite Hr, Hv in Hnext. split; [exact Hnext|exact Hbounds].
Defined.

(** C1 fails as stated: after that round one row remains and the rate is
    [9 / 10]; the specification's rule asks for [ceil(1 / 0.9) = 2] rows, the
    code for [int(1 / 0.9) = 1] row. *)
Lemma request_size_truncates :
  exists st w,
    @_sample_batch_round Examples.late_model 10 None None 0.01%float true None
      (batch_init 10) (@Examples.world0 Examples.late_model 0%nat)
    = (inr st, w)
    /\ num_valid st = 9 /\ remaining st = 1
    /\ num_rows_to_sample st = 1
    /\ spec_request_size 10 (remaining st) (num_valid st - 0) 10 = 2.
Proof.
  eexists. eexists. split; [vm_compute; reflexivity|].
  repeat split.
Qed.

Lemma accepted_rows_trimmed_witness :
  exists df w,
    @_sample_batch Examples.half_model 10 100 None None 0.01%float true None
      (@Examples.world0 Examples.half_model 0%nat)
    = (inr df, w)
    /\ len df <= 10.
Proof.
  assert (Hrun : exists df w,
            @_sample_batch Examples.half_model 10 100 None None 0.01%float true
              None (@Examples.world0 Examples.half_model 0%nat)
            = (inr df, w)).
  { eexists. eexists. vm_compute. reflexivity. }
  destruct Hrun as (df & w & Hrun).
  exists df, w. split; [exact Hrun|].
  destruct (@accepted_rows_trimmed Examples.half_model 10 100 None None
              0.01%float true None) as (_ & Hbatch & _); [lia|].
  exact (proj1 (Hbatch _ _ _ Hrun)).
Defined.

(** C6 fails as stated: with [half_model] and a target of 10 rows, the first
    round accepts 5 rows and the second round, which asks for 10 more, leaves
    15 accepted rows in the loop. *)
Lemma accepted_rows_exceed_target :
  exists st w,
    @_sample_batch_loop Examples.half_model 100 10 None None 0.01%float true None
      (batch_init 10) (@Examples.world0 Examples.half_model 0%nat)
    = (inr st, w)
    /\ counter st = 2 /\ num_valid st = 15 /\ len (sampled st) = 15.
Proof.
  eexists. eexists. split; [vm_compute; reflexivity|]. repeat split.
Qed.

(** ** Unconditioned sampling *)

Lemma relabel_length rows : length (relabel rows) = length rows.
Proof.
  unfold relabel. rewrite length_map, length_combine.
  unfold range_index. rewrite length_map, length_seq. lia.
Qed.

Lemma total_rows_concat {A} (f : DataFrame -> list A) frames :
  (forall df, length (f df) = length (df_rows df)) ->
  Z.of_nat (length (List.concat (List.map f frames))) = total_rows frames.
Proof.
  intros Hf. induction frames as [|df frames IH]; [reflexivity|].
  cbn [List.map List.concat total_rows fold_right].
  rewrite length_app, Nat2Z.inj_add, IH, Hf. reflexivity.
Qed.

(** [pd.concat] keeps every row of every frame. *)
Lemma pd_concat_len frames ignore_index :
  frames <> [] ->
  exists df, pd_concat frames ignore_index = inr df /\ len df = total_rows frames.
Proof.
  intros Hne. destruct frames as [|df0 frames]; [congruence|].
  eexists. split; [reflexivity|]. unfold len. cbn [df_rows].
  set (rows := List.concat _).
  assert (Hrows : Z.of_nat (length rows) = total_rows (df0 :: frames)).
  { apply total_rows_concat. intros df. apply length_map. }
  destruct ignore_index; [rewrite relabel_length|]; exact Hrows.
Qed.

(** A number divided by itself is one. *)
Lemma py_truediv_diag n :
  1 <= n < 2 ^ 53 ->
  exists q,
    py_truediv n n = inr q
    /\ Prim2SF q = S754_finite false 4503599627370496 (-52).
Proof.
  intros Hn. unfold py_truediv.
  replace (n =? 0) with false by (symmetry; apply Z.eqb_neq; lia).
  destruct (Prim2SF_Z2F n) as (m & e & Hsf & Hm & He & _); [lia|lia|].
  exists (Z2F n / Z2F n)%float. split; [reflexivity|].
  rewrite FloatAxioms.div_spec, Hsf.
  destruct (SFdiv_normal (n <? 0) m e (n <? 0) m e Hm Hm) as (m' & e' & Heq & _ & Hcase);
    [lia|].
  unfold SF64div. rewrite Heq.
  destruct Hcase as [[Hlt _]|[_ [[-> Hv]|(_ & _ & Hne)]]]; [lia| |congruence].
  specialize (Hv eq_refl). rewrite pow2_52 in Hv. injection Hv as ->.
  replace (e - e - 52) with (-52) by lia. now destruct (n <? 0).
Qed.

Lemma py_ceil_diag n :
  1 <= n < 2 ^ 53 ->
  exists q, py_truediv n n = inr q /\ py_ceil q = inr 1.
Proof.
  intros Hn. destruct (py_truediv_diag n Hn) as (q & Hq & Hsf).
  exists q. split; [exact Hq|]. unfold py_ceil. rewrite Hsf. reflexivity.
Qed.

Section Unconditioned.
Context `{TM : TabularModel}.

(** What the engine expects of its collaborators: the generator returns, with
    no more rows than it is asked for; the reverse transform returns and adds
    no row; a constraint only drops rows. *)
Hypothesis generator_returns :
  forall n g, exists df g', _sample n None g = (inr df, g') /\ len df <= Z.max n 0.
Hypothesis reverse_transform_returns :
  forall df, exists df', reverse_transform df = inr df' /\ len df' <= len df.
Hypothesis constraints_filter :
  Forall (fun c : DataFrame -> DataFrame => forall df, len (c df) <= len df)
    _constraints.

Lemma filter_valid_len df : len (filter_valid df) <= len df.
Proof.
  unfold filter_valid. generalize constraints_filter.
  generalize _constraints. intros cs Hall. revert df.
  induction Hall as [|c cs Hc _ IH]; intros df; [cbn; lia|].
  cbn [fold_left]. specialize (IH (c df)). specialize (Hc df). lia.
Qed.

Lemma output_file_ready_same path w w' :
  w_fs w' = w_fs w -> w_cwd w' = w_cwd w ->
  output_file_ready path w -> output_file_ready path w'.
Proof.
  intros Hfs Hcwd. destruct path as [p|]; [|auto].
  unfold output_file_ready, abspath. now rewrite Hfs, Hcwd.
Qed.

Lemma sample_rows_returns n rtol previous path w :
  output_file_ready path w ->
  exists rows nv w',
    _sample_rows n None None rtol (Some previous) w = (inr (rows, nv), w')
    /\ output_file_ready path w'
    /\ (if has_data_columns
        then nv = len rows /\ nv <= len previous + Z.max n 0
        else nv = n).
Proof.
  intros Hready. unfold _sample_rows. destruct has_data_columns.
  - destruct (generator_returns n (w_gen w)) as (df & g' & Hgen & Hlen).
    destruct (reverse_transform_returns df) as (df' & Hrev & Hlen').
    destruct (pd_concat_len [previous; df'] true) as (all & Hcat & Hall);
      [discriminate|].
    unfold bind at 1. unfold call_sample. rewrite Hgen.
    rewrite Hrev. cbn [lift]. rewrite bind_ret_l.
    rewrite Hcat. cbn [lift]. rewrite bind_ret_l. rewrite bind_ret_l.
    eexists. eexists. eexists. split; [reflexivity|]. split.
    + eapply output_file_ready_same; [| |exact Hready]; reflexivity.
    + split; [reflexivity|]. pose proof (filter_valid_len all).
      cbn [total_rows fold_right] in Hall. lia.
  - destruct (reverse_transform_returns (frame_of_range n)) as (df' & Hrev & _).
    rewrite Hrev. cbn [lift]. rewrite bind_ret_l.
    eexists. eexists. eexists. split; [reflexivity|]. split; [exact Hready|].
    reflexivity.
Qed.

(** The report of a round: the new rows are appended to the output file and
    the progress bar moves. *)
Lemma report_returns (increase : bool) path (progress_bar : bool) n df w :
  output_file_ready path w ->
  exists w',
    (if increase then
       (match path with
        | Some p =>
            if truthy_path path then
              size <- getsize p ;;
              to_csv p (0 <? size) df
            else ret tt
        | None => ret tt
        end) ;;
       (if progress_bar then progress_update n else ret tt)
     else ret tt) w = (inr tt, w')
    /\ output_file_ready path w'.
Proof.
  intros Hready. destruct increase; [|exists w; split; [reflexivity|exact Hready]].
  assert (Hfile : exists w1,
            (match path with
             | Some p =>
                 if truthy_path path then
                   size <- getsize p ;;
                   to_csv p (0 <? size) df
                 else ret tt
             | None => ret tt
             end) w = (inr tt, w1)
            /\ output_file_ready path w1).
  { destruct path as [p|]; [|exists w; split; [reflexivity|exact Hready]].
    destruct (truthy_path (Some p)); [|exists w; split; [reflexivity|exact Hready]].
    destruct Hready as [lines Hlines].
    unfold bind, getsize. rewrite Hlines. unfold to_csv.
    eexists. split; [reflexivity|].
    unfold output_file_ready, abspath. cbn.
    fold (abspath w p). rewrite lookup_insert_eq. eexists. reflexivity. }
  destruct Hfile as (w1 & Hfile & Hready1).
  rewrite (bind_inr _ _ _ _ _ Hfile).
  destruct progress_bar; [|exists w1; split; [reflexivity|exact Hready1]].
  eexists. split; [reflexivity|].
  eapply output_file_ready_same; [| |exact Hready1]; reflexivity.
Qed.

(** A round from a state that has not reached the target returns, and keeps
    the invariant of the loop. *)
Lemma sample_batch_round_returns batch_size rtol (progress_bar : bool) path st w :
  0 < batch_size -> 10 * batch_size < 2 ^ 53 ->
  batch_invariant batch_size st -> num_valid st < batch_size ->
  output_file_ready path w ->
  exists st' w',
    _sample_batch_round batch_size None None rtol progress_bar path st w
    = (inr st', w')
    /\ batch_invariant batch_size st' /\ output_file_ready path w'.
Proof.
  intros Hbs Hbound (Hvalid & Hreq1 & Hreq & Hdata) Hlt Hready.
  specialize (Hreq1 Hlt).
  destruct (sample_rows_returns (num_rows_to_sample st) rtol (sampled st) path w
              Hready) as (rows & nv & w1 & Hrows & Hready1 & Hnv).
  assert (Hnew : 0 <= nv /\ nv - num_valid st <= Z.max (num_rows_to_sample st) 1
                 /\ (has_data_columns = true -> nv = len rows)).
  { destruct has_data_columns.
    - destruct Hnv as [-> Hle]. rewrite <- (Hdata eq_refl) in Hle.
      pose proof (len_nonneg rows). repeat split; lia.
    - subst nv. repeat split; try lia; discriminate. }
  destruct Hnew as (Hnv0 & Hnew & Hrows').
  unfold _sample_batch_round. rewrite (bind_inr _ _ _ _ _ Hrows).
  cbn [fst snd].
  destruct (report_returns (0 <? Z.min (nv - num_valid st) (remaining st)) path
              progress_bar (Z.min (nv - num_valid st) (remaining st))
              (tail (Z.min (nv - num_valid st) (remaining st))
                 (head (Z.min (len rows) batch_size) rows)) w1 Hready1)
    as (w2 & Hrep & Hready2).
  rewrite (bind_inr _ _ _ _ _ Hrep).
  destruct (next_request_size_defined batch_size (batch_size - nv)
              (nv - num_valid st) (num_rows_to_sample st))
    as (k & Hk & Hge); [rewrite pow2_53 in *; lia..|].
  rewrite Hk. cbn [lift]. rewrite bind_ret_l.
  eexists. eexists. split; [reflexivity|]. split; [|exact Hready2].
  unfold batch_invariant. cbn [num_valid num_rows_to_sample sampled].
  split; [exact Hnv0|]. split; [|split; [lia|exact Hrows']].
  intros Hnv_lt. specialize (Hge ltac:(lia) Hnew). lia.
Qed.

(** The loop returns, whatever the budget of rounds. *)
Lemma sample_batch_loop_returns batch_size rtol (progress_bar : bool) path k :
  0 < batch_size -> 10 * batch_size < 2 ^ 53 ->
  forall st w,
    batch_invariant batch_size st -> output_file_ready path w ->
    exists st' w',
      _sample_batch_loop k batch_size None None rtol progress_bar path st w
      = (inr st', w')
      /\ output_file_ready path w'.
Proof.
  intros Hbs Hbound. induction k as [|k IH]; intros st w Hinv Hready.
  - exists st, w. split; [|exact Hready]. cbn. now destruct (_ <? _).
  - cbn [_sample_batch_loop]. destruct (num_valid st <? batch_size) eqn:Hlt.
    + apply Z.ltb_lt in Hlt.
      destruct (sample_batch_round_returns batch_size rtol progress_bar path st w
                  Hbs Hbound Hinv Hlt Hready)
        as (st1 & w1 & Hround & Hinv1 & Hready1).
      rewrite (bind_inr _ _ _ _ _ Hround). now apply IH.
    + exists st, w. split; [reflexivity|exact Hready].
Qed.

Lemma batch_init_invariant batch_size :
  0 < batch_size -> batch_invariant batch_size (batch_init batch_size).
Proof.
  intros Hbs. unfold batch_invariant, batch_init. cbn.
  repeat split; intros; lia.
Qed.

(** [_sample_batch] returns the rows its loop accepted, cut down to the
    target. *)
Lemma sample_batch_returns batch_size max_tries rtol (progress_bar : bool) path w :
  0 < batch_size -> 10 * batch_size < 2 ^ 53 ->
  output_file_ready path w ->
  exists df w',
    _sample_batch batch_size max_tries None None rtol progress_bar path w
    = (inr df, w')
    /\ output_file_ready path w'
    /\ exists st,
         _sample_batch_loop (Z.to_nat max_tries) batch_size None None rtol
           progress_bar path (batch_init batch_size) w = (inr st, w')
         /\ len df = Z.min (len (sampled st)) batch_size.
Proof.
  intros Hbs Hbound Hready.
  destruct (sample_batch_loop_returns batch_size rtol progress_bar path
              (Z.to_nat max_tries) Hbs Hbound (batch_init batch_size) w
              (batch_init_invariant _ Hbs) Hready)
    as (st & w' & Hloop & Hready').
  unfold _sample_batch. rewrite (bind_inr _ _ _ _ _ Hloop).
  eexists. eexists. split; [reflexivity|]. split; [exact Hready'|].
  exists st. split; [exact Hloop|].
  pose proof (len_nonneg (sampled st)). rewrite len_head by lia. lia.
Qed.

(** The batches of [_sample_in_batches]: each is the result of a run of
    [_sample_batch], one after the other. *)
Lemma collect_batches_returns batch_size max_tries rtol (progress_bar : bool)
    path steps :
  0 < batch_size -> 10 * batch_size < 2 ^ 53 ->
  forall w,
    output_file_ready path w ->
    exists batches w',
      collect_batches steps
        (_sample_batch batch_size max_tries None None rtol progress_bar path) w
      = (inr batches, w')
      /\ output_file_ready path w'
      /\ length batches = steps
      /\ Forall (fun df => len df <= batch_size) batches.
Proof.
  intros Hbs Hbound. induction steps as [|steps IH]; intros w Hready.
  - exists [], w. repeat split; [exact Hready|constructor].
  - destruct (sample_batch_returns batch_size max_tries rtol progress_bar path w
                Hbs Hbound Hready)
      as (df & w1 & Hrun & Hready1 & st & _ & Hlen).
    destruct (IH w1 Hready1) as (batches & w2 & Hrest & Hready2 & Hsteps & Hall).
    cbn [collect_batches]. rewrite (bind_inr _ _ _ _ _ Hrun).
    rewrite (bind_inr _ _ _ _ _ Hrest).
    exists (df :: batches), w2. split; [reflexivity|]. split; [exact Hready2|].
    split; [cbn; now rewrite Hsteps|]. constructor; [lia|exact Hall].
Qed.

(** [math.ceil(num_rows / batch_size)] is defined. *)
Lemma py_ceil_quotient n b :
  1 <= n < 2 ^ 53 -> 1 <= b < 2 ^ 53 ->
  exists q steps, py_truediv n b = inr q /\ py_ceil q = inr steps.
Proof.
  intros Hn Hb.
  destruct (py_truediv_rate n b Hn Hb) as (q & m & e & Hq & Hsf & _).
  exists q. unfold py_ceil. rewrite Hsf.
  destruct (0 <=? e); eexists; (split; [exact Hq|reflexivity]).
Qed.

Lemma total_rows_nonneg batches : 0 <= total_rows batches.
Proof.
  induction batches as [|df batches IH]; cbn; [lia|].
  pose proof (len_nonneg df). fold (total_rows batches). lia.
Qed.

Lemma sample_in_batches_returns num_rows batch_size max_tries rtol
    (progress_bar : bool) path w :
  0 < num_rows -> 10 * num_rows < 2 ^ 53 -> 0 < batch_size ->
  output_file_ready path w ->
  let size := if batch_size <? num_rows then batch_size else num_rows in
  exists df w' batches,
    _sample_in_batches num_rows batch_size max_tries None None rtol progress_bar
      path w = (inr df, w')
    /\ output_file_ready path w'
    /\ collect_batches (length batches)
         (_sample_batch size max_tries None None rtol progress_bar path) w
       = (inr batches, w')
    /\ Forall (fun df => len df <= size) batches
    /\ len df = Z.min num_rows (total_rows batches)
    /\ (size = num_rows -> length batches = 1%nat).
Proof.
  intros Hn Hbound Hbs Hready size.
  assert (Hsize : 0 < size <= num_rows) by (subst size; destruct (Z.ltb_spec batch_size num_rows); lia).
  unfold _sample_in_batches. fold size.
  destruct (py_ceil_quotient num_rows size) as (q & steps & Hq & Hsteps);
    [rewrite pow2_53 in *; lia..|].
  rewrite Hq. cbn [lift]. rewrite bind_ret_l.
  rewrite Hsteps. cbn [lift]. rewrite bind_ret_l.
  destruct (collect_batches_returns size max_tries rtol progress_bar path
              (Z.to_nat steps) ltac:(lia) ltac:(lia) w Hready)
    as (batches & w' & Hrun & Hready' & Hlen & Hall).
  rewrite (bind_inr _ _ _ _ _ Hrun).
  assert (Hcat : exists all,
            (match batches with
             | [] => ret empty_frame
             | _ => lift (pd_concat batches true)
             end) w' = (inr all, w')
            /\ len all = total_rows batches).
  { destruct batches as [|df0 batches]; [exists empty_frame; split; reflexivity|].
    destruct (pd_concat_len (df0 :: batches) true) as (all & Hcat & Hall');
      [discriminate|].
    exists all. rewrite Hcat. split; [reflexivity|exact Hall']. }
  destruct Hcat as (all & Hcat & Htotal).
  rewrite (bind_inr _ _ _ _ _ Hcat).
  eexists. exists w', batches. split; [reflexivity|]. split; [exact Hready'|].
  split; [rewrite Hlen; exact Hrun|]. split; [exact Hall|].
  split; [rewrite len_head by lia; now rewrite Htotal|].
  intros Hsame. rewrite Hsame in Hq.
  destruct (py_ceil_diag num_rows) as (q' & Hq' & Hone);
    [rewrite pow2_53 in *; lia|].
  rewrite Hq in Hq'. injection Hq' as <-. rewrite Hsteps in Hone.
  injection Hone as ->. exact Hlen.
Qed.

(** A file that is removed if it exists, and created anew. *)
Lemma fresh_file_ready p w :
  exists w',
    (exists_ <- path_exists p ;;
     (if (exists_ : bool) then os_remove p else ret tt) ;;
     create_file p ;;
     ret (Some p)) w = (inr (Some p), w')
    /\ output_file_ready (Some p) w'.
Proof.
  unfold bind at 1. unfold path_exists.
  assert (Hrm : exists w1,
            (if bool_decide (is_Some (w_fs w !! abspath w p))
             then os_remove p else ret tt) w = (inr tt, w1)
            /\ w_cwd w1 = w_cwd w).
  { destruct (w_fs w !! abspath w p) as [lines|] eqn:Hp.
    - rewrite bool_decide_eq_true_2 by (now eexists).
      unfold os_remove. rewrite Hp. eexists. split; reflexivity.
    - rewrite bool_decide_eq_false_2 by (intros [? ?]; discriminate).
      exists w. split; reflexivity. }
  destruct Hrm as (w1 & Hrm & Hcwd).
  rewrite (bind_inr _ _ _ _ _ Hrm).
  unfold bind, create_file, ret. eexists. split; [reflexivity|].
  unfold output_file_ready, abspath. cbn.
  fold (abspath w1 p). rewrite lookup_insert_eq. now eexists.
Qed.

(** [_validate_file_path] accepts a path that is not taken, and leaves the
    file it names in place. *)
Lemma validate_file_path_returns path w :
  cwd_absolute w = true ->
  (forall p, path = Some p -> p <> "" -> p <> DISABLE_TMP_FILE ->
             w_fs w !! abspath w p = None) ->
  exists path' w',
    _validate_file_path path w = (inr path', w')
    /\ output_file_ready path' w'.
Proof.
  intros Hcwd Hfree. unfold _validate_file_path.
  assert (Hfresh : exists path' w',
            (exists_ <- path_exists TMP_FILE_NAME ;;
             (if (exists_ : bool) then os_remove TMP_FILE_NAME else ret tt) ;;
             create_file TMP_FILE_NAME ;;
             ret (Some TMP_FILE_NAME)) w = (inr path', w')
            /\ output_file_ready path' w').
  { destruct (fresh_file_ready TMP_FILE_NAME w) as (w' & Hrun & Hready).
    exists (Some TMP_FILE_NAME), w'. split; assumption. }
  destruct path as [p|]; [|exact Hfresh].
  destruct (String.eqb p DISABLE_TMP_FILE) eqn:Hdis.
  { exists None, w. split; [reflexivity|exact I]. }
  unfold truthy_path. destruct (String.eqb p "") eqn:Hempty; cbn [negb];
    [exact Hfresh|]. clear Hfresh.
  apply String.eqb_neq in Hdis, Hempty.
  specialize (Hfree p eq_refl Hempty Hdis).
  unfold bind at 1. unfold bind at 1. unfold path_exists.
  rewrite abspath_idempotent by exact Hcwd. rewrite Hfree.
  rewrite bool_decide_eq_false_2 by (intros [? ?]; discriminate).
  unfold bind, create_file, ret. eexists. eexists. split; [reflexivity|].
  unfold output_file_ready. cbn.
  rewrite lookup_insert_eq. now eexists.
Qed.

Lemma randomize_samples_returns randomize w :
  _model <> NoModelAttr ->
  exists w',
    _randomize_samples randomize w = (inr tt, w')
    /\ w_fs w' = w_fs w /\ w_cwd w' = w_cwd w.
Proof.
  intros Hmodel. unfold _randomize_samples.
  destruct _model; try contradiction.
  - exists w. repeat split.
  - destruct randomize; eexists; repeat split.
  - destruct randomize; eexists; repeat split.
Qed.

Lemma remove_tmp_file_returns path w :
  exists w', remove_tmp_file path w = (inr tt, w').
Proof.
  unfold remove_tmp_file. destruct (is_tmp_file path); [|now exists w].
  unfold bind, path_exists.
  destruct (w_fs w !! abspath w TMP_FILE_NAME) as [lines|] eqn:Hp.
  - rewrite bool_decide_eq_true_2 by (now eexists).
    unfold os_remove. rewrite Hp. now eexists.
  - rewrite bool_decide_eq_false_2 by (intros [? ?]; discriminate).
    now exists w.
Qed.

End Unconditioned.

(** ** The conditions the caller passes *)

Section ConditionFrames.
Context `{TM : TabularModel}.

Lemma validate_columns_accepts columns :
  validate_columns columns = inr tt
  <-> Forall (fun c => is_Some (assoc c _fields_metadata)) columns.
Proof.
  induction columns as [|c columns IH]; cbn [validate_columns].
  - split; [intros _; constructor|intros _; reflexivity].
  - destruct (assoc c _fields_metadata) as [fm|] eqn:Hc.
    + rewrite IH. split.
      * intros H. constructor; [rewrite Hc; now eexists|exact H].
      * intros H. now inversion H.
    + split; [discriminate|]. intros H. inversion H as [|? ? [? Hx] ?].
      rewrite Hc in Hx. discriminate.
Qed.

Lemma validate_columns_rejects columns e :
  validate_columns columns = inl e ->
  exists known column rest,
    columns = known ++ column :: rest
    /\ Forall (fun c => is_Some (assoc c _fields_metadata)) known
    /\ assoc column _fields_metadata = None
    /\ e = ValueError
             [FText "Unexpected column name `"; FText column;
              FText "`. Use a column name that was present in the original data."].
Proof.
  induction columns as [|c columns IH]; cbn [validate_columns]; [discriminate|].
  destruct (assoc c _fields_metadata) as [fm|] eqn:Hc.
  - intros H. destruct (IH H) as (known & column & rest & -> & Hknown & Hnone & ->).
    exists (c :: known), column, rest. split; [reflexivity|].
    split; [constructor; [rewrite Hc; now eexists|exact Hknown]|].
    split; [exact Hnone|reflexivity].
  - intros H. injection H as <-. exists [], c, columns.
    split; [reflexivity|]. split; [constructor|]. split; [exact Hc|reflexivity].
Qed.

(** [_validate_conditions] accepts a frame exactly when every one of its
    columns is a field of the metadata; otherwise the [ValueError] it raises
    names the first column that is not. *)
Theorem validate_conditions_first_unknown conditions :
  (_validate_conditions conditions = inr tt
   <-> Forall (fun c => is_Some (assoc c _fields_metadata))
         (List.map fst (df_columns conditions)))
  /\ (forall e,
        _validate_conditions conditions = inl e ->
        exists known column rest,
          List.map fst (df_columns conditions) = known ++ column :: rest
          /\ Forall (fun c => is_Some (assoc c _fields_metadata)) known
          /\ assoc column _fields_metadata = None
          /\ e = ValueError
                   [FText "Unexpected column name `"; FText column;
                    FText "`. Use a column name that was present in the original data."]).
Proof.
  split; [apply validate_columns_accepts|apply validate_columns_rejects].
Qed.


(** The rows the frames of a list of groups hold. *)
Lemma append_at_groups key df d :
  Forall (fun kl : list string * list DataFrame => snd kl <> []) d ->
  Forall (fun kl : list string * list DataFrame => snd kl <> [])
    (append_at key df d)
  /\ fold_right (fun kl n => total_rows (snd kl) + n) 0 (append_at key df d)
     = fold_right (fun kl n => total_rows (snd kl) + n) 0 d + len df.
Proof.
  induction d as [|[k l] d IH]; intros Hd; cbn [append_at].
  - split; [repeat constructor; discriminate|]. cbn. lia.
  - inversion Hd as [|? ? Hl Hd']; subst.
    destruct (list_string_eqb k key).
    + split.
      * constructor; [|exact Hd']. cbn. now destruct l.
      * cbn [fold_right snd]. unfold total_rows at 1.
        rewrite fold_right_app. cbn [fold_right].
        assert (Hacc : forall l0 n,
                  fold_right (fun df n => len df + n) n l0
                  = fold_right (fun df n => len df + n) 0 l0 + n).
        { induction l0 as [|x l0 IHl]; intros n; cbn; [lia|]. rewrite IHl. lia. }
        rewrite Hacc. unfold total_rows. lia.
    + destruct (IH Hd') as [Hg Hr]. split.
      * constructor; [exact Hl|exact Hg].
      * cbn [fold_right snd]. rewrite Hr. lia.
Qed.

Lemma condition_groups_rows conditions : forall d,
  Forall (fun kl : list string * list DataFrame => snd kl <> []) d ->
  let d' :=
    fold_left
      (fun d condition =>
         append_at (List.map fst (get_column_values condition))
           (frame_of_dict (get_column_values condition) (get_num_rows condition)) d)
      conditions d in
  Forall (fun kl : list string * list DataFrame => snd kl <> []) d'
  /\ fold_right (fun kl n => total_rows (snd kl) + n) 0 d'
     = fold_right (fun kl n => total_rows (snd kl) + n) 0 d
       + fold_right (fun c n => Z.max 0 (get_num_rows c) + n) 0 conditions.
Proof.
  induction conditions as [|c conditions IH]; intros d Hd; cbn [fold_left fold_right].
  - split; [exact Hd|lia].
  - destruct (append_at_groups (List.map fst (get_column_values c))
                (frame_of_dict (get_column_values c) (get_num_rows c)) d Hd)
      as [Hg Hr].
    destruct (IH _ Hg) as [Hg' Hr']. split; [exact Hg'|].
    rewrite Hr', Hr.
    assert (Hlen : len (frame_of_dict (get_column_values c) (get_num_rows c))
                   = Z.max 0 (get_num_rows c)).
    { unfold len, frame_of_dict. cbn [df_rows]. unfold range_index.
      rewrite !length_map, length_seq. lia. }
    rewrite Hlen. lia.
Qed.

Lemma concat_groups d :
  Forall (fun kl : list string * list DataFrame => snd kl <> []) d ->
  exists dfs,
    sequence_sum (List.map (fun kl => pd_concat (snd kl) true) d) = inr dfs
    /\ length dfs = length d
    /\ total_rows dfs = fold_right (fun kl n => total_rows (snd kl) + n) 0 d.
Proof.
  induction 1 as [|[k l] d Hl _ (dfs & Hseq & Hlen & Hrows)].
  - exists []. repeat split.
  - cbn [snd] in Hl. destruct (pd_concat_len l true Hl) as (df & Hcat & Hdf).
    exists (df :: dfs). cbn [List.map sequence_sum snd]. rewrite Hcat, Hseq.
    split; [reflexivity|]. split; [cbn; now rewrite Hlen|].
    cbn [total_rows fold_right snd]. fold (total_rows dfs). rewrite Hdf, Hrows.
    reflexivity.
Qed.

Lemma append_at_length key df d :
  (length (append_at key df d) <= S (length d))%nat.
Proof.
  induction d as [|[k l] d IH]; cbn [append_at]; [cbn; lia|].
  destruct (list_string_eqb k key); cbn [length]; lia.
Qed.

Lemma condition_groups_length conditions : forall d,
  (length
     (fold_left
        (fun d condition =>
           append_at (List.map fst (get_column_values condition))
             (frame_of_dict (get_column_values condition) (get_num_rows condition)) d)
        conditions d)
   <= length d + length conditions)%nat.
Proof.
  induction conditions as [|c conditions IH]; intros d; cbn [fold_left length]; [lia|].
  specialize (IH (append_at (List.map fst (get_column_values c))
                    (frame_of_dict (get_column_values c) (get_num_rows c)) d)).
  pose proof (append_at_length (List.map fst (get_column_values c))
                (frame_of_dict (get_column_values c) (get_num_rows c)) d).
  lia.
Qed.

(** [_make_condition_dfs] never raises: no group of frames it concatenates
    is empty.  The frames it returns hold, together, one row for every row
    the conditions ask for (a condition that asks for a negative number of
    rows counts for none), and there are no more frames than conditions. *)
Theorem make_condition_dfs_rows conditions :
  exists dfs,
    _make_condition_dfs conditions = inr dfs
    /\ total_rows dfs
       = fold_right (fun c n => Z.max 0 (get_num_rows c) + n) 0 conditions
    /\ (length dfs <= length conditions)%nat.
Proof.
  unfold _make_condition_dfs.
  destruct (condition_groups_rows conditions [] ltac:(constructor)) as [Hg Hr].
  destruct (concat_groups _ Hg) as (dfs & Hseq & Hlen & Hrows).
  exists dfs. split; [exact Hseq|]. split.
  - rewrite Hrows, Hr. cbn. lia.
  - rewrite Hlen. pose proof (condition_groups_length conditions []). cbn in *. lia.
Qed.


Lemma list_string_eqb_eq a : forall b, list_string_eqb a b = true <-> a = b.
Proof.
  induction a as [|x a IH]; intros [|y b]; cbn; try (split; congruence).
  rewrite andb_true_iff, String.eqb_eq, IH. split; [intros [-> ->]|intros [= -> ->]]; auto.
Qed.

Lemma union_columns_from frames k : forall acc,
  Forall (fun df => List.map fst (df_columns df) = k) frames ->
  acc = k ->
  fold_left
    (fun acc df =>
       fold_left (fun acc c => if mem_string c acc then acc else acc ++ [c])
         (List.map fst (df_columns df)) acc)
    frames acc = k.
Proof.
  induction frames as [|df frames IH]; intros acc Hall ->; [reflexivity|].
  apply Forall_cons in Hall as [Hdf Hall']. cbn [fold_left].
  apply IH; [exact Hall'|]. rewrite Hdf. now apply add_columns_known.
Qed.

(** The columns of a concatenation of frames that all have the same
    columns. *)
Lemma pd_concat_same_columns frames k df :
  List.NoDup k ->
  Forall (fun df => List.map fst (df_columns df) = k) frames ->
  pd_concat frames true = inr df ->
  List.map fst (df_columns df) = k.
Proof.
  intros Hk Hall. destruct frames as [|df0 frames]; [discriminate|].
  intros H. injection H as <-. cbn [df_columns].
  rewrite List.map_map. cbn [fst]. rewrite List.map_id.
  unfold union_columns. cbn [fold_left].
  apply Forall_cons in Hall as [Hdf0 Hall'].
  apply union_columns_from; [exact Hall'|].
  rewrite Hdf0. now apply (add_columns_fresh _ []).
Qed.

Lemma append_at_keys key df d :
  List.map fst (append_at key df d)
  = if existsb (fun k => list_string_eqb k key) (List.map fst d)
    then List.map fst d else List.map fst d ++ [key].
Proof.
  induction d as [|[k l] d IH]; cbn [append_at List.map existsb fst]; [reflexivity|].
  destruct (list_string_eqb k key); cbn [orb List.map fst]; [reflexivity|].
  rewrite IH. now destruct (existsb _ _).
Qed.

Lemma append_at_same_columns key df d :
  List.map fst (df_columns df) = key ->
  Forall (fun kl : list string * list DataFrame =>
            Forall (fun df => List.map fst (df_columns df) = fst kl) (snd kl)) d ->
  Forall (fun kl : list string * list DataFrame =>
            Forall (fun df => List.map fst (df_columns df) = fst kl) (snd kl))
    (append_at key df d).
Proof.
  intros Hdf. induction d as [|[k l] d IH]; intros Hd; cbn [append_at].
  - repeat constructor. exact Hdf.
  - apply Forall_cons in Hd as [Hl Hd']. cbn [fst snd] in Hl.
    destruct (list_string_eqb k key) eqn:Hk.
    + apply list_string_eqb_eq in Hk. subst k. constructor; [|exact Hd'].
      cbn [fst snd]. apply Forall_app. split; [exact Hl|].
      repeat constructor. exact Hdf.
    + constructor; [exact Hl|]. now apply IH.
Qed.

Lemma existsb_key_In key keys :
  existsb (fun k => list_string_eqb k key) keys = true <-> In key keys.
Proof.
  rewrite existsb_exists. split.
  - intros (k & Hin & Hk). apply list_string_eqb_eq in Hk. now subst.
  - intros Hin. exists key. split; [exact Hin|apply list_string_eqb_refl].
Qed.

Lemma condition_groups_keys conditions : forall d,
  List.NoDup (List.map fst d) ->
  Forall (fun kl : list string * list DataFrame =>
            Forall (fun df => List.map fst (df_columns df) = fst kl) (snd kl)) d ->
  let d' :=
    fold_left
      (fun d condition =>
         append_at (List.map fst (get_column_values condition))
           (frame_of_dict (get_column_values condition) (get_num_rows condition)) d)
      conditions d in
  List.NoDup (List.map fst d')
  /\ Forall (fun kl : list string * list DataFrame =>
               Forall (fun df => List.map fst (df_columns df) = fst kl) (snd kl)) d'
  /\ (forall key,
        In key (List.map fst d')
        <-> In key (List.map fst d)
            \/ In key (List.map (fun c => List.map fst (get_column_values c)) conditions)).
Proof.
  induction conditions as [|c conditions IH]; intros d Hnd Hd; cbn [fold_left].
  - split; [exact Hnd|]. split; [exact Hd|]. intros key. cbn. tauto.
  - set (key := List.map fst (get_column_values c)).
    set (df := frame_of_dict (get_column_values c) (get_num_rows c)).
    assert (Hdf : List.map fst (df_columns df) = key).
    { subst df key. cbn. now rewrite List.map_map. }
    assert (Hnd' : List.NoDup (List.map fst (append_at key df d))).
    { rewrite append_at_keys.
      destruct (existsb _ _) eqn:Hex; [exact Hnd|].
      apply NoDup_ListNoDup, list.NoDup_app.
      split; [apply NoDup_ListNoDup; exact Hnd|]. split.
      - intros x Hx Hin. apply list_elem_of_In in Hx, Hin.
        destruct Hin as [<-|[]]. apply existsb_key_In in Hx. congruence.
      - apply NoDup_singleton. }
    destruct (IH _ Hnd' (append_at_same_columns key df d Hdf Hd))
      as (Hnd'' & Hd'' & Hkeys).
    split; [exact Hnd''|]. split; [exact Hd''|].
    intros key'. rewrite Hkeys, append_at_keys. cbn [List.map In].
    destruct (existsb _ _) eqn:Hex.
    + apply existsb_key_In in Hex. fold key. split; [tauto|].
      intros [H|[<-|H]]; tauto.
    + rewrite in_app_iff. cbn [In]. fold key. tauto.
Qed.

Lemma concat_groups_columns d dfs :
  Forall (fun kl : list string * list DataFrame => List.NoDup (fst kl)) d ->
  Forall (fun kl : list string * list DataFrame =>
            Forall (fun df => List.map fst (df_columns df) = fst kl) (snd kl)) d ->
  sequence_sum (List.map (fun kl => pd_concat (snd kl) true) d) = inr dfs ->
  List.map (fun df => List.map fst (df_columns df)) dfs = List.map fst d.
Proof.
  revert dfs. induction d as [|[k l] d IH]; intros dfs Hk Hd; cbn [List.map sequence_sum snd].
  - intros H. now injection H as <-.
  - apply Forall_cons in Hk as [Hk0 Hk']. apply Forall_cons in Hd as [Hl Hd'].
    cbn [fst snd] in Hk0, Hl.
    destruct (pd_concat l true) as [e|df] eqn:Hcat; [discriminate|].
    destruct (sequence_sum _) as [e|dfs'] eqn:Hseq; [discriminate|].
    intros H. injection H as <-. cbn [List.map fst]. f_equal.
    + exact (pd_concat_same_columns l k df Hk0 Hl Hcat).
    + now apply IH.
Qed.

(** [_make_condition_dfs] puts the conditions together by the list of their
    columns: the frames it returns have pairwise different column lists, and
    the column lists of the frames are those of the conditions. *)
Theorem make_condition_dfs_columns conditions dfs :
  Forall (fun c => List.NoDup (List.map fst (get_column_values c))) conditions ->
  _make_condition_dfs conditions = inr dfs ->
  List.NoDup (List.map (fun df => List.map fst (df_columns df)) dfs)
  /\ (forall columns,
        In columns (List.map (fun df => List.map fst (df_columns df)) dfs)
        <-> In columns
              (List.map (fun c => List.map fst (get_column_values c)) conditions)).
Proof.
  intros Hkeys Hrun. unfold _make_condition_dfs in Hrun.
  destruct (condition_groups_keys conditions [] ltac:(constructor) ltac:(constructor))
    as (Hnd & Hd & Hin).
  cbn zeta in Hnd, Hd, Hin.
  set (groups := fold_left _ conditions []) in *.
  assert (Hk : Forall (fun kl : list string * list DataFrame => List.NoDup (fst kl))
                 groups).
  { apply Forall_forall. intros [k l] Hkl. cbn [fst].
    assert (Hk : In k (List.map fst groups)).
    { apply in_map_iff. exists (k, l). split; [reflexivity|].
      apply list_elem_of_In. exact Hkl. }
    apply Hin in Hk as [[]|Hk]. apply in_map_iff in Hk as (c & <- & Hc).
    rewrite Forall_forall in Hkeys. apply Hkeys. now apply list_elem_of_In. }
  rewrite (concat_groups_columns groups dfs Hk Hd Hrun).
  split; [exact Hnd|]. intros columns. rewrite Hin. cbn. tauto.
Qed.

End ConditionFrames.

(** ** Identifiers *)

Lemma existsb_py_eq_range i n m :
  (i < n)%nat ->
  existsb (py_eq (SInt (Z.of_nat i)))
    (List.map (fun j => SInt (Z.of_nat j)) (seq n m)) = false.
Proof.
  revert n. induction m as [|m IH]; intros n Hlt; [reflexivity|].
  cbn [seq List.map existsb py_eq].
  rewrite IH by lia.
  replace (Z.of_nat i =? Z.of_nat n) with false; [reflexivity|].
  symmetry. apply Z.eqb_neq. lia.
Qed.

Lemma is_unique_seq n m :
  is_unique (List.map (fun j => SInt (Z.of_nat j)) (seq n m)) = true.
Proof.
  revert n. induction m as [|m IH]; intros n; [reflexivity|].
  cbn [seq List.map is_unique].
  rewrite existsb_py_eq_range by lia. now rewrite IH.
Qed.

(** The numbers [0 .. n-1] are pairwise different. *)
Lemma is_unique_range_index n : is_unique (range_index n) = true.
Proof. apply is_unique_seq. Qed.

Section Identifiers.
Context `{TM : TabularModel}.

Lemma make_ids_numbers field_metadata length :
  fm_subtype field_metadata <> "string" ->
  _make_ids field_metadata length = inr (KInt, range_index (Z.to_nat length)).
Proof.
  intros Hsub. unfold _make_ids. apply String.eqb_neq in Hsub. now rewrite Hsub.
Qed.

(** [Table._make_ids] yields as many identifiers as it is asked for: the
    numbers [0 .. length-1], pairwise different, unless the subtype is
    ['string']; for that subtype it raises a [ValueError] exactly when the
    regular expression has fewer strings than asked for. *)
Theorem make_ids_length field_metadata length :
  (fm_subtype field_metadata <> "string" ->
   _make_ids field_metadata length = inr (KInt, range_index (Z.to_nat length))
   /\ is_unique (range_index (Z.to_nat length)) = true)
  /\ (fm_subtype field_metadata = "string" ->
      let max_size := snd (strings_from_regex (fm_regex field_metadata)) in
      (max_size < length ->
       exists message, _make_ids field_metadata length = inl (ValueError message))
      /\ (length <= max_size ->
          exists ids,
            _make_ids field_metadata length = inr (KObj, ids)
            /\ List.length ids = Z.to_nat length))
  /\ (forall k ids,
        _make_ids field_metadata length = inr (k, ids) ->
        List.length ids = Z.to_nat length).
Proof.
  split; [|split].
  - intros Hsub. split; [now apply make_ids_numbers|apply is_unique_range_index].
  - unfold _make_ids.
    intros Hsub. apply String.eqb_eq in Hsub. rewrite Hsub. cbn zeta. split.
    + intros Hlt. apply Z.ltb_lt in Hlt. rewrite Hlt. now eexists.
    + intros Hle. apply Z.ltb_ge in Hle. rewrite Hle. eexists.
      split; [reflexivity|]. now rewrite length_map, length_seq.
  - unfold _make_ids. intros k ids. destruct (String.eqb _ _).
    + destruct (_ <? _); [discriminate|]. intros H. injection H as <- <-.
      now rewrite length_map, length_seq.
    + intros H. injection H as <- <-. unfold range_index.
      now rewrite length_map, length_seq.
Qed.

Lemma assign_values_rows name k values df df' :
  assign_values name k values df = inr df' ->
  List.map fst (df_rows df') = List.map fst (df_rows df)
  /\ List.map (fun ir => snd ir !! name) (df_rows df') = List.map Some values
  /\ column_kind df' name = Some k
  /\ (forall c, c <> name ->
        column_kind df' c = column_kind df c
        /\ List.map (fun ir => snd ir !! c) (df_rows df')
           = List.map (fun ir => snd ir !! c) (df_rows df)).
Proof.
  unfold assign_values. destruct (Nat.eqb_spec (length values) (length (df_rows df)))
    as [Hlen|]; [|discriminate].
  intros H. injection H as <-. cbn [df_rows df_columns]. unfold column_kind.
  cbn [df_columns].
  assert (Hrows : forall (rows : list (scalar * Row)) vs,
            length vs = length rows ->
            List.map fst
              (List.map (fun irv : scalar * Row * scalar =>
                           (fst (fst irv), <[name := snd irv]> (snd (fst irv))))
                 (combine rows vs)) = List.map fst rows
            /\ List.map (fun ir : scalar * Row => snd ir !! name)
                 (List.map (fun irv : scalar * Row * scalar =>
                              (fst (fst irv), <[name := snd irv]> (snd (fst irv))))
                    (combine rows vs)) = List.map Some vs
            /\ forall c, c <> name ->
                 List.map (fun ir : scalar * Row => snd ir !! c)
                   (List.map (fun irv : scalar * Row * scalar =>
                                (fst (fst irv), <[name := snd irv]> (snd (fst irv))))
                      (combine rows vs))
                 = List.map (fun ir : scalar * Row => snd ir !! c) rows).
  { induction rows as [|[l r] rows IH]; intros [|v vs] Hl; try discriminate.
    - repeat split.
    - cbn in Hl. destruct (IH vs) as (H1 & H2 & H3); [lia|].
      cbn [combine List.map fst snd]. rewrite H1, H2.
      split; [reflexivity|]. split; [now rewrite lookup_insert_eq|].
      intros c Hc. rewrite (H3 c Hc). now rewrite lookup_insert_ne by congruence. }
  destruct (Hrows (df_rows df) values Hlen) as (H1 & H2 & H3).
  split; [exact H1|]. split; [exact H2|]. split; [apply assoc_set_kind_eq|].
  intros c Hc. split; [now apply assoc_set_kind_ne|now apply H3].
Qed.

(** The values of a column as [get_column] reads them. *)
Lemma get_column_cells name df col :
  get_column name df = inr col ->
  List.map snd (snd col)
  = List.map (fun ir => default NaN (snd ir !! name)) (df_rows df).
Proof.
  unfold get_column. destruct (column_kind df name); [|discriminate].
  intros H. injection H as <-. cbn [snd]. now rewrite List.map_map.
Qed.

Lemma get_column_same name df df' :
  column_kind df' name = column_kind df name ->
  List.map fst (df_rows df') = List.map fst (df_rows df) ->
  List.map (fun ir => snd ir !! name) (df_rows df')
  = List.map (fun ir => snd ir !! name) (df_rows df) ->
  get_column name df' = get_column name df.
Proof.
  intros Hk Hl Hc. unfold get_column. rewrite Hk.
  destruct (column_kind df name); [|reflexivity]. do 2 f_equal.
  remember (df_rows df) as rows eqn:E. clear E.
  remember (df_rows df') as rows' eqn:E'. clear E'.
  revert rows Hl Hc. induction rows' as [|[l r] rows' IH]; intros [|[l0 r0] rows];
    cbn; try discriminate; [reflexivity|].
  intros [= -> Hl] [= Hr Hc]. rewrite Hr. f_equal. now apply IH.
Qed.


(** What [make_ids_unique] keeps: the rows with their labels, and every
    column that is not an identifier it has to renew. *)
Lemma make_ids_unique_loop_keeps fields : forall data data',
  make_ids_unique_loop fields data = inr data' ->
  List.map fst (df_rows data') = List.map fst (df_rows data)
  /\ (forall c,
        (forall fm, In (c, fm) fields -> fm_type fm <> "id") ->
        column_kind data' c = column_kind data c
        /\ List.map (fun ir => snd ir !! c) (df_rows data')
           = List.map (fun ir => snd ir !! c) (df_rows data)).
Proof.
  induction fields as [|[name fm] fields IH]; intros data data';
    cbn [make_ids_unique_loop].
  - intros H. injection H as <-. split; [reflexivity|]. intros c _. split; reflexivity.
  - assert (Hskip : make_ids_unique_loop fields data = inr data' ->
              List.map fst (df_rows data') = List.map fst (df_rows data)
              /\ (forall c,
                    (forall fm0, In (c, fm0) ((name, fm) :: fields) -> fm_type fm0 <> "id") ->
                    column_kind data' c = column_kind data c
                    /\ List.map (fun ir => snd ir !! c) (df_rows data')
                       = List.map (fun ir => snd ir !! c) (df_rows data))).
    { intros H. destruct (IH _ _ H) as [Hl Hc]. split; [exact Hl|].
      intros c Hnot. apply Hc. intros fm0 Hin. apply Hnot. now right. }
    destruct (String.eqb (fm_type fm) "id") eqn:Hid; [|exact Hskip].
    destruct (get_column name data) as [e|column]; [discriminate|].
    destruct (negb (is_unique (List.map snd (snd column)))); [|exact Hskip].
    destruct (_make_ids fm (len data)) as [e|ids]; [discriminate|].
    destruct (assign_values name (fst ids) (snd ids) data) as [e|data1] eqn:Hassign;
      [discriminate|].
    intros H. destruct (IH _ _ H) as [Hl Hc].
    destruct (assign_values_rows _ _ _ _ _ Hassign) as (Hl1 & _ & _ & Hc1).
    split; [now rewrite Hl, Hl1|].
    intros c Hnot.
    assert (Hne : c <> name).
    { intros ->. apply (Hnot fm); [now left|]. now apply String.eqb_eq. }
    destruct (Hc c) as [Hk Hv]; [intros fm0 Hin; apply Hnot; now right|].
    destruct (Hc1 c Hne) as [Hk1 Hv1].
    split; [now rewrite Hk, Hk1|now rewrite Hv, Hv1].
Qed.

(** A column the rest of the loop does not name is read as before. *)
Lemma make_ids_unique_loop_column fields name data data' :
  ~ In name (List.map fst fields) ->
  make_ids_unique_loop fields data = inr data' ->
  get_column name data' = get_column name data.
Proof.
  intros Hnot Hrun. destruct (make_ids_unique_loop_keeps _ _ _ Hrun) as [Hl Hc].
  destruct (Hc name) as [Hk Hv].
  { intros fm Hin. exfalso. apply Hnot. apply in_map_iff. now exists (name, fm). }
  now apply get_column_same.
Qed.

Lemma make_ids_unique_loop_unique fields : forall data data' name fm,
  List.NoDup (List.map fst fields) ->
  make_ids_unique_loop fields data = inr data' ->
  In (name, fm) fields -> fm_type fm = "id" -> fm_subtype fm <> "string" ->
  exists column,
    get_column name data' = inr column
    /\ is_unique (List.map snd (snd column)) = true.
Proof.
  induction fields as [|[name0 fm0] fields IH]; intros data data' name fm Hnd Hrun Hin
    Hid Hsub; [destruct Hin|].
  cbn [List.map fst] in Hnd. apply List.NoDup_cons_iff in Hnd as [Hfresh Hnd].
  cbn [make_ids_unique_loop] in Hrun.
  destruct Hin as [[= -> ->]|Hin].
  - apply String.eqb_eq in Hid. rewrite Hid in Hrun.
    destruct (get_column name data) as [e|column] eqn:Hcol; [discriminate|].
    destruct (is_unique (List.map snd (snd column))) eqn:Huniq; cbn [negb] in Hrun.
    + exists column. split; [|exact Huniq].
      rewrite (make_ids_unique_loop_column _ _ _ _ Hfresh Hrun). exact Hcol.
    + pose proof (make_ids_numbers fm (len data) Hsub) as Hids.
      pose proof (is_unique_range_index (Z.to_nat (len data))) as Hu.
      rewrite Hids in Hrun. cbn [fst snd] in Hrun.
      destruct (assign_values name KInt (range_index (Z.to_nat (len data))) data)
        as [e|data1] eqn:Hassign; [discriminate|].
      destruct (assign_values_rows _ _ _ _ _ Hassign) as (_ & Hv & Hk & _).
      rewrite (make_ids_unique_loop_column _ _ _ _ Hfresh Hrun).
      unfold get_column. rewrite Hk. eexists. split; [reflexivity|].
      cbn [snd]. rewrite List.map_map. cbn [snd].
      replace (List.map (fun x : scalar * Row => default NaN (snd x !! name)) (df_rows data1))
        with (List.map (default NaN) (List.map (fun ir : scalar * Row => snd ir !! name) (df_rows data1)))
        by (now rewrite List.map_map).
      rewrite Hv, List.map_map. cbn [default]. rewrite List.map_id. exact Hu.
  - assert (Hskip : forall d, make_ids_unique_loop fields d = inr data' ->
              exists column,
                get_column name data' = inr column
                /\ is_unique (List.map snd (snd column)) = true).
    { intros d Hd. now apply (IH d data' name fm). }
    destruct (String.eqb (fm_type fm0) "id"); [|now apply (Hskip data)].
    destruct (get_column name0 data) as [e|column]; [discriminate|].
    destruct (negb (is_unique (List.map snd (snd column)))); [|now apply (Hskip data)].
    destruct (_make_ids fm0 (len data)) as [e|ids]; [discriminate|].
    destruct (assign_values name0 (fst ids) (snd ids) data) as [e|data1];
      [discriminate|]. now apply (Hskip data1).
Qed.

(** [Table.make_ids_unique], when it returns, has kept the rows, their labels
    and every column that is not an ['id'] field; and every ['id'] field whose
    subtype is not ['string'] then has pairwise different values (the field
    names being the keys of a dict, they are distinct). *)
Theorem make_ids_unique_unique data data' :
  List.NoDup (List.map fst _fields_metadata) ->
  make_ids_unique data = inr data' ->
  List.map fst (df_rows data') = List.map fst (df_rows data)
  /\ (forall c,
        (forall fm, In (c, fm) _fields_metadata -> fm_type fm <> "id") ->
        column_kind data' c = column_kind data c
        /\ List.map (fun ir => snd ir !! c) (df_rows data')
           = List.map (fun ir => snd ir !! c) (df_rows data))
  /\ (forall name fm,
        In (name, fm) _fields_metadata ->
        fm_type fm = "id" -> fm_subtype fm <> "string" ->
        exists column,
          get_column name data' = inr column
          /\ is_unique (List.map snd (snd column)) = true).
Proof.
  intros Hnd Hrun. unfold make_ids_unique in Hrun.
  destruct (make_ids_unique_loop_keeps _ _ _ Hrun) as [Hl Hc].
  split; [exact Hl|]. split; [exact Hc|].
  intros name fm Hin Hid Hsub.
  now apply (make_ids_unique_loop_unique _fields_metadata data data' name fm).
Qed.

(** An ['id'] field the data lacks makes [make_ids_unique] raise a
    [KeyError]. *)
Lemma make_ids_unique_missing_column name fm fields data :
  fm_type fm = "id" -> column_kind data name = None ->
  make_ids_unique_loop ((name, fm) :: fields) data = inl (KeyError name).
Proof.
  intros Hid Hk. cbn [make_ids_unique_loop]. apply String.eqb_eq in Hid.
  rewrite Hid. unfold get_column. now rewrite Hk.
Qed.

End Identifiers.

(** ** The tickets of the sampled rows *)

Section Tickets.
Context `{TM : TabularModel}.

(** When the batches of [_conditionally_sample_rows] return rows, there are
    no more of them than rows in the group, so that the tickets fit: the
    call returns those rows, with their labels and their other columns as
    they were, and row [i] carries the ticket of row [i] of the group. *)
Theorem conditionally_sample_rows_tickets dataframe condition transformed
    max_tries batch_size rtol graceful progress_bar path w rows w' tickets :
  _sample_in_batches (len dataframe) (or_default batch_size (len dataframe))
    max_tries (Some condition) transformed rtol progress_bar path w
  = (inr rows, w') ->
  get_column COND_IDX dataframe = inr tickets ->
  0 < len rows ->
  exists df,
    _conditionally_sample_rows dataframe condition transformed max_tries
      batch_size rtol graceful progress_bar path w = (inr df, w')
    /\ len rows <= len dataframe
    /\ List.map fst (df_rows df) = List.map fst (df_rows rows)
    /\ List.map (fun ir => snd ir !! COND_IDX) (df_rows df)
       = List.map Some
           (firstn (Z.to_nat (len rows)) (List.map snd (snd tickets)))
    /\ (forall c, c <> COND_IDX ->
          column_kind df c = column_kind rows c
          /\ List.map (fun ir => snd ir !! c) (df_rows df)
             = List.map (fun ir => snd ir !! c) (df_rows rows)).
Proof.
  intros Hrun Htickets Hpos.
  pose proof (sample_in_batches_len _ _ _ _ _ _ _ _ _ _ _ (len_nonneg dataframe) Hrun)
    as Hle.
  unfold _conditionally_sample_rows.
  rewrite (bind_inr _ _ _ _ _ Hrun).
  replace (0 <? len rows) with true by (symmetry; apply Z.ltb_lt; lia).
  rewrite Htickets. cbn [lift]. rewrite bind_ret_l.
  assert (Hlen : length (firstn (Z.to_nat (len rows)) (List.map snd (snd tickets)))
                 = length (df_rows rows)).
  { rewrite length_firstn, (get_column_cells _ _ _ Htickets), length_map.
    unfold len in *. lia. }
  destruct (assign_values COND_IDX (fst tickets)
              (firstn (Z.to_nat (len rows)) (List.map snd (snd tickets))) rows)
    as [e|df] eqn:Hassign.
  { unfold assign_values in Hassign. rewrite Hlen, Nat.eqb_refl in Hassign.
    discriminate. }
  exists df. split; [reflexivity|]. split; [exact Hle|].
  destruct (assign_values_rows _ _ _ _ _ Hassign) as (Hl & Hv & _ & Hc).
  split; [exact Hl|]. split; [exact Hv|exact Hc].
Qed.

(** Without rows, the call returns the empty result as it is, or raises in
    strict mode; without a ticket column in the group it raises a
    [KeyError]. *)
Lemma conditionally_sample_rows_no_ticket_column dataframe condition transformed
    max_tries batch_size rtol graceful progress_bar path w rows w' :
  _sample_in_batches (len dataframe) (or_default batch_size (len dataframe))
    max_tries (Some condition) transformed rtol progress_bar path w
  = (inr rows, w') ->
  column_kind dataframe COND_IDX = None ->
  0 < len rows ->
  _conditionally_sample_rows dataframe condition transformed max_tries
    batch_size rtol graceful progress_bar path w = (inl (KeyError COND_IDX), w').
Proof.
  intros Hrun Hk Hpos. unfold _conditionally_sample_rows.
  rewrite (bind_inr _ _ _ _ _ Hrun).
  replace (0 <? len rows) with true by (symmetry; apply Z.ltb_lt; lia).
  unfold get_column. rewrite Hk. reflexivity.
Qed.

End Tickets.

(** ** The calls of the generator and the files a run touches *)

Section Effects.
Context `{TM : TabularModel}.

Lemma appends_calls_refl n P w : appends_calls n P w w.
Proof. exists []. rewrite app_nil_r. repeat split; [cbn; lia|constructor]. Qed.

Lemma appends_calls_trans n k P w w1 w2 :
  appends_calls n P w w1 -> appends_calls k P w1 w2 ->
  appends_calls (n + k) P w w2.
Proof.
  intros (new1 & H1 & Hn1 & HP1) (new2 & H2 & Hn2 & HP2).
  exists (new1 ++ new2). rewrite H2, H1, app_assoc. split; [reflexivity|].
  split; [rewrite length_app; lia|]. apply Forall_app. now split.
Qed.

Lemma appends_calls_weaken n n' (P Q : Z * option conditions_t -> Prop) w w' :
  (n <= n')%nat -> (forall call, P call -> Q call) ->
  appends_calls n P w w' -> appends_calls n' Q w w'.
Proof.
  intros Hn HPQ (new & H & Hlen & HP). exists new. split; [exact H|].
  split; [lia|]. eapply Forall_impl; eassumption.
Qed.

Lemma appends_calls_same n P w w' :
  w_calls w' = w_calls w -> appends_calls n P w w'.
Proof.
  intros H. exists []. rewrite app_nil_r. repeat split; [exact H|cbn; lia|constructor].
Qed.

Lemma appends_calls_then_same n P w w1 w2 :
  appends_calls n P w w1 -> w_calls w2 = w_calls w1 -> appends_calls n P w w2.
Proof. intros (new & H & Hn & HP) H2. exists new. now rewrite H2. Qed.

Lemma keeps_files_refl path w : keeps_files path w w.
Proof. split; [reflexivity|]. intros; reflexivity. Qed.

Lemma keeps_files_trans path w w1 w2 :
  keeps_files path w w1 -> keeps_files path w1 w2 -> keeps_files path w w2.
Proof.
  intros [Hc1 Hf1] [Hc2 Hf2]. split; [now rewrite Hc2|].
  intros q Hq. rewrite Hf2, Hf1; [reflexivity|exact Hq|].
  intros p Hp. unfold abspath. rewrite Hc1. exact (Hq p Hp).
Qed.

Lemma keeps_files_same path w w' :
  w_fs w' = w_fs w -> w_cwd w' = w_cwd w -> keeps_files path w w'.
Proof. intros Hfs Hcwd. split; [exact Hcwd|]. intros q _. now rewrite Hfs. Qed.

Lemma lift_world {A} (r : exn + A) w x w' : lift r w = (x, w') -> w' = w.
Proof. destruct r; cbn; now intros [= _ <-]. Qed.

Lemma call_sample_effect n c w r w' :
  call_sample n c w = (r, w') ->
  w_calls w' = w_calls w ++ [(n, c)]
  /\ w_fs w' = w_fs w /\ w_cwd w' = w_cwd w.
Proof.
  unfold call_sample. destruct (_sample n c (w_gen w)) as [r0 g].
  intros [= _ <-]. repeat split.
Qed.

(** The generator as [_sample_rows] calls it. *)
Lemma generate_effect n (conditions transformed : option conditions_t) w r w' :
  match conditions with
  | None => call_sample n None
  | Some _ =>
      try_except (call_sample n transformed)
        (fun e =>
           match e with
           | NotImplementedError => Some (call_sample n None)
           | _ => None
           end)
  end w = (r, w') ->
  appends_calls (match conditions with None => 1 | Some _ => 2 end)
    (fun call => fst call = n) w w'
  /\ w_fs w' = w_fs w /\ w_cwd w' = w_cwd w.
Proof.
  destruct conditions as [c|].
  - unfold try_except.
    destruct (call_sample n transformed w) as [[e|df] w1] eqn:H1.
    + destruct (call_sample_effect _ _ _ _ _ H1) as (Hc1 & Hf1 & Hd1).
      assert (Hone : appends_calls 2 (fun call => fst call = n) w w1 /\
                     w_fs w1 = w_fs w /\ w_cwd w1 = w_cwd w).
      { split; [|now split]. exists [(n, transformed)].
        split; [exact Hc1|]. split; [cbn; lia|repeat constructor]. }
      destruct e; try (intros [= _ <-]; exact Hone).
      intros H2. destruct (call_sample_effect _ _ _ _ _ H2) as (Hc2 & Hf2 & Hd2).
      split; [|split; congruence].
      exists [(n, transformed); (n, None)]. rewrite Hc2, Hc1, <- app_assoc.
      split; [reflexivity|]. split; [cbn; lia|repeat constructor].
    + intros [= _ <-].
      destruct (call_sample_effect _ _ _ _ _ H1) as (Hc1 & Hf1 & Hd1).
      split; [|now split]. exists [(n, transformed)].
      split; [exact Hc1|]. split; [cbn; lia|repeat constructor].
  - intros H1. destruct (call_sample_effect _ _ _ _ _ H1) as (Hc1 & Hf1 & Hd1).
    split; [|now split]. exists [(n, None)].
    split; [exact Hc1|]. split; [cbn; lia|repeat constructor].
Qed.

Lemma sample_rows_effect n conditions transformed rtol previous w r w' :
  _sample_rows n conditions transformed rtol previous w = (r, w') ->
  appends_calls (calls_per_round conditions) (fun call => fst call = n) w w'
  /\ w_fs w' = w_fs w /\ w_cwd w' = w_cwd w.
Proof.
  unfold _sample_rows, calls_per_round. destruct has_data_columns.
  - unfold bind at 1.
    destruct (match conditions with
              | None => call_sample n None
              | Some _ => _
              end w) as [[e|sampled] w1] eqn:Hgen;
      pose proof (generate_effect _ _ _ _ _ _ Hgen) as Heff.
    + now intros [= _ <-].
    + assert (Hpure : forall x w2,
                (sampled0 <- lift (reverse_transform sampled) ;;
                 sampled1 <-
                   match previous with
                   | Some previous0 => lift (pd_concat [previous0; sampled0] true)
                   | None => ret sampled0
                   end ;;
                 sampled2 <-
                   match conditions with
                   | Some c => lift (_filter_conditions (filter_valid sampled1) c rtol)
                   | None => ret (filter_valid sampled1)
                   end ;;
                 ret (sampled2, len sampled2)) w1 = (x, w2) -> w2 = w1).
      { intros x w2. unfold bind.
        destruct (reverse_transform sampled) as [e|s0]; cbn [lift raise ret];
          [now intros [= _ <-]|].
        destruct previous as [p|].
        - destruct (pd_concat [p; s0] true) as [e|s1]; cbn [lift raise ret];
            [now intros [= _ <-]|].
          destruct conditions as [c|]; cbn [ret].
          + destruct (_filter_conditions (filter_valid s1) c rtol) as [e|s2];
              cbn [lift raise ret]; now intros [= _ <-].
          + now intros [= _ <-].
        - cbn [ret]. destruct conditions as [c|]; cbn [ret].
          + destruct (_filter_conditions (filter_valid s0) c rtol) as [e|s2];
              cbn [lift raise ret]; now intros [= _ <-].
          + now intros [= _ <-]. }
      intros H. apply Hpure in H. now subst w'.
  - unfold bind.
    destruct (reverse_transform (frame_of_range n)) as [e|s]; cbn [lift raise ret];
      intros [= _ <-]; (split; [apply appends_calls_refl|split; reflexivity]).
Qed.


(** The report of a round writes to the output file only. *)
Lemma report_effect (increase : bool) path (progress_bar : bool) n df w r w' :
  (if increase then
     (match path with
      | Some p =>
          if truthy_path path then
            size <- getsize p ;;
            to_csv p (0 <? size) df
          else ret tt
      | None => ret tt
      end) ;;
     (if progress_bar then progress_update n else ret tt)
   else ret tt) w = (r, w') ->
  w_calls w' = w_calls w /\ keeps_files path w w'.
Proof.
  destruct increase; [|intros [= _ <-]; split; [reflexivity|apply keeps_files_refl]].
  unfold bind at 1.
  destruct (match path with
            | Some p => _
            | None => ret tt
            end w) as [[e|u] w1] eqn:Hfile.
  - intros [= _ <-]. destruct path as [p|]; [|discriminate].
    destruct (truthy_path (Some p)); [|discriminate].
    unfold bind, getsize in Hfile.
    destruct (w_fs w !! abspath w p); [discriminate|].
    injection Hfile as _ <-. split; [reflexivity|apply keeps_files_refl].
  - assert (Hw1 : w_calls w1 = w_calls w /\ keeps_files path w w1).
    { destruct path as [p|];
        [|injection Hfile as _ <-; split; [reflexivity|apply keeps_files_refl]].
      destruct (truthy_path (Some p));
        [|injection Hfile as _ <-; split; [reflexivity|apply keeps_files_refl]].
      unfold bind, getsize in Hfile.
      destruct (w_fs w !! abspath w p); [|discriminate].
      unfold to_csv in Hfile. injection Hfile as _ <-.
      split; [reflexivity|]. split; [reflexivity|].
      intros q Hq. cbn. apply lookup_insert_ne. intros Heq.
      apply (Hq p eq_refl). now rewrite Heq. }
    destruct Hw1 as [Hc1 Hf1].
    destruct progress_bar.
    + unfold progress_update. intros [= _ <-]. cbn. split; [exact Hc1|].
      eapply keeps_files_trans; [exact Hf1|]. now apply keeps_files_same.
    + intros [= _ <-]. split; [exact Hc1|exact Hf1].
Qed.

Lemma next_request_size_le batch_size remaining new_valid requested n :
  next_request_size batch_size remaining new_valid requested = inr n ->
  n <= 10 * batch_size.
Proof.
  unfold next_request_size.
  destruct (py_truediv _ _) as [e|rate]; [discriminate|].
  destruct (py_div_float _ _) as [e|q]; [discriminate|].
  destruct (py_int q) as [e|k]; [discriminate|].
  intros [= <-]. lia.
Qed.

(** A round, whether it returns or raises. *)
Lemma sample_batch_round_effect batch_size conditions transformed rtol
    (progress_bar : bool) path st w r w' :
  _sample_batch_round batch_size conditions transformed rtol progress_bar path st w
  = (r, w') ->
  appends_calls (calls_per_round conditions)
    (fun call => fst call = num_rows_to_sample st) w w'
  /\ keeps_files path w w'
  /\ (forall st', r = inr st' -> num_rows_to_sample st' <= 10 * batch_size).
Proof.
  unfold _sample_batch_round. unfold bind at 1.
  destruct (_sample_rows (num_rows_to_sample st) conditions transformed rtol
              (Some (sampled st)) w) as [[e|rows] w1] eqn:Hrows;
    destruct (sample_rows_effect _ _ _ _ _ _ _ _ Hrows) as (Hc1 & Hf1 & Hd1).
  - intros [= <- <-]. split; [exact Hc1|].
    split; [now apply keeps_files_same|discriminate].
  - cbn [fst snd]. unfold bind at 1.
    match goal with
    | |- (let (_, _) := ?m w1 in _) = _ -> _ =>
        destruct (m w1) as [[e|u] w2] eqn:Hreport
    end;
      destruct (report_effect _ _ _ _ _ _ _ _ Hreport) as [Hc2 Hf2].
    + intros [= <- <-]. split; [|split; [|discriminate]].
      * exact (appends_calls_then_same _ _ _ _ _ Hc1 Hc2).
      * apply (keeps_files_trans _ _ w1); [now apply keeps_files_same|exact Hf2].
    + assert (Hc12 := appends_calls_then_same _ _ _ _ _ Hc1 Hc2).
      assert (Hf12 : keeps_files path w w2).
      { apply (keeps_files_trans _ _ w1); [now apply keeps_files_same|exact Hf2]. }
      unfold bind.
      destruct (next_request_size _ _ _ _) as [e|n] eqn:Hnext; cbn [lift raise ret];
        intros [= <- <-]; (split; [exact Hc12|split; [exact Hf12|]]).
      * discriminate.
      * intros st' [= <-]. cbn. eapply next_request_size_le, Hnext.
Qed.

Lemma sample_batch_loop_effect batch_size conditions transformed rtol
    (progress_bar : bool) path k : forall st w r w',
  num_rows_to_sample st <= Z.max batch_size (10 * batch_size) ->
  _sample_batch_loop k batch_size conditions transformed rtol progress_bar path st w
  = (r, w') ->
  appends_calls (calls_per_round conditions * k)
    (fun call => fst call <= Z.max batch_size (10 * batch_size)) w w'
  /\ keeps_files path w w'.
Proof.
  induction k as [|k IH]; intros st w r w' Hreq; cbn [_sample_batch_loop].
  - destruct (_ <? _); intros [= _ <-];
      (split; [apply appends_calls_refl|apply keeps_files_refl]).
  - destruct (_ <? _);
      [|intros [= _ <-]; split; [apply appends_calls_refl|apply keeps_files_refl]].
    unfold bind.
    destruct (_sample_batch_round batch_size conditions transformed rtol
                progress_bar path st w) as [[e|st1] w1] eqn:Hround;
      destruct (sample_batch_round_effect _ _ _ _ _ _ _ _ _ _ Hround)
        as (Hc1 & Hf1 & Hnext).
    + intros [= _ <-]. split; [|exact Hf1].
      eapply appends_calls_weaken; [| |exact Hc1]; [lia|].
      intros call ->. exact Hreq.
    + intros Hloop. specialize (Hnext st1 eq_refl).
      destruct (IH st1 w1 r w' ltac:(lia) Hloop) as [Hc2 Hf2]. split.
      * replace (calls_per_round conditions * S k)%nat
          with (calls_per_round conditions + calls_per_round conditions * k)%nat by lia.
        eapply appends_calls_trans; [|exact Hc2].
        eapply appends_calls_weaken; [| |exact Hc1]; [lia|].
        intros call ->. exact Hreq.
      * eapply keeps_files_trans; eassumption.
Qed.

Lemma sample_batch_effect batch_size max_tries conditions transformed rtol
    (progress_bar : bool) path w r w' :
  _sample_batch batch_size max_tries conditions transformed rtol progress_bar path w
  = (r, w') ->
  appends_calls (calls_per_round conditions * Z.to_nat max_tries)
    (fun call => fst call <= Z.max batch_size (10 * batch_size)) w w'
  /\ keeps_files path w w'.
Proof.
  unfold _sample_batch, bind.
  destruct (_sample_batch_loop _ _ _ _ _ _ _ _ w) as [[e|st] w1] eqn:Hloop;
    intros [= _ <-];
    eapply sample_batch_loop_effect; try exact Hloop; cbn; lia.
Qed.

(** However [_sample_batch] ends, it has called the generator at most
    [max_tries] times (twice that with conditions, when the generator may
    refuse them, and never for a table without data columns), and has never
    asked it for more than [10 * batch_size] rows at once ([batch_size] rows
    in the first round). *)
Theorem sample_batch_calls batch_size max_tries conditions transformed rtol
    (progress_bar : bool) path w :
  appends_calls (calls_per_round conditions * Z.to_nat max_tries)
    (fun call => fst call <= Z.max batch_size (10 * batch_size)) w
    (snd (_sample_batch batch_size max_tries conditions transformed rtol
            progress_bar path w)).
Proof.
  destruct (_sample_batch batch_size max_tries conditions transformed rtol
              progress_bar path w) as [r w'] eqn:Hrun.
  exact (proj1 (sample_batch_effect _ _ _ _ _ _ _ _ _ _ Hrun)).
Qed.

Lemma collect_batches_files batch_size max_tries conditions transformed rtol
    (progress_bar : bool) path steps : forall w r w',
  collect_batches steps
    (_sample_batch batch_size max_tries conditions transformed rtol progress_bar
       path) w = (r, w') ->
  keeps_files path w w'.
Proof.
  induction steps as [|steps IH]; intros w r w'; cbn [collect_batches].
  - intros [= _ <-]. apply keeps_files_refl.
  - unfold bind at 1.
    destruct (_sample_batch _ _ _ _ _ _ _ w) as [[e|rows] w1] eqn:Hbatch;
      destruct (sample_batch_effect _ _ _ _ _ _ _ _ _ _ Hbatch) as [_ Hf1].
    + now intros [= _ <-].
    + unfold bind.
      destruct (collect_batches steps _ w1) as [[e|rest] w2] eqn:Hrest;
        intros [= _ <-]; (eapply keeps_files_trans; [exact Hf1|]);
        exact (IH _ _ _ Hrest).
Qed.

Lemma sample_in_batches_effect num_rows batch_size max_tries conditions
    transformed rtol (progress_bar : bool) path w r w' :
  _sample_in_batches num_rows batch_size max_tries conditions transformed rtol
    progress_bar path w = (r, w') ->
  keeps_files path w w'.
Proof.
  unfold _sample_in_batches, bind.
  destruct (py_truediv _ _) as [e|q]; cbn [lift raise ret];
    [intros [= _ <-]; apply keeps_files_refl|].
  destruct (py_ceil q) as [e|steps]; cbn [lift raise ret];
    [intros [= _ <-]; apply keeps_files_refl|].
  destruct (collect_batches _ _ w) as [[e|batches] w1] eqn:Hrun;
    pose proof (collect_batches_files _ _ _ _ _ _ _ _ _ _ _ Hrun) as Hf;
    [now intros [= _ <-]|].
  destruct batches as [|batch batches]; cbn [ret]; [now intros [= _ <-]|].
  destruct (pd_concat (batch :: batches) true); cbn [lift raise ret];
    now intros [= _ <-].
Qed.

(** However [_sample_in_batches] ends, with rows or with an exception, it
    has left the working directory and every file but the output file as
    they were. *)
Theorem sample_in_batches_files num_rows batch_size max_tries conditions
    transformed rtol (progress_bar : bool) path w :
  keeps_files path w
    (snd (_sample_in_batches num_rows batch_size max_tries conditions transformed
            rtol progress_bar path w)).
Proof.
  destruct (_sample_in_batches num_rows batch_size max_tries conditions
              transformed rtol progress_bar path w) as [r w'] eqn:Hrun.
  cbn [snd]. eapply sample_in_batches_effect, Hrun.
Qed.

End Effects.

(** ** The files after a call of [sample] *)

Section FilesAfter.
Context `{TM : TabularModel}.

(** [_validate_file_path] touches the files only. *)
Lemma validate_file_path_world path w r w1 :
  _validate_file_path path w = (r, w1) ->
  w_calls w1 = w_calls w /\ w_gen w1 = w_gen w /\ w_cwd w1 = w_cwd w.
Proof.
  assert (Hfresh : forall p r w1,
            (exists_ <- path_exists p ;;
             (if (exists_ : bool) then os_remove p else ret tt) ;;
             create_file p ;;
             ret (Some p)) w = (r, w1) ->
            w_calls w1 = w_calls w /\ w_gen w1 = w_gen w /\ w_cwd w1 = w_cwd w).
  { intros p r0 w0. unfold bind, path_exists, os_remove, create_file, ret.
    destruct (bool_decide _); [destruct (w_fs w !! abspath w p)|];
      intros [= _ <-]; repeat split. }
  unfold _validate_file_path. destruct path as [p|]; [|apply Hfresh].
  destruct (String.eqb p DISABLE_TMP_FILE); [now intros [= _ <-]|].
  destruct (truthy_path (Some p)); [|apply Hfresh].
  unfold bind, path_exists, create_file, raise, ret.
  destruct (bool_decide _); intros [= _ <-]; repeat split.
Qed.

(** The file [_validate_file_path] creates. *)
Lemma validate_file_path_files path w path' w1 :
  _validate_file_path path w = (inr path', w1) ->
  match path' with
  | None => w1 = w /\ path = Some DISABLE_TMP_FILE
  | Some p' =>
      w_fs w1 = <[abspath w p' := []]> (w_fs w)
      /\ ((p' = TMP_FILE_NAME /\ (path = None \/ path = Some ""))
          \/ (exists p, path = Some p /\ p <> "" /\ p <> DISABLE_TMP_FILE
                        /\ p' = abspath w p))
  end.
Proof.
  assert (Hfresh : forall p,
            (exists_ <- path_exists p ;;
             (if (exists_ : bool) then os_remove p else ret tt) ;;
             create_file p ;;
             ret (Some p)) w = (inr path', w1) ->
            path' = Some p /\ w_fs w1 = <[abspath w p := []]> (w_fs w)).
  { intros p. unfold bind, path_exists, os_remove, create_file, ret.
    destruct (w_fs w !! abspath w p) as [lines|] eqn:Hp.
    - rewrite bool_decide_eq_true_2 by (now eexists). rewrite Hp.
      intros [= <- <-]. split; [reflexivity|]. cbn.
      apply insert_delete_eq.
    - rewrite bool_decide_eq_false_2 by (intros [? ?]; discriminate).
      intros [= <- <-]. split; reflexivity. }
  unfold _validate_file_path. destruct path as [p|].
  - destruct (String.eqb p DISABLE_TMP_FILE) eqn:Hdis.
    { intros [= <- <-]. apply String.eqb_eq in Hdis. now subst. }
    unfold truthy_path. destruct (String.eqb p "") eqn:Hempty; cbn [negb].
    + intros H. destruct (Hfresh _ H) as [-> Hfs]. split; [exact Hfs|].
      left. apply String.eqb_eq in Hempty. subst. auto.
    + unfold bind, path_exists, create_file, raise, ret.
      destruct (bool_decide _); [discriminate|]. intros [= <- <-].
      split; [reflexivity|]. right. exists p.
      apply String.eqb_neq in Hdis, Hempty. auto.
  - intros H. destruct (Hfresh _ H) as [-> Hfs]. split; [exact Hfs|]. left. auto.
Qed.

Lemma remove_tmp_file_effect path w r w' :
  remove_tmp_file path w = (r, w') ->
  r = inr tt /\ w_cwd w' = w_cwd w
  /\ w_fs w'
     = if is_tmp_file path then delete (abspath w TMP_FILE_NAME) (w_fs w)
       else w_fs w.
Proof.
  unfold remove_tmp_file. destruct (is_tmp_file path);
    [|intros [= <- <-]; repeat split].
  unfold bind, path_exists, os_remove, ret.
  destruct (w_fs w !! abspath w TMP_FILE_NAME) as [lines|] eqn:Hp.
  - rewrite bool_decide_eq_true_2 by (now eexists). rewrite Hp.
    intros [= <- <-]. repeat split.
  - rewrite bool_decide_eq_false_2 by (intros [? ?]; discriminate).
    intros [= <- <-]. repeat split. symmetry. now apply delete_id.
Qed.

Lemma absolute_not_tmp s :
  String.prefix "/" s = true -> String.eqb s TMP_FILE_NAME = false.
Proof.
  intros H. apply String.eqb_neq. intros ->. discriminate.
Qed.

Lemma abspath_absolute w p :
  cwd_absolute w = true -> String.prefix "/" (abspath w p) = true.
Proof.
  intros Hcwd. unfold abspath. destruct (String.prefix "/" p) eqn:Hp; [exact Hp|].
  now apply prefix_slash_append.
Qed.


Hypothesis generator_gives_rows :
  forall n g, exists df g', _sample n None g = (inr df, g') /\ len df <= Z.max n 0.
Hypothesis reverse_transform_gives_rows :
  forall df, exists df', reverse_transform df = inr df' /\ len df' <= len df.
Hypothesis constraints_drop_rows :
  Forall (fun c : DataFrame -> DataFrame => forall df, len (c df) <= len df)
    _constraints.

(** The files after a call of [sample] on a model whose generator and
    reverse transform return and whose constraints only drop rows.  With no
    output path (or an empty one) the temporary file is created, written to
    and removed again: the files are as before, less a temporary file left
    by an earlier run.  With the path ['disable'] no file is touched.  With
    a path of its own, that file is there when the call returns and every
    other file is as before. *)
Theorem sample_files_after num_rows randomize max_tries batch_size path w :
  0 < num_rows -> 10 * num_rows < 2 ^ 53 ->
  (forall b, batch_size = Some b -> 0 <= b) ->
  _model <> NoModelAttr ->
  cwd_absolute w = true ->
  (forall p, path = Some p -> p <> "" -> p <> DISABLE_TMP_FILE ->
             w_fs w !! abspath w p = None) ->
  exists df w',
    sample (Some num_rows) randomize max_tries batch_size path None w = (inr df, w')
    /\ w_cwd w' = w_cwd w
    /\ match path with
       | Some p =>
           if String.eqb p DISABLE_TMP_FILE then w_fs w' = w_fs w
           else if String.eqb p "" then
             w_fs w' = delete (abspath w TMP_FILE_NAME) (w_fs w)
           else exists lines, w_fs w' = <[abspath w p := lines]> (w_fs w)
       | None => w_fs w' = delete (abspath w TMP_FILE_NAME) (w_fs w)
       end.
Proof.
  intros Hn Hbound Hbatch Hmodel Hcwd Hfree.
  set (size := match batch_size with
               | Some b => if b =? 0 then num_rows else Z.min b num_rows
               | None => num_rows
               end).
  assert (Hsize : 0 < size <= num_rows).
  { subst size. destruct batch_size as [b|]; [|lia].
    specialize (Hbatch b eq_refl). destruct (Z.eqb_spec b 0); lia. }
  destruct (randomize_samples_returns randomize w Hmodel)
    as (w0 & Hrand & Hfs0 & Hcwd0).
  assert (Habs0 : forall p, abspath w0 p = abspath w p)
    by (intros p; unfold abspath; now rewrite Hcwd0).
  destruct (validate_file_path_returns path w0) as (path' & w1 & Hpath & Hready).
  { unfold cwd_absolute. now rewrite Hcwd0. }
  { intros p Hp Hne Hdis. rewrite Habs0, Hfs0. exact (Hfree p Hp Hne Hdis). }
  destruct (validate_file_path_world _ _ _ _ Hpath) as (_ & _ & Hcwd1).
  pose proof (validate_file_path_files _ _ _ _ Hpath) as Hfiles.
  assert (Habs1 : forall p, abspath w1 p = abspath w p)
    by (intros p; unfold abspath; now rewrite Hcwd1, Hcwd0).
  destruct (sample_in_batches_returns generator_gives_rows reverse_transform_gives_rows
              constraints_drop_rows num_rows size max_tries 0.01%float true
              path' w1 Hn Hbound ltac:(lia) Hready)
    as (df & w2 & batches & Hrun & Hready2 & _).
  destruct (sample_in_batches_effect _ _ _ _ _ _ _ _ _ _ _ Hrun)
    as [Hcwd2 Hkeep].
  destruct (remove_tmp_file_returns path' w2) as (w3 & Hrm).
  destruct (remove_tmp_file_effect _ _ _ _ Hrm) as (_ & Hcwd3 & Hfs3).
  exists df, w3. split; [|split].
  - unfold sample, _sample_with_progress_bar.
    replace (num_rows =? 0) with false by (symmetry; apply Z.eqb_neq; lia).
    rewrite (bind_inr _ _ _ _ _ Hrand).
    rewrite (bind_inr _ _ _ _ _ Hpath). fold size.
    assert (Htry : try_except
                     (_sample_in_batches num_rows size max_tries None None
                        0.01%float true path')
                     (fun error =>
                        Some (handle_sampling_error (is_tmp_file path') path' error))
                     w1 = (inr df, w2)).
    { unfold try_except. now rewrite Hrun. }
    rewrite (bind_inr _ _ _ _ _ Htry).
    rewrite (bind_inr _ _ _ _ _ Hrm). reflexivity.
  - now rewrite Hcwd3, Hcwd2, Hcwd1, Hcwd0.
  - assert (Htmp : path' = Some TMP_FILE_NAME ->
              w_fs w3 = delete (abspath w TMP_FILE_NAME) (w_fs w)).
    { intros ->. destruct Hfiles as [Hfs1 _]. cbn [is_tmp_file] in Hfs3.
      rewrite String.eqb_refl in Hfs3. rewrite Hfs3.
      replace (abspath w2 TMP_FILE_NAME) with (abspath w TMP_FILE_NAME)
        by (unfold abspath; now rewrite Hcwd2, Hcwd1, Hcwd0).
      apply map_eq. intros q.
      destruct (decide (q = abspath w TMP_FILE_NAME)) as [->|Hq].
      - now rewrite !lookup_delete_eq.
      - rewrite !lookup_delete_ne by congruence.
        rewrite Hkeep by (intros p [= <-]; now rewrite Habs1).
        rewrite Hfs1, Habs0, lookup_insert_ne by congruence. now rewrite Hfs0. }
    destruct path' as [p'|].
    + destruct Hfiles as [Hfs1 [[-> Hnone]|(p & -> & Hne & Hdis & ->)]].
      * specialize (Htmp eq_refl).
        destruct Hnone as [->| ->]; [exact Htmp|]. cbn. exact Htmp.
      * apply String.eqb_neq in Hne, Hdis. rewrite Hdis, Hne.
        assert (Hidem : abspath w (abspath w0 p) = abspath w p)
          by (rewrite Habs0; now apply abspath_idempotent).
        cbn [is_tmp_file] in Hfs3.
        rewrite absolute_not_tmp in Hfs3
          by (rewrite Habs0; now apply abspath_absolute).
        destruct Hready2 as [lines Hlines].
        replace (abspath w2 (abspath w0 p)) with (abspath w p) in Hlines
          by (rewrite <- Hidem; unfold abspath; now rewrite Hcwd2, Hcwd1, Hcwd0).
        exists lines. rewrite Hfs3. apply map_eq. intros q.
        destruct (decide (q = abspath w p)) as [->|Hq].
        -- now rewrite lookup_insert_eq.
        -- rewrite lookup_insert_ne by congruence.
           rewrite Hkeep by (intros p0 [= <-]; now rewrite Habs1, Hidem).
           rewrite Hfs1, Habs0, Hidem, lookup_insert_ne by congruence.
           now rewrite Hfs0.
    + destruct Hfiles as [-> ->]. cbn. cbn [is_tmp_file] in Hfs3.
      rewrite Hfs3. apply map_eq. intros q.
      rewrite Hkeep by (intros p; discriminate). now rewrite Hfs0.
Qed.

End FilesAfter.

(** ** Degenerate tables and batch sizes *)

Section Degenerate.
Context `{TM : TabularModel}.

(** A table without data columns (all of its fields are ['id'] fields) is
    sampled in one round and without the generator: [_sample_batch] returns
    the reverse transform of a frame of [batch_size] rows and no column, cut
    down to [batch_size] rows, whatever the conditions. *)
Theorem sample_batch_without_data_columns batch_size max_tries conditions
    transformed rtol (progress_bar : bool) path w df :
  has_data_columns = false ->
  0 < batch_size < 2 ^ 53 -> 0 < max_tries ->
  reverse_transform (frame_of_range batch_size) = inr df ->
  output_file_ready path w ->
  exists w',
    _sample_batch batch_size max_tries conditions transformed rtol progress_bar
      path w = (inr (head (Z.min (len df) batch_size) df), w')
    /\ w_calls w' = w_calls w.
Proof.
  intros Hdata Hbs Htries Hrev Hready.
  destruct (Z.to_nat max_tries) as [|k] eqn:Hk; [lia|].
  assert (Hrows : forall w0,
            _sample_rows batch_size conditions transformed rtol (Some empty_frame) w0
            = (inr (df, batch_size), w0)).
  { intros w0. unfold _sample_rows. rewrite Hdata, Hrev. reflexivity. }
  assert (Hround : exists st1 w1,
            _sample_batch_round batch_size conditions transformed rtol progress_bar
              path (batch_init batch_size) w = (inr st1, w1)
            /\ num_valid st1 = batch_size /\ sampled st1 = df
            /\ w_calls w1 = w_calls w).
  { unfold _sample_batch_round.
    cbn [batch_init num_rows_to_sample sampled num_valid remaining counter].
    rewrite (bind_inr _ _ _ _ _ (Hrows w)). cbn [fst snd].
    destruct (report_returns (0 <? Z.min (batch_size - 0) batch_size) path
                progress_bar (Z.min (batch_size - 0) batch_size)
                (tail (Z.min (batch_size - 0) batch_size)
                   (head (Z.min (len df) batch_size) df)) w Hready)
      as (w1 & Hreport & Hready1).
    destruct (report_effect _ _ _ _ _ _ _ _ Hreport) as [Hcalls _].
    rewrite (bind_inr _ _ _ _ _ Hreport).
    destruct (next_request_size_defined batch_size (batch_size - batch_size)
                (batch_size - 0) batch_size) as (n & Hnext & _);
      [rewrite pow2_53 in *; lia..|].
    rewrite Hnext. cbn [lift]. rewrite bind_ret_l.
    eexists. exists w1. split; [reflexivity|]. repeat split. exact Hcalls. }
  destruct Hround as (st1 & w1 & Hround & Hvalid & Hsampled & Hcalls).
  exists w1. split; [|exact Hcalls].
  unfold _sample_batch. rewrite Hk. cbn [_sample_batch_loop].
  replace (num_valid (batch_init batch_size) <? batch_size) with true
    by (symmetry; apply Z.ltb_lt; cbn; lia).
  unfold bind at 1. unfold bind at 1. rewrite Hround.
  rewrite sample_batch_loop_stops by lia.
  cbn [ret]. now rewrite Hsampled.
Qed.

(** [math.ceil(num_rows / batch_size)] of a positive number of rows and a
    negative batch size is not positive. *)
Lemma py_ceil_negative n b :
  0 < n < 2 ^ 53 -> - 2 ^ 53 < b < 0 ->
  exists q steps,
    py_truediv n b = inr q /\ py_ceil q = inr steps /\ steps <= 0.
Proof.
  intros Hn Hb. unfold py_truediv.
  replace (b =? 0) with false by (symmetry; apply Z.eqb_neq; lia).
  destruct (Prim2SF_Z2F n) as (m1 & e1 & H1 & Hm1 & He1 & _); [lia|lia|].
  destruct (Prim2SF_Z2F b) as (m2 & e2 & H2 & Hm2 & He2 & _); [lia|lia|].
  replace (n <? 0) with false in H1 by (symmetry; apply Z.ltb_ge; lia).
  replace (b <? 0) with true in H2 by (symmetry; apply Z.ltb_lt; lia).
  destruct (SFdiv_normal false m1 e1 true m2 e2 Hm1 Hm2) as (m & e & Heq & Hm & _);
    [lia|].
  exists (Z2F n / Z2F b)%float. unfold py_ceil.
  rewrite FloatAxioms.div_spec, H1, H2. unfold SF64div. rewrite Heq. cbn [xorb].
  destruct (0 <=? e) eqn:He.
  - eexists. split; [reflexivity|]. split; [reflexivity|]. cbn [cond_Zopp].
    apply Z.leb_le in He. assert (0 < 2 ^ e) by (apply Z.pow_pos_nonneg; lia). nia.
  - eexists. split; [reflexivity|]. split; [reflexivity|].
    apply Z.leb_gt in He.
    assert (0 <= Z.pos m / 2 ^ (- e)) by (apply Z.div_pos; [lia|apply Z.pow_pos_nonneg; lia]).
    lia.
Qed.

(** A negative batch size is not refused: [sample] then returns the empty
    frame, without a call of the generator. *)
Theorem sample_negative_batch_size num_rows batch_size randomize max_tries path w :
  0 < num_rows < 2 ^ 53 -> - 2 ^ 53 < batch_size < 0 ->
  _model <> NoModelAttr ->
  cwd_absolute w = true ->
  (forall p, path = Some p -> p <> "" -> p <> DISABLE_TMP_FILE ->
             w_fs w !! abspath w p = None) ->
  exists w',
    sample (Some num_rows) randomize max_tries (Some batch_size) path None w
    = (inr empty_frame, w')
    /\ w_calls w' = w_calls w.
Proof.
  intros Hn Hb Hmodel Hcwd Hfree.
  destruct (randomize_samples_returns randomize w Hmodel)
    as (w0 & Hrand & Hfs0 & Hcwd0).
  assert (Hcalls0 : w_calls w0 = w_calls w).
  { apply (f_equal snd) in Hrand. cbn [snd] in Hrand. rewrite <- Hrand.
    unfold _randomize_samples. destruct _model; try contradiction;
      try destruct randomize; reflexivity. }
  destruct (validate_file_path_returns path w0) as (path' & w1 & Hpath & Hready).
  { unfold cwd_absolute. now rewrite Hcwd0. }
  { intros p Hp Hne Hdis. unfold abspath. rewrite Hfs0, Hcwd0.
    exact (Hfree p Hp Hne Hdis). }
  destruct (validate_file_path_world _ _ _ _ Hpath) as (Hcalls1 & _ & _).
  destruct (py_ceil_negative num_rows batch_size Hn Hb) as (q & steps & Hq & Hsteps & Hle).
  assert (Hrun : _sample_in_batches num_rows batch_size max_tries None None
                   0.01%float true path' w1 = (inr empty_frame, w1)).
  { unfold _sample_in_batches.
    replace (batch_size <? num_rows) with true by (symmetry; apply Z.ltb_lt; lia).
    rewrite Hq. cbn [lift]. rewrite bind_ret_l.
    rewrite Hsteps. cbn [lift]. rewrite bind_ret_l.
    replace (Z.to_nat steps) with 0%nat by lia.
    cbn [collect_batches]. rewrite !bind_ret_l.
    unfold ret, head, empty_frame. cbn [df_rows df_columns].
    now rewrite firstn_nil. }
  destruct (remove_tmp_file_returns path' w1) as (w2 & Hrm).
  assert (Hcalls2 : w_calls w2 = w_calls w1).
  { apply (f_equal snd) in Hrm. cbn [snd] in Hrm. rewrite <- Hrm.
    unfold remove_tmp_file. destruct (is_tmp_file path'); [|reflexivity].
    unfold bind, path_exists, os_remove, ret.
    destruct (bool_decide _); [destruct (w_fs w1 !! _)|]; reflexivity. }
  exists w2. split; [|now rewrite Hcalls2, Hcalls1, Hcalls0].
  unfold sample, _sample_with_progress_bar.
  replace (num_rows =? 0) with false by (symmetry; apply Z.eqb_neq; lia).
  rewrite (bind_inr _ _ _ _ _ Hrand).
  rewrite (bind_inr _ _ _ _ _ Hpath).
  replace (batch_size =? 0) with false by (symmetry; apply Z.eqb_neq; lia).
  replace (Z.min batch_size num_rows) with batch_size by lia.
  assert (Htry : try_except
                   (_sample_in_batches num_rows batch_size max_tries None None
                      0.01%float true path')
                   (fun error =>
                      Some (handle_sampling_error (is_tmp_file path') path' error))
                   w1 = (inr empty_frame, w1)).
  { unfold try_except. now rewrite Hrun. }
  rewrite (bind_inr _ _ _ _ _ Htry).
  rewrite (bind_inr _ _ _ _ _ Hrm). reflexivity.
Qed.

End Degenerate.

(** ** Conditions on columns the table does not have *)

Section UnknownColumns.
Context `{TM : TabularModel}.

Lemma validate_all_rejects dfs :
  Exists (fun df =>
            Exists (fun c => assoc c _fields_metadata = None)
              (List.map fst (df_columns df))) dfs ->
  exists column,
    validate_all dfs
    = inl (ValueError
             [FText "Unexpected column name `"; FText column;
              FText "`. Use a column name that was present in the original data."])
    /\ assoc column _fields_metadata = None.
Proof.
  induction dfs as [|df dfs IH]; intros Hex; [inversion Hex|].
  cbn [validate_all].
  destruct (_validate_conditions df) as [e|[]] eqn:Hdf.
  - destruct (validate_columns_rejects _ _ Hdf)
      as (known & column & rest & _ & _ & Hnone & ->).
    exists column. split; [reflexivity|exact Hnone].
  - apply validate_columns_accepts in Hdf.
    apply Exists_cons in Hex as [Hhere|Hlater]; [|now apply IH].
    exfalso. apply Exists_exists in Hhere as (c & Hin & Hnone).
    rewrite Forall_forall in Hdf. destruct (Hdf c Hin) as [fm Hfm]. congruence.
Qed.

(** A condition on a column that is not a field of the table (the columns of
    each condition being the keys of a dict, they are distinct) makes
    [sample_conditions] raise a [ValueError] that names such a column.  The
    output path has been validated by then, so the output file, or the
    temporary file, has been created and stays behind; the random state has
    not been set and the generator has not been called. *)
Theorem sample_conditions_unknown_column conditions max_tries batch_size
    randomize path w :
  cwd_absolute w = true ->
  (forall p, path = Some p -> p <> "" -> p <> DISABLE_TMP_FILE ->
             w_fs w !! abspath w p = None) ->
  Forall (fun c => List.NoDup (List.map fst (get_column_values c))) conditions ->
  Exists (fun c =>
            Exists (fun column => assoc column _fields_metadata = None)
              (List.map fst (get_column_values c))) conditions ->
  exists column path' w',
    sample_conditions conditions max_tries batch_size randomize path w
    = (inl (ValueError
              [FText "Unexpected column name `"; FText column;
               FText "`. Use a column name that was present in the original data."]),
       w')
    /\ assoc column _fields_metadata = None
    /\ _validate_file_path path w = (inr path', w')
    /\ output_file_ready path' w'
    /\ w_calls w' = w_calls w /\ w_gen w' = w_gen w.
Proof.
  intros Hcwd Hfree Hkeys Hunknown.
  destruct (validate_file_path_returns path w Hcwd Hfree)
    as (path' & w1 & Hpath & Hready).
  destruct (validate_file_path_world _ _ _ _ Hpath) as (Hcalls & Hgen & _).
  destruct (condition_groups_rows conditions [] ltac:(constructor)) as [Hg _].
  destruct (concat_groups _ Hg) as (dfs & Hseq & _).
  assert (Hdfs : _make_condition_dfs conditions = inr dfs) by exact Hseq.
  destruct (condition_groups_keys conditions [] ltac:(constructor) ltac:(constructor))
    as (_ & Hd & Hin).
  cbn zeta in Hd, Hin, Hseq.
  set (groups := fold_left _ conditions []) in *.
  assert (Hk : Forall (fun kl : list string * list DataFrame => List.NoDup (fst kl))
                 groups).
  { apply Forall_forall. intros [k l] Hkl. cbn [fst].
    assert (Hk : In k (List.map fst groups)).
    { apply in_map_iff. exists (k, l). split; [reflexivity|].
      apply list_elem_of_In. exact Hkl. }
    apply Hin in Hk as [[]|Hk]. apply in_map_iff in Hk as (c & <- & Hc).
    rewrite Forall_forall in Hkeys. apply Hkeys. now apply list_elem_of_In. }
  pose proof (concat_groups_columns groups dfs Hk Hd Hseq) as Hcols.
  destruct (validate_all_rejects dfs) as (column & Hval & Hnone).
  { apply Exists_exists in Hunknown as (c & Hc & Hbad).
    assert (Hkey : In (List.map fst (get_column_values c))
                     (List.map (fun df => List.map fst (df_columns df)) dfs)).
    { rewrite Hcols. apply Hin. right. apply in_map_iff. exists c.
      split; [reflexivity|]. now apply list_elem_of_In. }
    apply in_map_iff in Hkey as (df & Hdf & Hin_df).
    apply Exists_exists. exists df. split; [now apply list_elem_of_In|].
    now rewrite Hdf. }
  exists column, path', w1. split; [|repeat split; assumption].
  unfold sample_conditions, _sample_conditions.
  rewrite (bind_inr _ _ _ _ _ Hpath).
  rewrite Hdfs. cbn [lift]. rewrite bind_ret_l.
  rewrite Hval. reflexivity.
Qed.

(** [sample_remaining_columns] checks the known columns after the output
    path and after the random state: with a column that is not a field of
    the table it raises the [ValueError] of [_validate_conditions], with the
    output file created and left behind and the random state set, and
    without a call of the generator. *)
Theorem sample_remaining_columns_unknown_column known_columns max_tries
    batch_size randomize path w e :
  cwd_absolute w = true ->
  (forall p, path = Some p -> p <> "" -> p <> DISABLE_TMP_FILE ->
             w_fs w !! abspath w p = None) ->
  _model <> NoModelAttr ->
  _validate_conditions known_columns = inl e ->
  exists path' w1 w',
    sample_remaining_columns known_columns max_tries batch_size randomize path w
    = (inl e, w')
    /\ _validate_file_path path w = (inr path', w1)
    /\ _randomize_samples randomize w1 = (inr tt, w')
    /\ output_file_ready path' w'
    /\ w_calls w' = w_calls w.
Proof.
  intros Hcwd Hfree Hmodel Hval.
  destruct (validate_file_path_returns path w Hcwd Hfree)
    as (path' & w1 & Hpath & Hready).
  destruct (validate_file_path_world _ _ _ _ Hpath) as (Hcalls & _ & _).
  destruct (randomize_samples_returns randomize w1 Hmodel)
    as (w2 & Hrand & Hfs2 & Hcwd2).
  assert (Hcalls2 : w_calls w2 = w_calls w1).
  { apply (f_equal snd) in Hrand. cbn [snd] in Hrand. rewrite <- Hrand.
    unfold _randomize_samples. destruct _model; try contradiction;
      try destruct randomize; reflexivity. }
  exists path', w1, w2. split; [|split; [exact Hpath|split; [exact Hrand|split]]].
  - unfold sample_remaining_columns, _sample_remaining_columns.
    rewrite (bind_inr _ _ _ _ _ Hpath).
    rewrite (bind_inr _ _ _ _ _ Hrand).
    rewrite Hval. reflexivity.
  - now apply (output_file_ready_same path' w1 w2).
  - now rewrite Hcalls2.
Qed.

End UnknownColumns.

(** ** The fields metadata: dtypes and primary keys *)

Lemma assoc_dict_set {A} (k k' : string) (v : A) (d : list (string * A)) :
  assoc k' (dict_set k v d) = if String.eqb k' k then Some v else assoc k' d.
Proof.
  induction d as [|[k0 v0] d IH]; cbn [dict_set assoc].
  - reflexivity.
  - destruct (String.eqb_spec k k0) as [->|Hk]; cbn [assoc].
    + destruct (String.eqb_spec k' k0); reflexivity.
    + rewrite IH. destruct (String.eqb_spec k' k0) as [->|Hk'].
      * destruct (String.eqb_spec k0 k); [congruence|reflexivity].
      * reflexivity.
Qed.

Lemma assoc_keys {A} (k : string) (v : A) (d : list (string * A)) :
  assoc k d = Some v -> In k (map fst d).
Proof.
  induction d as [|[k0 v0] d IH]; cbn [assoc map fst In]; [discriminate|].
  destruct (String.eqb_spec k k0) as [->|Hk]; [now left|].
  intros H. right. now apply IH.
Qed.

Lemma assoc_not_keys {A} (k : string) (d : list (string * A)) :
  ~ In k (map fst d) -> assoc k d = None.
Proof.
  induction d as [|[k0 v0] d IH]; cbn [assoc map fst In]; [reflexivity|].
  intros H. destruct (String.eqb_spec k k0) as [->|Hk]; [tauto|].
  apply IH. tauto.
Qed.

Lemma dict_set_keys {A} (k : string) (v : A) (d : list (string * A)) :
  In k (map fst d) -> map fst (dict_set k v d) = map fst d.
Proof.
  induction d as [|[k0 v0] d IH]; cbn [dict_set map fst In]; [tauto|].
  intros H. destruct (String.eqb_spec k k0) as [->|Hk]; cbn [map fst].
  - reflexivity.
  - f_equal. apply IH. destruct H; congruence.
Qed.

Lemma dict_set_new {A} (k : string) (v : A) (d : list (string * A)) :
  ~ In k (map fst d) -> dict_set k v d = d ++ [(k, v)].
Proof.
  induction d as [|[k0 v0] d IH]; cbn [dict_set map fst In app]; [reflexivity|].
  intros H. destruct (String.eqb_spec k k0) as [->|Hk]; [tauto|].
  f_equal. apply IH. tauto.
Qed.

Lemma get_dtypes_loop_dtypes_of (ids : bool) (fields : list (string * field_entry))
    (dtypes : list (string * string)) :
  List.NoDup (map fst dtypes ++ map fst fields) ->
  get_dtypes_loop ids fields dtypes =
  match dtypes_of (List.filter (fun nf => ids || is_data_field nf) fields) with
  | inl e => inl e
  | inr more => inr (dtypes ++ more)
  end.
Proof.
  revert dtypes. induction fields as [|[name fm] fields IH]; intros dtypes Hnd.
  - cbn. now rewrite app_nil_r.
  - cbn [get_dtypes_loop List.filter]. unfold is_data_field at 1. cbn [snd].
    assert (Hrest : List.NoDup (map fst dtypes ++ map fst fields)).
    { cbn [map fst] in Hnd. now apply List.NoDup_remove_1 in Hnd. }
    destruct (ids || negb (String.eqb (fe_type fm) "id")).
    + cbn [dtypes_of]. destruct (_get_field_dtype name fm) as [e|dtype]; [reflexivity|].
      assert (Hnew : ~ In name (map fst dtypes)).
      { cbn [map fst] in Hnd. apply List.NoDup_remove_2 in Hnd.
        intros Hin. apply Hnd. apply in_or_app. now left. }
      rewrite dict_set_new by exact Hnew.
      rewrite IH.
      * destruct (dtypes_of _) as [e|more]; [reflexivity|].
        now rewrite <- app_assoc.
      * rewrite map_app. cbn [map fst]. rewrite <- app_assoc. exact Hnd.
    + now apply IH.
Qed.

Lemma get_dtypes_dtypes_of (ids : bool) (fields : list (string * field_entry)) :
  List.NoDup (map fst fields) ->
  get_dtypes ids fields =
  dtypes_of (List.filter (fun nf => ids || is_data_field nf) fields).
Proof.
  intros Hnd. unfold get_dtypes. rewrite get_dtypes_loop_dtypes_of by exact Hnd.
  now destruct (dtypes_of _).
Qed.

Lemma get_dtypes_loop_skips_ids (fields : list (string * field_entry))
    (dtypes : list (string * string)) :
  get_dtypes_loop false fields dtypes =
  get_dtypes_loop true (List.filter is_data_field fields) dtypes.
Proof.
  revert dtypes. induction fields as [|[name fm] fields IH]; intros dtypes.
  - reflexivity.
  - cbn [get_dtypes_loop List.filter orb]. unfold is_data_field at 1. cbn [snd].
    destruct (negb (String.eqb (fe_type fm) "id")).
    + cbn [get_dtypes_loop orb].
      destruct (_get_field_dtype name fm); [reflexivity|apply IH].
    + apply IH.
Qed.

Lemma dtypes_of_keys (fields : list (string * field_entry))
    (dtypes : list (string * string)) :
  dtypes_of fields = inr dtypes ->
  Forall2 (fun nf nd => fst nd = fst nf /\
             _TYPES_TO_DTYPES (fe_type (snd nf)) (fe_subtype (snd nf)) = Some (snd nd))
          fields dtypes.
Proof.
  revert dtypes. induction fields as [|[name fm] fields IH]; intros dtypes.
  - cbn. intros [= <-]. constructor.
  - cbn [dtypes_of]. unfold _get_field_dtype.
    destruct (_TYPES_TO_DTYPES (fe_type fm) (fe_subtype fm)) as [dtype|] eqn:Hd;
      [|discriminate].
    destruct (dtypes_of fields) as [e|more]; [discriminate|].
    intros [= <-]. constructor; [now split|now apply IH].
Qed.

Lemma dtypes_of_error (fields : list (string * field_entry)) (e : meta_exn) :
  dtypes_of fields = inl e ->
  exists name field_meta,
    In (name, field_meta) fields /\
    _TYPES_TO_DTYPES (fe_type field_meta) (fe_subtype field_meta) = None /\
    e = MetadataError name (fe_type field_meta) (fe_subtype field_meta).
Proof.
  induction fields as [|[name fm] fields IH]; [discriminate|].
  cbn [dtypes_of]. unfold _get_field_dtype.
  destruct (_TYPES_TO_DTYPES (fe_type fm) (fe_subtype fm)) as [dtype|] eqn:Hd.
  - destruct (dtypes_of fields) as [e'|more]; [|discriminate].
    intros [= <-]. destruct IH as (n & f & Hin & Hnone & He); [reflexivity|].
    exists n, f. split; [now right|now split].
  - intros [= <-]. exists name, fm. split; [now left|now split].
Qed.

Lemma dtypes_of_filter (keep : string -> bool) (fields : list (string * field_entry))
    (dtypes : list (string * string)) :
  dtypes_of fields = inr dtypes ->
  dtypes_of (List.filter (fun nf => keep (fst nf)) fields) =
  inr (List.filter (fun nd => keep (fst nd)) dtypes).
Proof.
  revert dtypes. induction fields as [|[name fm] fields IH]; intros dtypes.
  - cbn. now intros [= <-].
  - cbn [dtypes_of]. destruct (_get_field_dtype name fm) as [e|dtype] eqn:Hd;
      [discriminate|].
    destruct (dtypes_of fields) as [e|more]; [discriminate|].
    intros [= <-]. cbn [List.filter fst].
    destruct (keep name); cbn [dtypes_of]; rewrite ?Hd, (IH more) by reflexivity;
      reflexivity.
Qed.

Lemma assoc_NoDup_In {A} (k : string) (v : A) (d : list (string * A)) :
  List.NoDup (map fst d) -> In (k, v) d -> assoc k d = Some v.
Proof.
  induction d as [|[k0 v0] d IH]; cbn [assoc map fst In]; [tauto|].
  intros Hnd [Heq|Hin].
  - injection Heq as -> ->. now rewrite String.eqb_refl.
  - apply List.NoDup_cons_iff in Hnd as [Hk0 Hnd].
    destruct (String.eqb_spec k k0) as [->|Hk].
    + exfalso. apply Hk0. change k0 with (fst (k0, v)). now apply in_map.
    + now apply IH.
Qed.

Lemma get_dtypes_loop_error (ids : bool) (fields : list (string * field_entry))
    (dtypes : list (string * string)) (e : meta_exn) :
  get_dtypes_loop ids fields dtypes = inl e ->
  exists name field_meta,
    In (name, field_meta) fields /\
    (ids = true \/ fe_type field_meta <> "id") /\
    _TYPES_TO_DTYPES (fe_type field_meta) (fe_subtype field_meta) = None /\
    e = MetadataError name (fe_type field_meta) (fe_subtype field_meta).
Proof.
  revert dtypes. induction fields as [|[name fm] fields IH]; intros dtypes;
    [discriminate|].
  cbn [get_dtypes_loop].
  assert (Hrest : forall dtypes', get_dtypes_loop ids fields dtypes' = inl e ->
            exists name0 field_meta,
              In (name0, field_meta) ((name, fm) :: fields) /\
              (ids = true \/ fe_type field_meta <> "id") /\
              _TYPES_TO_DTYPES (fe_type field_meta) (fe_subtype field_meta) = None /\
              e = MetadataError name0 (fe_type field_meta) (fe_subtype field_meta)).
  { intros dtypes' H. destruct (IH _ H) as (n & f & Hin & Hrest).
    exists n, f. split; [now right|exact Hrest]. }
  destruct (ids || negb (String.eqb (fe_type fm) "id")) eqn:Hc; [|apply Hrest].
  unfold _get_field_dtype.
  destruct (_TYPES_TO_DTYPES (fe_type fm) (fe_subtype fm)) as [dtype|] eqn:Hd;
    [apply Hrest|].
  intros [= <-]. exists name, fm. split; [now left|]. split; [|now split].
  destruct ids; [now left|right]. cbn [orb] in Hc.
  destruct (String.eqb_spec (fe_type fm) "id"); [discriminate|assumption].
Qed.

(** [get_dtypes(ids=False)] never looks at the id fields: it gives what
    [get_dtypes(ids=True)] gives on the table without them, so that an id
    field whose type and subtype have no dtype goes unnoticed.  When
    [get_dtypes] raises, the MetadataError names a field it looks at whose
    type and subtype have no dtype. *)
Theorem get_dtypes_skips_ids (fields : list (string * field_entry)) :
  get_dtypes false fields = get_dtypes true (List.filter is_data_field fields) /\
  forall ids : bool,
    match get_dtypes ids fields with
    | inr _ => True
    | inl e =>
        exists name field_meta,
          In (name, field_meta) fields /\
          (ids = true \/ fe_type field_meta <> "id") /\
          _TYPES_TO_DTYPES (fe_type field_meta) (fe_subtype field_meta) = None /\
          e = MetadataError name (fe_type field_meta) (fe_subtype field_meta)
    end.
Proof.
  split.
  - apply get_dtypes_loop_skips_ids.
  - intros ids. destruct (get_dtypes ids fields) as [e|dtypes] eqn:H; [|exact I].
    now apply get_dtypes_loop_error in H.
Qed.

Lemma dtype_names (field_type : string) (field_subtype : option string)
    (dtype : string) :
  _TYPES_TO_DTYPES field_type field_subtype = Some dtype ->
  In dtype ["object"; "bool"; "float"; "int"; "datetime64"; "str"].
Proof.
  unfold _TYPES_TO_DTYPES. cbn [In].
  destruct field_subtype as [subtype|];
    repeat match goal with
           | |- context [if ?b then _ else _] => destruct b
           end;
    intros [= <-]; tauto.
Qed.

(** When [get_dtypes(ids=True)] returns, it gives one dtype for each field,
    in the order of the fields, each of them one of the six dtype names, and
    [get_dtypes(ids=False)] returns the same entries without those of the id
    fields. *)
Theorem get_dtypes_ids_restrict (fields : list (string * field_entry))
    (all : list (string * string)) :
  List.NoDup (map fst fields) ->
  get_dtypes true fields = inr all ->
  map fst all = map fst fields /\
  Forall (fun nd => In (snd nd)
            ["object"; "bool"; "float"; "int"; "datetime64"; "str"]) all /\
  get_dtypes false fields =
  inr (List.filter
         (fun nd => match assoc (fst nd) fields with
                    | Some field_meta => negb (String.eqb (fe_type field_meta) "id")
                    | None => false
                    end) all).
Proof.
  intros Hnd Hall.
  rewrite get_dtypes_dtypes_of in Hall by exact Hnd.
  cbn [orb] in Hall.
  assert (Hid : List.filter (fun _ : string * field_entry => true) fields = fields).
  { clear. induction fields as [|nf fields IH]; cbn; [reflexivity|now rewrite IH]. }
  rewrite Hid in Hall.
  pose proof (dtypes_of_keys _ _ Hall) as Hkeys.
  split; [|split].
  - clear -Hkeys. induction Hkeys as [|nf nd fields all [Hn _] _ IH]; cbn;
      [reflexivity|]. now rewrite Hn, IH.
  - clear -Hkeys. induction Hkeys as [|nf nd fields all [_ Hd] _ IH];
      constructor; [|exact IH]. eapply dtype_names, Hd.
  - rewrite get_dtypes_dtypes_of by exact Hnd. cbn [orb].
    rewrite <- (dtypes_of_filter
                  (fun name => match assoc name fields with
                               | Some field_meta =>
                                   negb (String.eqb (fe_type field_meta) "id")
                               | None => false
                               end) fields all Hall).
    f_equal. apply filter_ext_in. intros [name fm] Hin.
    cbn [fst]. rewrite (assoc_NoDup_In name fm fields Hnd Hin). reflexivity.
Qed.

Lemma set_key_fields_ids (field_names : list string)
    (fields : list (string * field_entry)) :
  (forall name, In name field_names ->
     exists field_meta, assoc name fields = Some field_meta /\
                        fe_type field_meta = "id") ->
  set_key_fields field_names fields = (None, fields).
Proof.
  induction field_names as [|name field_names IH]; intros Hids; [reflexivity|].
  cbn [set_key_fields].
  destruct (Hids name) as (fm & -> & Hid); [now left|].
  rewrite Hid. cbn. apply IH. intros n Hn. apply Hids. now right.
Qed.

Lemma set_key_fields_returns (field_names : list string)
    (fields fields' : list (string * field_entry)) :
  set_key_fields field_names fields = (None, fields') ->
  map fst fields' = map fst fields /\
  (forall name, In name field_names ->
     exists field_meta field_meta',
       assoc name fields = Some field_meta /\
       assoc name fields' = Some field_meta' /\
       fe_type field_meta' = "id" /\
       (fe_type field_meta = "id" -> field_meta' = field_meta) /\
       (fe_type field_meta <> "id" ->
        exists field_subtype,
          _get_key_subtype field_meta = inr field_subtype /\
          field_meta' = mkEntry "id" (Some field_subtype))) /\
  (forall name, ~ In name field_names -> assoc name fields' = assoc name fields).
Proof.
  revert fields. induction field_names as [|name0 names IH]; intros fields.
  - cbn. intros [= <-]. split; [reflexivity|]. split; [tauto|reflexivity].
  - cbn [set_key_fields].
    destruct (assoc name0 fields) as [fm0|] eqn:H0; [|discriminate].
    destruct (String.eqb_spec (fe_type fm0) "id") as [Hid|Hid]; cbn [negb].
    + intros Hrun. destruct (IH _ Hrun) as (Hkeys & Hin & Hout).
      split; [exact Hkeys|]. split.
      * intros name [<-|Hname].
        -- destruct (in_dec String.string_dec name0 names) as [Hn|Hn].
           ++ now apply Hin.
           ++ exists fm0, fm0. rewrite (Hout _ Hn), H0.
              repeat split; try assumption. tauto.
        -- now apply Hin.
      * intros name Hname. apply Hout. cbn [In] in Hname. tauto.
    + destruct (_get_key_subtype fm0) as [e|st] eqn:Hst; [discriminate|].
      intros Hrun. destruct (IH _ Hrun) as (Hkeys & Hin & Hout).
      split.
      { rewrite Hkeys. apply dict_set_keys. eapply assoc_keys, H0. }
      assert (Hname0 : assoc name0 fields' = Some (mkEntry "id" (Some st))).
      { destruct (in_dec String.string_dec name0 names) as [Hn|Hn].
        - destruct (Hin _ Hn) as (fm1 & fm' & H1 & H' & _ & Hsame & _).
          rewrite assoc_dict_set, String.eqb_refl in H1. injection H1 as <-.
          rewrite H'. f_equal. now apply Hsame.
        - rewrite (Hout _ Hn), assoc_dict_set, String.eqb_refl. reflexivity. }
      split.
      * intros name Hname.
        destruct (String.eqb_spec name name0) as [->|Hne].
        -- exists fm0, (mkEntry "id" (Some st)).
           repeat split; try assumption; [tauto|].
           intros _. now exists st.
        -- destruct Hname as [Heq|Hname]; [congruence|].
           destruct (Hin _ Hname) as (fm1 & fm' & H1 & Hrest).
           rewrite assoc_dict_set in H1.
           destruct (String.eqb_spec name name0); [congruence|].
           exists fm1, fm'. now split.
      * intros name Hname. cbn [In] in Hname.
        rewrite Hout by tauto. rewrite assoc_dict_set.
        destruct (String.eqb_spec name name0); [subst; tauto|reflexivity].
Qed.

Lemma set_key_fields_raises (field_names : list string)
    (fields fields' : list (string * field_entry)) (e : meta_exn) :
  set_key_fields field_names fields = (Some e, fields') ->
  exists done name rest,
    field_names = done ++ name :: rest /\
    set_key_fields done fields = (None, fields') /\
    (assoc name fields' = None /\ e = FieldNotFound name \/
     exists field_meta,
       assoc name fields' = Some field_meta /\
       fe_type field_meta <> "id" /\
       _get_key_subtype field_meta = inl e).
Proof.
  revert fields. induction field_names as [|name0 names IH]; intros fields;
    [discriminate|].
  cbn [set_key_fields].
  destruct (assoc name0 fields) as [fm0|] eqn:H0.
  - destruct (String.eqb_spec (fe_type fm0) "id") as [Hid|Hid]; cbn [negb].
    + intros Hrun. destruct (IH _ Hrun) as (done & name & rest & -> & Hdone & He).
      exists (name0 :: done), name, rest. split; [reflexivity|].
      split; [|exact He]. cbn [set_key_fields]. rewrite H0.
      destruct (String.eqb_spec (fe_type fm0) "id"); [exact Hdone|contradiction].
    + destruct (_get_key_subtype fm0) as [e0|st] eqn:Hst.
      * intros [= <- <-]. exists [], name0, names. split; [reflexivity|].
        split; [reflexivity|]. right. now exists fm0.
      * intros Hrun. destruct (IH _ Hrun) as (done & name & rest & -> & Hdone & He).
        exists (name0 :: done), name, rest. split; [reflexivity|].
        split; [|exact He]. cbn [set_key_fields]. rewrite H0.
        destruct (String.eqb_spec (fe_type fm0) "id"); [contradiction|].
        cbn [negb]. now rewrite Hst.
  - intros [= <- <-]. exists [], name0, names. split; [reflexivity|].
    split; [reflexivity|]. now left.
Qed.

(** When [set_primary_key] returns, the key is recorded, the table has the
    same fields in the same order, every key field is an ['id'] field (one
    that was an id is left as it was, another one has become an id with the
    subtype [_get_key_subtype] gives it), no other field is touched, and
    setting the same key again changes nothing. *)
Theorem set_primary_key_returns (primary_key : primary_key_t) (t t' : table_fields) :
  set_primary_key primary_key t = (None, t') ->
  t_primary_key t' = primary_key /\
  map fst (t_fields t') = map fst (t_fields t) /\
  (forall name, In name (key_fields primary_key) ->
     exists field_meta field_meta',
       assoc name (t_fields t) = Some field_meta /\
       assoc name (t_fields t') = Some field_meta' /\
       fe_type field_meta' = "id" /\
       (fe_type field_meta = "id" -> field_meta' = field_meta) /\
       (fe_type field_meta <> "id" ->
        exists field_subtype,
          _get_key_subtype field_meta = inr field_subtype /\
          field_meta' = mkEntry "id" (Some field_subtype))) /\
  (forall name, ~ In name (key_fields primary_key) ->
     assoc name (t_fields t') = assoc name (t_fields t)) /\
  set_primary_key primary_key t' = (None, t').
Proof.
  intros Hrun.
  destruct (set_key_fields (key_fields primary_key) (t_fields t))
    as [[e|] fields'] eqn:Hloop.
  - exfalso. destruct primary_key; cbn in Hrun, Hloop.
    + discriminate.
    + rewrite Hloop in Hrun. discriminate.
    + rewrite Hloop in Hrun. discriminate.
  - assert (Ht' : t' = mkTableFields fields' primary_key).
    { destruct primary_key; cbn in Hrun, Hloop.
      - injection Hloop as <-. now injection Hrun as <-.
      - rewrite Hloop in Hrun. now injection Hrun as <-.
      - rewrite Hloop in Hrun. now injection Hrun as <-. }
    subst t'. cbn [t_fields t_primary_key].
    destruct (set_key_fields_returns _ _ _ Hloop) as (Hkeys & Hin & Hout).
    split; [reflexivity|]. split; [exact Hkeys|]. split; [exact Hin|].
    split; [exact Hout|].
    assert (Hagain : set_key_fields (key_fields primary_key) fields' = (None, fields')).
    { apply set_key_fields_ids. intros name Hname.
      destruct (Hin _ Hname) as (fm & fm' & _ & H' & Hid & _). now exists fm'. }
    destruct primary_key; cbn in Hagain |- *; [reflexivity|..];
      now rewrite Hagain.
Qed.

(** When [set_primary_key] raises, the key recorded before is kept, but the
    fields are not: the key fields named before the offending one have been
    turned into ids, as by a call with those names only.  The offending name
    is no field of the table, or the field is no id and [_get_key_subtype]
    raises on it. *)
Theorem set_primary_key_raises (primary_key : primary_key_t) (t t' : table_fields)
    (e : meta_exn) :
  set_primary_key primary_key t = (Some e, t') ->
  t_primary_key t' = t_primary_key t /\
  exists done name rest,
    key_fields primary_key = done ++ name :: rest /\
    set_primary_key (ManyKeys done) t =
      (None, mkTableFields (t_fields t') (ManyKeys done)) /\
    (assoc name (t_fields t') = None /\ e = FieldNotFound name \/
     exists field_meta,
       assoc name (t_fields t') = Some field_meta /\
       fe_type field_meta <> "id" /\
       _get_key_subtype field_meta = inl e).
Proof.
  intros Hrun.
  destruct (set_key_fields (key_fields primary_key) (t_fields t))
    as [[e0|] fields'] eqn:Hloop.
  - assert (Ht' : e0 = e /\ t' = mkTableFields fields' (t_primary_key t)).
    { destruct primary_key; cbn in Hrun, Hloop.
      - discriminate.
      - rewrite Hloop in Hrun. now injection Hrun as <- <-.
      - rewrite Hloop in Hrun. now injection Hrun as <- <-. }
    destruct Ht' as [-> ->]. cbn [t_fields t_primary_key].
    split; [reflexivity|].
    destruct (set_key_fields_raises _ _ _ _ Hloop)
      as (done & name & rest & Hnames & Hdone & He).
    exists done, name, rest. split; [exact Hnames|]. split; [|exact He].
    cbn. now rewrite Hdone.
  - exfalso. destruct primary_key; cbn in Hrun, Hloop.
    + discriminate.
    + rewrite Hloop in Hrun. discriminate.
    + rewrite Hloop in Hrun. discriminate.
Qed.

Lemma filter_keeps_all {A} (keep : A -> bool) (l : list A) :
  (forall x, In x l -> keep x = true) -> List.filter keep l = l.
Proof.
  induction l as [|x l IH]; intros Hall; cbn [List.filter]; [reflexivity|].
  rewrite (Hall x) by now left. f_equal. apply IH. intros y Hy. apply Hall.
  now right.
Qed.

Lemma filter_twice {A} (keep keep' : A -> bool) (l : list A) :
  List.filter keep (List.filter keep' l) =
  List.filter (fun x => keep' x && keep x) l.
Proof.
  induction l as [|x l IH]; cbn [List.filter]; [reflexivity|].
  destruct (keep' x); cbn [List.filter andb]; [|exact IH].
  destruct (keep x); now rewrite IH.
Qed.

Lemma data_fields_dict_set (k : string) (v : field_entry)
    (d : list (string * field_entry)) :
  List.NoDup (map fst d) ->
  In k (map fst d) ->
  fe_type v = "id" ->
  List.filter is_data_field (dict_set k v d) =
  List.filter (fun nf => is_data_field nf && negb (String.eqb (fst nf) k)) d.
Proof.
  intros Hnd Hin Hid.
  induction d as [|[k0 v0] d IH]; cbn [map fst In] in *; [tauto|].
  apply List.NoDup_cons_iff in Hnd as [Hk0 Hnd].
  cbn [dict_set List.filter fst].
  destruct (String.eqb_spec k k0) as [->|Hk].
  - cbn [List.filter]. unfold is_data_field at 1. cbn [snd]. rewrite Hid. cbn.
    rewrite String.eqb_refl, andb_false_r.
    rewrite <- filter_twice. symmetry. apply filter_keeps_all.
    intros [n f] Hnf. apply filter_In in Hnf as [Hnf _]. cbn [fst].
    destruct (String.eqb_spec n k0) as [->|]; [|reflexivity].
    exfalso. apply Hk0. change k0 with (fst (k0, f)). now apply in_map.
  - cbn [List.filter].
    destruct (String.eqb_spec k0 k); [congruence|]. cbn [negb]. rewrite andb_true_r.
    destruct (is_data_field (k0, v0)).
    + f_equal. apply IH; [exact Hnd|]. destruct Hin; congruence.
    + apply IH; [exact Hnd|]. destruct Hin; congruence.
Qed.

Lemma set_key_fields_data_fields (field_names : list string)
    (fields fields' : list (string * field_entry)) :
  List.NoDup (map fst fields) ->
  set_key_fields field_names fields = (None, fields') ->
  List.filter is_data_field fields' =
  List.filter (fun nf => negb (existsb (String.eqb (fst nf)) field_names))
              (List.filter is_data_field fields).
Proof.
  revert fields. induction field_names as [|name0 names IH]; intros fields Hnd.
  - cbn [set_key_fields existsb negb]. intros [= <-].
    symmetry. now apply filter_keeps_all.
  - cbn [set_key_fields].
    destruct (assoc name0 fields) as [fm0|] eqn:H0; [|discriminate].
    destruct (String.eqb_spec (fe_type fm0) "id") as [Hid|Hid]; cbn [negb].
    + intros Hrun. rewrite (IH _ Hnd Hrun). rewrite !filter_twice.
      apply filter_ext_in. intros [n f] Hnf. cbn [existsb fst].
      destruct (is_data_field (n, f)) eqn:Hdata; [|reflexivity]. cbn [andb].
      destruct (String.eqb_spec n name0) as [->|]; [|reflexivity].
      exfalso. rewrite (assoc_NoDup_In name0 f fields Hnd Hnf) in H0.
      injection H0 as ->. unfold is_data_field in Hdata. cbn [snd] in Hdata.
      rewrite Hid in Hdata. discriminate.
    + destruct (_get_key_subtype fm0) as [e|st] eqn:Hst; [discriminate|].
      intros Hrun.
      assert (Hin0 : In name0 (map fst fields)) by (eapply assoc_keys, H0).
      rewrite (IH (dict_set name0 (mkEntry "id" (Some st)) fields)).
      * rewrite data_fields_dict_set by (try assumption; reflexivity).
        rewrite !filter_twice. apply filter_ext_in. intros [n f] _.
        cbn [existsb fst]. destruct (is_data_field (n, f)); [|reflexivity].
        cbn [andb]. now rewrite negb_orb.
      * now rewrite dict_set_keys.
      * exact Hrun.
Qed.

(** Setting a primary key takes the key fields out of the modelled columns:
    when [get_dtypes()] returned before [set_primary_key], it returns after
    it the same entries without those of the key fields. *)
Theorem set_primary_key_dtypes (primary_key : primary_key_t) (t t' : table_fields)
    (dtypes : list (string * string)) :
  List.NoDup (map fst (t_fields t)) ->
  set_primary_key primary_key t = (None, t') ->
  get_dtypes false (t_fields t) = inr dtypes ->
  get_dtypes false (t_fields t') =
  inr (List.filter
         (fun nd => negb (existsb (String.eqb (fst nd)) (key_fields primary_key)))
         dtypes).
Proof.
  intros Hnd Hrun Hd.
  destruct (set_key_fields (key_fields primary_key) (t_fields t))
    as [[e|] fields'] eqn:Hloop.
  - exfalso. destruct primary_key; cbn in Hrun, Hloop.
    + discriminate.
    + rewrite Hloop in Hrun. discriminate.
    + rewrite Hloop in Hrun. discriminate.
  - assert (Ht' : t' = mkTableFields fields' primary_key).
    { destruct primary_key; cbn in Hrun, Hloop.
      - injection Hloop as <-. now injection Hrun as <-.
      - rewrite Hloop in Hrun. now injection Hrun as <-.
      - rewrite Hloop in Hrun. now injection Hrun as <-. }
    subst t'. cbn [t_fields].
    destruct (set_key_fields_returns _ _ _ Hloop) as (Hkeys & _).
    rewrite get_dtypes_dtypes_of in Hd by exact Hnd.
    rewrite get_dtypes_dtypes_of by now rewrite Hkeys.
    cbn [orb] in Hd |- *.
    change (fun nf : string * field_entry => is_data_field nf) with is_data_field
      in Hd |- *.
    rewrite (set_key_fields_data_fields _ _ _ Hnd Hloop).
    now apply (dtypes_of_filter
                 (fun name => negb (existsb (String.eqb name)
                                      (key_fields primary_key)))).
Qed.

(** ** Constraints: what is transformed is what is reversed *)


Lemma reverse_constraints_loop_app (l1 l2 : list constraint_t) (data : DataFrame) :
  reverse_constraints_loop (l1 ++ l2) data =
  match reverse_constraints_loop l1 data with
  | inl e => inl e
  | inr data' => reverse_constraints_loop l2 data'
  end.
Proof.
  revert data. induction l1 as [|c l1 IH]; intros data; cbn; [reflexivity|].
  destruct (c_reverse_transform c data); [reflexivity|apply IH].
Qed.

Lemma transform_constraints_loop_fit (constraints : list constraint_t)
    (data data' : DataFrame) (errors errors' : list string)
    (to_reverse to_reverse' : list constraint_t) (warned warned' : list warning) :
  transform_constraints_loop constraints false data errors to_reverse warned =
    (data', errors', to_reverse', warned') ->
  exists added more_errors more_warned,
    to_reverse' = to_reverse ++ added /\
    errors' = errors ++ more_errors /\
    warned' = warned ++ more_warned /\
    sublist added constraints /\
    (length added + length more_warned + length more_errors = length constraints)%nat /\
    ((forall c d d', In c constraints -> c_transform c d = Transformed d' ->
                     c_reverse_transform c d' = inr d) ->
     reverse_constraints added data' = inr data).
Proof.
  revert data errors to_reverse warned.
  induction constraints as [|c constraints IH]; intros data errors to_reverse warned.
  - cbn. intros [= <- <- <- <-]. exists [], [], [].
    rewrite !app_nil_r. repeat split; try reflexivity; constructor.
  - cbn [transform_constraints_loop].
    destruct (c_transform c data) as [d1|missing| |text] eqn:Hc; intros Hrun;
      destruct (IH _ _ _ _ Hrun)
        as (added & errs & warns & -> & -> & -> & Hsub & Hlen & Hrev).
    + exists (c :: added), errs, warns. rewrite <- !app_assoc.
      split; [reflexivity|]. split; [reflexivity|]. split; [reflexivity|].
      split; [now constructor|]. split; [cbn [length]; lia|].
      intros Hinv. unfold reverse_constraints. cbn [rev].
      rewrite reverse_constraints_loop_app.
      unfold reverse_constraints in Hrev. rewrite Hrev.
      * cbn. rewrite (Hinv c data d1); [reflexivity|now left|exact Hc].
      * intros c0 d d' Hin. apply Hinv. now right.
    + exists added, errs, (CannotBeTransformed (class_name c) missing :: warns).
      rewrite <- !app_assoc.
      split; [reflexivity|]. split; [reflexivity|]. split; [reflexivity|].
      split; [now constructor|]. split; [cbn [length]; lia|].
      intros Hinv. apply Hrev. intros c0 d d' Hin. apply Hinv. now right.
    + exists added, errs, (ErrorTransforming (class_name c) :: warns).
      rewrite <- !app_assoc.
      split; [reflexivity|]. split; [reflexivity|]. split; [reflexivity|].
      split; [now constructor|]. split; [cbn [length]; lia|].
      intros Hinv. apply Hrev. intros c0 d d' Hin. apply Hinv. now right.
    + exists added, (text :: errs), warns.
      rewrite <- !app_assoc.
      split; [reflexivity|]. split; [reflexivity|]. split; [reflexivity|].
      split; [now constructor|]. split; [cbn [length]; lia|].
      intros Hinv. apply Hrev. intros c0 d d' Hin. apply Hinv. now right.
Qed.

Lemma transform_constraints_loop_condition (constraints : list constraint_t)
    (data : DataFrame) (errors : list string)
    (to_reverse : list constraint_t) (warned : list warning) :
  snd (fst (transform_constraints_loop constraints true data errors
              to_reverse warned)) = to_reverse.
Proof.
  revert data errors warned.
  induction constraints as [|c constraints IH]; intros data errors warned;
    [reflexivity|].
  cbn [transform_constraints_loop]. destruct (c_transform c data); apply IH.
Qed.

(** Every constraint is tried, also after one has failed, and each is
    accounted for once.  Of a call that is not for conditions, the constraints
    to reverse afterwards are constraints of the table, in their order, and
    together with the warnings and the errors they are as many as the
    constraints; the call raises only if some constraint raised an exception
    other than the two that lead to reject sampling.  A call for conditions
    leaves the constraints to reverse as they were. *)
Theorem transform_constraints_accounts (constraints : list constraint_t)
    (data : DataFrame) (is_condition : bool) (to_reverse0 : list constraint_t) :
  let '(result, to_reverse, warned) :=
    _transform_constraints constraints data is_condition to_reverse0 in
  if is_condition then to_reverse = to_reverse0
  else
    sublist to_reverse constraints /\
    (length to_reverse + length warned +
     match result with inl errors => length errors | inr _ => 0 end
     = length constraints)%nat /\
    match result with inl errors => errors <> [] | inr _ => True end.
Proof.
  unfold _transform_constraints. destruct is_condition.
  - pose proof (transform_constraints_loop_condition constraints data [] to_reverse0 [])
      as H.
    destruct (transform_constraints_loop constraints true data [] to_reverse0 [])
      as [[[d errs] tr] w]. exact H.
  - destruct (transform_constraints_loop constraints false data [] [] [])
      as [[[d errs] tr] w] eqn:Hrun.
    destruct (transform_constraints_loop_fit _ _ _ _ _ _ _ _ _ Hrun)
      as (added & more & warns & -> & -> & -> & Hsub & Hlen & _).
    cbn [app]. split; [exact Hsub|].
    destruct more as [|e more]; cbn [length app] in *.
    + split; [lia|exact I].
    + split; [lia|discriminate].
Qed.

(** When [_transform_constraints] returns for data that is no condition, the
    constraints to reverse undo it: if the [reverse_transform] of each
    constraint undoes its [transform], the loop of [Table.reverse_transform]
    over the constraints to reverse gives the data back.  A constraint whose
    transform failed with a warning is not reversed. *)
Theorem transform_constraints_round_trip (constraints : list constraint_t)
    (data data' : DataFrame) (to_reverse0 to_reverse : list constraint_t)
    (warned : list warning) :
  (forall c d d', In c constraints -> c_transform c d = Transformed d' ->
                  c_reverse_transform c d' = inr d) ->
  _transform_constraints constraints data false to_reverse0 =
    (inr data', to_reverse, warned) ->
  reverse_constraints to_reverse data' = inr data.
Proof.
  intros Hinv. unfold _transform_constraints.
  destruct (transform_constraints_loop constraints false data [] [] [])
    as [[[d errs] tr] w] eqn:Hrun.
  destruct (transform_constraints_loop_fit _ _ _ _ _ _ _ _ _ Hrun)
    as (added & more & warns & -> & -> & -> & _ & _ & Hrev).
  destruct more as [|e more]; cbn [app]; [|discriminate].
  intros [= <- <- <-]. now apply Hrev.
Qed.

(** ** Model parameters: the number of rows *)

Lemma py_round_int (n : Z) : Z.abs n < 2 ^ 53 -> py_round (Z2F n) = inr n.
Proof.
  intros Hn. unfold py_round.
  destruct (Z.eq_dec n 0) as [->|Hne].
  - now rewrite Prim2SF_Z2F_zero.
  - destruct (Prim2SF_Z2F n Hne Hn) as (m & e & -> & Hm & He & Hv).
    f_equal.
    assert (Habs : (if 0 <=? e then Z.pos m * 2 ^ e
                    else round_half_even (Z.pos m) (2 ^ (- e))) = Z.abs n).
    { destruct (0 <=? e) eqn:H0.
      - apply Z.leb_le in H0. assert (e = 0) as -> by lia.
        cbn in Hv |- *. lia.
      - assert (Hd : 0 < 2 ^ (- e)) by (apply Z.pow_pos_nonneg; lia).
        unfold round_half_even. rewrite Hv.
        rewrite Z.div_mul, Z.mod_mul by lia.
        destruct (2 * 0 <? 2 ^ (- e)) eqn:Hlt; [reflexivity|].
        apply Z.ltb_ge in Hlt. lia. }
    rewrite Habs. destruct (n <? 0) eqn:Hs; cbn [cond_Zopp].
    + apply Z.ltb_lt in Hs. lia.
    + apply Z.ltb_ge in Hs. lia.
Qed.

Lemma Z2F_not_nan (n : Z) : Z.abs n < 2 ^ 53 -> is_nan (Z2F n) = false.
Proof.
  intros Hn. unfold is_nan. rewrite FloatAxioms.eqb_spec.
  destruct (Z.eq_dec n 0) as [->|Hne].
  - now rewrite Prim2SF_Z2F_zero.
  - destruct (Prim2SF_Z2F n Hne Hn) as (m & e & -> & _).
    cbn. unfold SFeqb, SFcompare.
    destruct (n <? 0); rewrite ?Z.compare_refl, ?Pos.compare_cont_refl;
      reflexivity.
Qed.

Section ParametersRoundTrip.

Context `{TM : TabularModel}.
Variable model_t : Type.
Variable _get_parameters : model_t -> param_exn + gmap string (option scalar).
Variable _set_parameters :
  gmap string (option scalar) -> model_t -> option param_exn * model_t.

(** [set_parameters] never leaves a negative number of rows: whatever the
    dict holds, and whether the call raises or not, the number of rows of the
    instance stays at least 0.  A missing value ([None] or NaN) gives 0, and a
    float that holds an integer (below 2^53 in absolute value) gives that
    integer, or 0 if it is negative. *)
Theorem set_parameters_num_rows (parameters : gmap string (option scalar))
    (self : instance model_t) :
  0 <= _num_rows model_t self ->
  let self' := snd (set_parameters model_t _set_parameters parameters self) in
  0 <= _num_rows model_t self' /\
  (parameters !! "num_rows" = Some None \/
   parameters !! "num_rows" = Some (Some NaN) ->
   _num_rows model_t self' = 0) /\
  (forall n, Z.abs n < 2 ^ 53 ->
     parameters !! "num_rows" = Some (Some (SFloat (Z2F n))) ->
     _num_rows model_t self' = Z.max 0 n).
Proof.
  intros Hself. cbn zeta. unfold set_parameters.
  split; [|split].
  - destruct (parameters !! "num_rows") as [[v|]|]; cbn [snd pd_isnull];
      [| |exact Hself].
    + destruct (scalar_is_nan v).
      * destruct has_data_columns; [destruct (_set_parameters _ _)|]; cbn; lia.
      * destruct (int_round v) as [e|z]; [exact Hself|].
        destruct has_data_columns; [destruct (_set_parameters _ _)|]; cbn; lia.
    + destruct has_data_columns; [destruct (_set_parameters _ _)|]; cbn; lia.
  - intros [-> | ->]; cbn;
      (destruct has_data_columns; [destruct (_set_parameters _ _)|]); reflexivity.
  - intros n Hn ->. cbn [pd_isnull scalar_is_nan int_round].
    rewrite Z2F_not_nan, py_round_int by exact Hn.
    destruct has_data_columns; [destruct (_set_parameters _ _)|]; reflexivity.
Qed.

(** What [get_parameters] returns can be given to [set_parameters] of any
    instance of the class: the call does not fail before the model's own
    [_set_parameters], which receives the dict the model's [_get_parameters]
    gave, without its entry ['num_rows'] if it had one; the instance gets the
    number of rows of the first one, or 0 if that was negative. *)
Theorem parameters_round_trip (self other : instance model_t)
    (parameters : gmap string (option scalar)) :
  get_parameters model_t _get_parameters self = inr parameters ->
  exists own,
    (if has_data_columns then _get_parameters (fitted_model model_t self) = inr own
     else own = ∅) /\
    set_parameters model_t _set_parameters parameters other =
    (if has_data_columns then
       let '(e, model) :=
         _set_parameters (delete "num_rows" own) (fitted_model model_t other) in
       (e, mkInstance model_t (Z.max 0 (_num_rows model_t self)) model)
     else
       (None, mkInstance model_t (Z.max 0 (_num_rows model_t self))
                (fitted_model model_t other))).
Proof.
  unfold get_parameters, set_parameters.
  destruct has_data_columns.
  - destruct (_get_parameters (fitted_model model_t self)) as [e|own];
      [discriminate|].
    intros [= <-]. exists own. split; [reflexivity|].
    rewrite lookup_insert_eq. cbn [pd_isnull scalar_is_nan int_round].
    now rewrite delete_insert_eq.
  - intros [= <-]. exists ∅. split; [reflexivity|].
    rewrite lookup_insert_eq. cbn [pd_isnull scalar_is_nan int_round].
    reflexivity.
Qed.

End ParametersRoundTrip.

(** ** Conditioned batches hold only matching rows *)

Lemma leb_abs_sub_not_nan (x f d : float) :
  (abs (x - f) <=? d)%float = true -> is_nan f = false.
Proof.
  unfold is_nan.
  rewrite FloatAxioms.leb_spec, FloatAxioms.eqb_spec, FloatAxioms.abs_spec,
    FloatAxioms.sub_spec.
  destruct (Prim2SF f) as [s|s| |s m e].
  - intros _. now destruct s.
  - intros _. now destruct s.
  - rewrite SFsub_nan_r. discriminate.
  - intros _. cbn. unfold SFeqb, SFcompare.
    destruct s; rewrite ?Z.compare_refl, ?Pos.compare_cont_refl; reflexivity.
Qed.

Lemma filter_conditions_rows_match (rtol : float) (conds : conditions_t) :
  forall df df',
    NoDup (List.map fst conds) ->
    _filter_conditions df conds rtol = inr df' ->
    Forall (fun ir : scalar * Row =>
              Forall (fun cv => cell_eq (snd ir) (fst cv) (snd cv) = true) conds)
           (df_rows df').
Proof.
  induction conds as [|[c v] conds IH]; intros df df' Hnd Hrun.
  - apply Forall_forall. intros ir _. constructor.
  - apply NoDup_keys_cons in Hnd as [Hc Hnd].
    rewrite filter_conditions_cons in Hrun.
    set (P := fun cell : option scalar =>
                match cell with Some x => py_eq x v | None => false end = true).
    assert (Hstep : forall df1,
              _filter_conditions df1 conds rtol = inr df' ->
              Forall (fun ir : scalar * Row => P (snd ir !! c)) (df_rows df1) ->
              Forall (fun ir : scalar * Row =>
                        Forall (fun cv => cell_eq (snd ir) (fst cv) (snd cv) = true)
                               ((c, v) :: conds))
                     (df_rows df')).
    { intros df1 Hrun1 Hrows1.
      pose proof (IH _ _ Hnd Hrun1) as Hrest.
      destruct (filter_conditions_other_column rtol c P conds df1 df' Hc Hrun1)
        as [_ Hkeep].
      specialize (Hkeep Hrows1).
      rewrite Forall_forall in Hrest, Hkeep |- *. intros ir Hir.
      constructor; [|now apply Hrest].
      cbn [fst snd]. unfold cell_eq. exact (Hkeep ir Hir). }
    destruct (column_kind df c) as [[| |]|]; [| | |discriminate].
    + destruct (scalar_to_float v) as [f|] eqn:Hf; [|discriminate].
      apply (Hstep _ Hrun). cbn [assign_scalar df_rows filter_rows].
      apply Forall_forall. intros ir Hir.
      apply list_elem_of_In, in_map_iff in Hir as (ir0 & <- & Hir0).
      apply filter_In in Hir0 as [_ Hle]. cbn [snd].
      unfold P. rewrite lookup_insert_eq.
      apply py_eq_refl. apply leb_abs_sub_not_nan in Hle.
      destruct v as [x|z|s]; cbn in Hf |- *; [|reflexivity|discriminate].
      now injection Hf as ->.
    + apply (Hstep _ Hrun). cbn [df_rows filter_rows].
      apply Forall_forall. intros ir Hir.
      apply list_elem_of_In, filter_In in Hir as [_ Heq]. exact Heq.
    + apply (Hstep _ Hrun). cbn [df_rows filter_rows].
      apply Forall_forall. intros ir Hir.
      apply list_elem_of_In, filter_In in Hir as [_ Heq]. exact Heq.
Qed.

Section MatchingRows.

Context `{TM : TabularModel}.

Variable conditions : conditions_t.
Hypothesis distinct_columns : NoDup (List.map fst conditions).
Hypothesis data_columns : has_data_columns = true.

Lemma sample_rows_match num_rows transformed rtol previous w rows n w' :
  _sample_rows num_rows (Some conditions) transformed rtol previous w
  = (inr (rows, n), w') ->
  meets_conditions conditions rows.
Proof.
  unfold _sample_rows. rewrite data_columns. intros Hrun.
  apply bind_inr_inv in Hrun as (s1 & w1 & _ & Hrun).
  apply bind_inr_inv in Hrun as (s2 & w2 & _ & Hrun).
  apply bind_inr_inv in Hrun as (s3 & w3 & _ & Hrun).
  apply bind_inr_inv in Hrun as (s4 & w4 & Hfilter & Hrun).
  apply lift_inr_inv in Hfilter as [Hfilter _].
  injection Hrun as <- _ _.
  exact (filter_conditions_rows_match _ _ _ _ distinct_columns Hfilter).
Qed.

Lemma sample_batch_loop_match k batch_size transformed rtol progress_bar path :
  forall st w st' w',
    meets_conditions conditions (sampled st) ->
    _sample_batch_loop k batch_size (Some conditions) transformed rtol
      progress_bar path st w = (inr st', w') ->
    meets_conditions conditions (sampled st').
Proof.
  induction k as [|k IH]; intros st w st' w' Hst; cbn [_sample_batch_loop].
  - destruct (num_valid st <? batch_size); intros [= <- _]; exact Hst.
  - destruct (num_valid st <? batch_size); [|intros [= <- _]; exact Hst].
    intros Hrun. apply bind_inr_inv in Hrun as (st1 & w1 & Hround & Hrun).
    apply (IH st1 w1 st' w'); [|exact Hrun].
    apply sample_batch_round_inv in Hround
      as (rows & w0 & Hrows & -> & _).
    eapply sample_rows_match, Hrows.
Qed.

(** Conditional sampling gives only rows that meet the condition.  On a table
    with data columns, every row that [_sample_batch] returns for a condition
    (with distinct columns) has, in each column of the condition, a cell equal
    to the requested value; the cells of a float column have been set to the
    value. *)
Theorem sample_batch_rows_match batch_size max_tries transformed rtol
    (progress_bar : bool) path w df w' :
  _sample_batch batch_size max_tries (Some conditions) transformed rtol
    progress_bar path w = (inr df, w') ->
  Forall (fun ir : scalar * Row =>
            Forall (fun cv => cell_eq (snd ir) (fst cv) (snd cv) = true) conditions)
         (df_rows df).
Proof.
  unfold _sample_batch. intros Hrun.
  apply bind_inr_inv in Hrun as (st & w1 & Hloop & Hret).
  injection Hret as <- _.
  apply sample_batch_loop_match in Hloop; [|constructor].
  unfold head. cbn [df_rows]. unfold meets_conditions in Hloop.
  rewrite Forall_forall in Hloop |- *. intros ir Hir. apply Hloop.
  eapply elem_of_sublist; [exact Hir|apply sublist_take].
Qed.

End MatchingRows.

(** ** The properties above on concrete tables *)

Lemma make_condition_dfs_columns_witness :
  exists dfs,
    _make_condition_dfs Tables.a_b_a = inr dfs
    /\ List.map (fun df => List.map fst (df_columns df)) dfs = [["a"]; ["b"]]
    /\ List.NoDup (List.map (fun df => List.map fst (df_columns df)) dfs).
Proof.
  assert (Hrun : exists dfs,
            _make_condition_dfs Tables.a_b_a = inr dfs
            /\ List.map (fun df => List.map fst (df_columns df)) dfs
               = [["a"]; ["b"]]).
  { eexists. split; vm_compute; reflexivity. }
  destruct Hrun as (dfs & Hrun & Hcols).
  exists dfs. split; [exact Hrun|]. split; [exact Hcols|].
  apply (make_condition_dfs_columns Tables.a_b_a dfs); [|exact Hrun].
  repeat constructor; intros [].
Defined.

Lemma make_ids_unique_unique_witness :
  exists data',
    @make_ids_unique Tables.keyed_model Tables.twice_seven = inr data'
    /\ Examples.column_cells "id" data' = [Some (SInt 0); Some (SInt 1)]
    /\ exists column,
         get_column "id" data' = inr column
         /\ is_unique (List.map snd (snd column)) = true.
Proof.
  assert (Hrun : exists data',
            @make_ids_unique Tables.keyed_model Tables.twice_seven = inr data'
            /\ Examples.column_cells "id" data' = [Some (SInt 0); Some (SInt 1)]).
  { eexists. split; vm_compute; reflexivity. }
  destruct Hrun as (data' & Hrun & Hcells).
  exists data'. split; [exact Hrun|]. split; [exact Hcells|].
  destruct (@make_ids_unique_unique Tables.keyed_model Tables.twice_seven data')
    as (_ & _ & Hunique); [|exact Hrun|].
  - cbn. repeat constructor; cbn; intuition discriminate.
  - apply (Hunique "id" (mkField "id" "integer" "")); [now left|reflexivity|].
    discriminate.
Defined.

Lemma conditionally_sample_rows_tickets_witness :
  exists df w',
    @_conditionally_sample_rows Examples.cond_model Tables.two_x
      [("a", SStr "x")] (Some [("a", SStr "x")]) 100 None 0.01%float true false
      None (@Examples.world0 Examples.cond_model 0)
    = (inr df, w')
    /\ Examples.column_cells COND_IDX df = [Some (SInt 0); Some (SInt 1)].
Proof.
  assert (Hrun : exists rows w' tickets,
            @_sample_in_batches Examples.cond_model (len Tables.two_x)
              (or_default None (len Tables.two_x)) 100
              (Some [("a", SStr "x")]) (Some [("a", SStr "x")]) 0.01%float false
              None (@Examples.world0 Examples.cond_model 0)
            = (inr rows, w')
            /\ get_column COND_IDX Tables.two_x = inr tickets
            /\ len rows = 2
            /\ List.map snd (snd tickets) = [SInt 0; SInt 1]).
  { eexists. eexists. eexists. repeat split; vm_compute; reflexivity. }
  destruct Hrun as (rows & w' & tickets & Hrun & Htickets & Hlen & Hvalues).
  destruct (@conditionally_sample_rows_tickets Examples.cond_model Tables.two_x
              [("a", SStr "x")] (Some [("a", SStr "x")]) 100 None 0.01%float
              true false None _ rows w' tickets Hrun Htickets)
    as (df & Hcall & _ & _ & Hcells & _); [lia|].
  exists df, w'. split; [exact Hcall|].
  unfold Examples.column_cells. rewrite Hcells, Hlen, Hvalues. reflexivity.
Defined.

Lemma sample_files_after_witness :
  exists df w' lines,
    @sample Examples.half_model (Some 10) true 100 None (Some "out.csv") None
      (@Examples.world0 Examples.half_model 0%nat)
    = (inr df, w')
    /\ w_cwd w' = "/home"
    /\ w_fs w' = {[ "/home/out.csv" := lines ]}.
Proof.
  destruct (@sample_files_after Examples.half_model) with
    (num_rows := 10) (randomize := true) (max_tries := 100)
    (batch_size := @None Z) (path := Some "out.csv")
    (w := @Examples.world0 Examples.half_model 0%nat)
    as (df & w' & Hrun & Hcwd & lines & Hfiles).
  - intros n g. eexists. eexists. split; [reflexivity|].
    unfold len. cbn [df_rows]. rewrite length_map, length_seq. lia.
  - intros df. exists df. split; [reflexivity|lia].
  - constructor; [|constructor]. intros df. unfold len, filter_rows.
    cbn [df_rows]. apply Nat2Z.inj_le, List.filter_length_le.
  - lia.
  - reflexivity.
  - discriminate.
  - discriminate.
  - reflexivity.
  - intros p [= <-] _ _. reflexivity.
  - exists df, w', lines. split; [exact Hrun|]. split; [exact Hcwd|exact Hfiles].
Defined.

Lemma sample_batch_without_data_columns_witness :
  exists df w',
    @_sample_batch Tables.ids_model 3 100 (Some [("a", SStr "x")]) None
      0.01%float true None (@Examples.world0 Tables.ids_model 0%nat)
    = (inr df, w')
    /\ Examples.column_cells "id" df = [Some (SInt 0); Some (SInt 1); Some (SInt 2)]
    /\ w_calls w' = [].
Proof.
  assert (Hrev : exists df,
            @reverse_transform Tables.ids_model (frame_of_range 3) = inr df
            /\ Examples.column_cells "id" (head (Z.min (len df) 3) df)
               = [Some (SInt 0); Some (SInt 1); Some (SInt 2)]).
  { eexists. split; vm_compute; reflexivity. }
  destruct Hrev as (df & Hrev & Hcells).
  destruct (@sample_batch_without_data_columns Tables.ids_model 3 100
              (Some [("a", SStr "x")]) None 0.01%float true None
              (@Examples.world0 Tables.ids_model 0%nat) df)
    as (w' & Hrun & Hcalls).
  - reflexivity.
  - split; [lia|reflexivity].
  - lia.
  - exact Hrev.
  - exact I.
  - exists (head (Z.min (len df) 3) df), w'.
    split; [exact Hrun|]. split; [exact Hcells|exact Hcalls].
Defined.

Lemma sample_negative_batch_size_witness :
  exists w',
    @sample Examples.half_model (Some 10) true 100 (Some (-5)) None None
      (@Examples.world0 Examples.half_model 0%nat)
    = (inr empty_frame, w')
    /\ w_calls w' = [].
Proof.
  destruct (@sample_negative_batch_size Examples.half_model 10 (-5) true 100 None
              (@Examples.world0 Examples.half_model 0%nat))
    as (w' & Hrun & Hcalls).
  - split; [lia|reflexivity].
  - split; [reflexivity|lia].
  - discriminate.
  - reflexivity.
  - discriminate.
  - exists w'. split; [exact Hrun|exact Hcalls].
Defined.

Lemma sample_conditions_unknown_column_witness :
  exists w',
    @sample_conditions Examples.cond_model Tables.unknown_zz 100 None true None
      (@Examples.world0 Examples.cond_model 0)
    = (inl (ValueError
              [FText "Unexpected column name `"; FText "zz";
               FText "`. Use a column name that was present in the original data."]),
       w')
    /\ is_Some (w_fs w' !! "/home/.sample.csv.temp")
    /\ w_calls w' = [].
Proof.
  destruct (@sample_conditions_unknown_column Examples.cond_model
              Tables.unknown_zz 100 None true None
              (@Examples.world0 Examples.cond_model 0))
    as (column & path' & w' & Hrun & Hcolumn & Hpath & Hready & Hcalls & _).
  - reflexivity.
  - discriminate.
  - repeat constructor; intros [].
  - left. left. reflexivity.
  - assert (Hval : exists w1,
              @_validate_file_path Examples.cond_model None
                (@Examples.world0 Examples.cond_model 0)
              = (inr (Some TMP_FILE_NAME), w1)
              /\ w_cwd w1 = "/home").
    { eexists. split; vm_compute; reflexivity. }
    destruct Hval as (w1 & Hval & Hcwd).
    rewrite Hval in Hpath. injection Hpath as <- <-.
    assert (Hzz : column = "zz").
    { assert (Hsame : exists e w2,
                @sample_conditions Examples.cond_model Tables.unknown_zz 100 None
                  true None (@Examples.world0 Examples.cond_model 0)
                = (inl e, w2)
                /\ e = ValueError
                         [FText "Unexpected column name `"; FText "zz";
                          FText "`. Use a column name that was present in the original data."]).
      { eexists. eexists. split; vm_compute; reflexivity. }
      destruct Hsame as (e & w2 & Hsame & ->).
      rewrite Hsame in Hrun. now injection Hrun as <- _. }
    subst column. exists w1. split; [exact Hrun|]. split; [|exact Hcalls].
    unfold output_file_ready, abspath in Hready. rewrite Hcwd in Hready.
    exact Hready.
Defined.

Lemma sample_remaining_columns_unknown_column_witness :
  exists e w',
    @sample_remaining_columns Examples.cond_model Tables.known_zz 100 None true
      None (@Examples.world0 Examples.cond_model 0)
    = (inl e, w')
    /\ @_validate_conditions Examples.cond_model Tables.known_zz = inl e
    /\ w_calls w' = [].
Proof.
  assert (Hval : exists e,
            @_validate_conditions Examples.cond_model Tables.known_zz = inl e).
  { eexists. vm_compute. reflexivity. }
  destruct Hval as (e & Hval).
  destruct (@sample_remaining_columns_unknown_column Examples.cond_model
              Tables.known_zz 100 None true None
              (@Examples.world0 Examples.cond_model 0) e)
    as (path' & w1 & w' & Hrun & _ & _ & _ & Hcalls).
  - reflexivity.
  - discriminate.
  - discriminate.
  - exact Hval.
  - exists e, w'. split; [exact Hrun|]. split; [exact Hval|exact Hcalls].
Defined.

Lemma get_dtypes_ids_restrict_witness :
  get_dtypes true
    [("id", mkEntry "id" (Some "string")); ("age", mkEntry "numerical" (Some "integer"))]
  = inr [("id", "str"); ("age", "int")]
  /\ get_dtypes false
       [("id", mkEntry "id" (Some "string"));
        ("age", mkEntry "numerical" (Some "integer"))]
     = inr [("age", "int")].
Proof.
  split; [reflexivity|].
  destruct (get_dtypes_ids_restrict
              [("id", mkEntry "id" (Some "string"));
               ("age", mkEntry "numerical" (Some "integer"))]
              [("id", "str"); ("age", "int")])
    as (_ & _ & Hfalse).
  - repeat constructor; cbn; intuition discriminate.
  - reflexivity.
  - exact Hfalse.
Defined.

Lemma set_primary_key_returns_witness :
  exists t',
    set_primary_key (ManyKeys ["user"; "age"]) Tables.users = (None, t')
    /\ t_primary_key t' = ManyKeys ["user"; "age"]
    /\ assoc "user" (t_fields t') = Some (mkEntry "id" (Some "string"))
    /\ assoc "age" (t_fields t') = Some (mkEntry "id" (Some "integer"))
    /\ set_primary_key (ManyKeys ["user"; "age"]) t' = (None, t').
Proof.
  assert (Hrun : exists t',
            set_primary_key (ManyKeys ["user"; "age"]) Tables.users = (None, t')
            /\ assoc "user" (t_fields t') = Some (mkEntry "id" (Some "string"))
            /\ assoc "age" (t_fields t') = Some (mkEntry "id" (Some "integer"))).
  { eexists. repeat split; vm_compute; reflexivity. }
  destruct Hrun as (t' & Hrun & Huser & Hage).
  destruct (set_primary_key_returns _ _ _ Hrun) as (Hkey & _ & _ & _ & Hagain).
  exists t'. repeat split; assumption.
Defined.

Lemma set_primary_key_raises_witness :
  exists t',
    set_primary_key (ManyKeys ["user"; "height"; "age"]) Tables.users
    = (Some MissingSubtype, t')
    /\ t_primary_key t' = NoKey
    /\ set_primary_key (ManyKeys ["user"]) Tables.users
       = (None, mkTableFields (t_fields t') (ManyKeys ["user"])).
Proof.
  assert (Hrun : exists t',
            set_primary_key (ManyKeys ["user"; "height"; "age"]) Tables.users
            = (Some MissingSubtype, t')
            /\ set_primary_key (ManyKeys ["user"]) Tables.users
               = (None, mkTableFields (t_fields t') (ManyKeys ["user"]))).
  { eexists. split; vm_compute; reflexivity. }
  destruct Hrun as (t' & Hrun & Hdone).
  destruct (set_primary_key_raises _ _ _ _ Hrun) as (Hkey & _).
  exists t'. split; [exact Hrun|]. split; [exact Hkey|exact Hdone].
Defined.

Lemma set_primary_key_dtypes_witness :
  exists t',
    set_primary_key (OneKey "age") Tables.users = (None, t')
    /\ get_dtypes false (t_fields Tables.users)
       = inr [("user", "object"); ("age", "int"); ("score", "float");
              ("height", "float")]
    /\ get_dtypes false (t_fields t')
       = inr [("user", "object"); ("score", "float"); ("height", "float")].
Proof.
  assert (Hrun : exists t', set_primary_key (OneKey "age") Tables.users = (None, t')).
  { eexists. vm_compute. reflexivity. }
  destruct Hrun as (t' & Hrun).
  exists t'. split; [exact Hrun|]. split; [reflexivity|].
  apply (set_primary_key_dtypes (OneKey "age") Tables.users t'
           [("user", "object"); ("age", "int"); ("score", "float");
            ("height", "float")]).
  - repeat constructor; cbn; intuition discriminate.
  - exact Hrun.
  - reflexivity.
Defined.

Lemma transform_constraints_round_trip_witness :
  exists data' warned,
    _transform_constraints [Tables.needs_z; Tables.keep_all]
      (Examples.price_frame 1%float) false [Tables.needs_z]
    = (inr data', [Tables.keep_all], warned)
    /\ reverse_constraints [Tables.keep_all] data' = inr (Examples.price_frame 1%float).
Proof.
  assert (Hrun : exists data' warned,
            _transform_constraints [Tables.needs_z; Tables.keep_all]
              (Examples.price_frame 1%float) false [Tables.needs_z]
            = (inr data', [Tables.keep_all], warned)).
  { eexists. eexists. reflexivity. }
  destruct Hrun as (data' & warned & Hrun).
  exists data', warned. split; [exact Hrun|].
  apply (transform_constraints_round_trip [Tables.needs_z; Tables.keep_all]
           (Examples.price_frame 1%float) data' [Tables.needs_z]
           [Tables.keep_all] warned); [|exact Hrun].
  intros c d d' [<-|[<-|[]]]; cbn; [discriminate|].
  now intros [= ->].
Defined.

Lemma set_parameters_num_rows_witness :
  _num_rows unit
    (snd (@set_parameters Examples.half_model unit (fun _ model => (None, model))
            {[ "num_rows" := Some (SFloat (Z2F (-7))) ]} (mkInstance unit 3 tt)))
  = 0.
Proof.
  destruct (@set_parameters_num_rows Examples.half_model unit
              (fun _ model => (None, model))
              {[ "num_rows" := Some (SFloat (Z2F (-7))) ]} (mkInstance unit 3 tt))
    as (_ & _ & Hfloat).
  - cbn. lia.
  - apply (Hfloat (-7)); [reflexivity|reflexivity].
Defined.

Lemma parameters_round_trip_witness :
  exists parameters,
    @get_parameters Examples.half_model (gmap string (option scalar))
      (fun model => inr model)
      (mkInstance _ 5 {[ "mean" := Some (SFloat 1.5%float) ]})
    = inr parameters
    /\ @set_parameters Examples.half_model (gmap string (option scalar))
         (fun parameters _ => (None, parameters)) parameters (mkInstance _ 0 ∅)
       = (None, mkInstance _ 5
                  (delete "num_rows" ({[ "mean" := Some (SFloat 1.5%float) ]}
                                      : gmap string (option scalar)))).
Proof.
  eexists. split; [reflexivity|].
  destruct (@parameters_round_trip Examples.half_model
              (gmap string (option scalar)) (fun model => inr model)
              (fun parameters _ => (None, parameters))
              (mkInstance _ 5 {[ "mean" := Some (SFloat 1.5%float) ]})
              (mkInstance _ 0 ∅) _ eq_refl)
    as (own & Hown & Hset).
  change (@has_data_columns Examples.half_model) with true in Hown, Hset.
  cbn iota in Hown, Hset. injection Hown as <-. exact Hset.
Defined.

Lemma sample_batch_rows_match_witness :
  exists df w',
    @_sample_batch Examples.reject_model 3 100 (Some [("a", SStr "x")]) None
      0.01%float true None (@Examples.world0 Examples.reject_model 0)
    = (inr df, w')
    /\ len df = 3
    /\ meets_conditions [("a", SStr "x")] df.
Proof.
  assert (Hrun : exists df w',
            @_sample_batch Examples.reject_model 3 100 (Some [("a", SStr "x")])
              None 0.01%float true None
              (@Examples.world0 Examples.reject_model 0)
            = (inr df, w')
            /\ len df = 3).
  { eexists. eexists. split; vm_compute; reflexivity. }
  destruct Hrun as (df & w' & Hrun & Hlen).
  exists df, w'. split; [exact Hrun|]. split; [exact Hlen|].
  assert (Hnd : NoDup (List.map fst [("a", SStr "x")])).
  { cbn. apply NoDup_cons. split; [apply not_elem_of_nil|apply NoDup_nil_2]. }
  exact (@sample_batch_rows_match Examples.reject_model [("a", SStr "x")] Hnd
           eq_refl 3 100 None 0.01%float true None _ df w' Hrun).
Defined.

(** ** Unconditioned sampling against the state machine of the specification *)


Section Producible.

Context `{TM : TabularModel}.

(** What the engine expects of its collaborators, on a table with data
    columns. *)
Hypothesis generator_yields :
  forall n g, exists df g', _sample n None g = (inr df, g') /\ len df <= Z.max n 0.
Hypothesis reverse_transform_yields :
  forall df, exists df', reverse_transform df = inr df' /\ len df' <= len df.
Hypothesis constraints_only_drop :
  Forall (fun c : DataFrame -> DataFrame => forall df, len (c df) <= len df)
    _constraints.
Hypothesis data_columns_present : has_data_columns = true.










End Producible.


